(** * Smart Budgeting App for College Students: verification of [app.py]

    The program is one Streamlit script.  Each user interaction re-runs it
    from top to bottom over the current widget values; the only state kept
    between two runs is [st.session_state].  The numbers it handles are
    Python integers (every [st.number_input] is given the integer
    [min_value=0] and an integer [step]), and two expressions leave the
    integers: [budget * 0.2] and [budget / 30] (or [/ 6]) are binary64
    floating-point operations.  They are modelled with the IEEE 754
    specification of the Standard Library ([SpecFloat]), which is defined
    over [Z] and computes.

    The script is embedded as a program in a small monad that threads what a
    run can change (the session state, the page being rendered, the requests
    sent to the text-generation service) and carries exceptions. *)

From Stdlib Require Import ZArith NArith List Bool Lia QArith String Ascii.
From Stdlib Require Import Permutation.
From Stdlib Require Import DecimalString.
From Stdlib Require Import Floats.SpecFloat.
Import ListNotations.

Local Open Scope Z_scope.

(* ================================================================== *)
(** * Python values *)

(** ** Strings

    A [str] is a sequence of Unicode code points.  [lit] embeds an ASCII
    literal and [cp] a single code point given by number. *)

Definition pystr := list N.

Definition lit (s : string) : pystr := map N_of_ascii (list_ascii_of_string s).

Definition cp (n : N) : pystr := [n].

Fixpoint str_eqb (a b : pystr) : bool :=
  match a, b with
  | [], [] => true
  | x :: a', y :: b' => (x =? y)%N && str_eqb a' b'
  | _, _ => false
  end.

(** [sep.join(parts)] *)
Fixpoint join (sep : pystr) (parts : list pystr) : pystr :=
  match parts with
  | [] => []
  | [p] => p
  | p :: rest => p ++ sep ++ join sep rest
  end.

(** [str(i)] for an integer: decimal digits, a minus sign when negative. *)
Definition str_int (i : Z) : pystr := lit (NilZero.string_of_int (Z.to_int i)).

(** Left padding with the digit zero, as [%02d] and [%04d] do on a
    non-negative number. *)
Definition pad0 (width : nat) (s : pystr) : pystr :=
  repeat 48%N (width - List.length s) ++ s.

(** ** Exceptions and results *)

Inductive service_failure := Transport | Authentication | Quota.

Inductive exn :=
| OverflowError (msg : pystr)
| ZeroDivisionError (msg : pystr)
| ValueError (msg : pystr)
| KeyError (msg : pystr)
| AttributeError (msg : pystr)
| UnicodeEncodeError (msg : pystr)
| ServiceError (kind : service_failure) (msg : pystr)
| StreamlitSecretNotFoundError (msg : pystr)
| KeyboardInterrupt.

(** [isinstance(e, Exception)]: everything but the interrupt, which derives
    from [BaseException] directly. *)
Definition is_Exception (e : exn) : bool :=
  match e with
  | KeyboardInterrupt => false
  | _ => true
  end.

(** [str(e)] *)
Definition str_exn (e : exn) : pystr :=
  match e with
  | OverflowError msg | ZeroDivisionError msg | ValueError msg | KeyError msg
  | AttributeError msg | UnicodeEncodeError msg | ServiceError _ msg
  | StreamlitSecretNotFoundError msg => msg
  | KeyboardInterrupt => []
  end.

Inductive Result (A : Type) :=
| Ok (a : A)
| Raise (e : exn).
Arguments Ok {A} a.
Arguments Raise {A} e.

Definition bindR {A B} (r : Result A) (k : A -> Result B) : Result B :=
  match r with
  | Ok a => k a
  | Raise e => Raise e
  end.

(** ** Dictionaries

    A [dict] with [str] keys keeps its items in insertion order; assigning
    to a key that is present replaces the value in place. *)

Definition dict (V : Type) := list (pystr * V).

Fixpoint dict_set {V} (d : dict V) (k : pystr) (v : V) : dict V :=
  match d with
  | [] => [(k, v)]
  | (k', v') :: d' =>
      if str_eqb k' k then (k', v) :: d' else (k', v') :: dict_set d' k v
  end.

Fixpoint dict_get {V} (d : dict V) (k : pystr) : option V :=
  match d with
  | [] => None
  | (k', v') :: d' => if str_eqb k' k then Some v' else dict_get d' k
  end.

Definition dict_keys {V} (d : dict V) : list pystr := map fst d.
Definition dict_values {V} (d : dict V) : list V := map snd d.
Definition dict_items {V} (d : dict V) : list (pystr * V) := d.

(** A display [{k1: v1, ...}] inserts its items from left to right. *)
Definition dict_literal {V} (items : list (pystr * V)) : dict V :=
  fold_left (fun d kv => dict_set d (fst kv) (snd kv)) items [].

(** The builtin [sum]: start at [0] and add the items in turn. *)
Definition py_sum (xs : list Z) : Z := fold_left Z.add xs 0.

(** ** Dates *)

Record date := { year : Z; month : Z; day : Z }.

(** [str(d)] for a [datetime.date] is its ISO form [YYYY-MM-DD]. *)
Definition isoformat (d : date) : pystr :=
  pad0 4 (str_int (year d)) ++ lit "-" ++ pad0 2 (str_int (month d))
  ++ lit "-" ++ pad0 2 (str_int (day d)).

(** ** Bytes and UTF-8 *)

Definition bytes := list N.

Definition utf8_char (c : N) : Result bytes :=
  (if c <? 0x80 then Ok [c]
   else if c <? 0x800 then
     Ok [N.lor 0xC0 (N.shiftr c 6); N.lor 0x80 (N.land c 0x3F)]
   else if c <? 0x10000 then
     if (0xD800 <=? c) && (c <=? 0xDFFF) then Raise (UnicodeEncodeError [])
     else Ok [N.lor 0xE0 (N.shiftr c 12);
              N.lor 0x80 (N.land (N.shiftr c 6) 0x3F);
              N.lor 0x80 (N.land c 0x3F)]
   else if c <? 0x110000 then
     Ok [N.lor 0xF0 (N.shiftr c 18);
         N.lor 0x80 (N.land (N.shiftr c 12) 0x3F);
         N.lor 0x80 (N.land (N.shiftr c 6) 0x3F);
         N.lor 0x80 (N.land c 0x3F)]
   else Raise (ValueError []))%N.

(** [s.encode("utf-8")] *)
Fixpoint encode_utf8 (s : pystr) : Result bytes :=
  match s with
  | [] => Ok []
  | c :: s' =>
      bindR (utf8_char c) (fun b =>
      bindR (encode_utf8 s') (fun bs => Ok (b ++ bs)))
  end.

(* ================================================================== *)
(** * Binary64 arithmetic, as Python's [float] *)

Module Float.

Definition prec : Z := 53.
Definition emax : Z := 1024.

Definition float := spec_float.

(** [float(i)] for an integer [i], as the mixed operators do it before
    they compute: the nearest double, ties to even, and [OverflowError]
    when that double would not be finite. *)
Definition of_int (i : Z) : Result float :=
  match binary_normalize prec emax i 0 false with
  | S754_infinity _ => Raise (OverflowError (lit "int too large to convert to float"))
  | f => Ok f
  end.

Definition mul (x y : float) : float := SFmul prec emax x y.

(** [i * y] with [i] an integer and [y] a float. *)
Definition int_mul (i : Z) (y : float) : Result float :=
  bindR (of_int i) (fun x => Ok (mul x y)).

(** [a / b] on two integers is the correctly rounded quotient: the
    division is done on the integers themselves, not on their
    conversions. *)
Definition raw (i : Z) : float :=
  match i with
  | Z0 => S754_zero false
  | Zpos p => S754_finite false p 0
  | Zneg p => S754_finite true p 0
  end.

Definition int_truediv (a b : Z) : Result float :=
  if b =? 0 then Raise (ZeroDivisionError (lit "division by zero"))
  else match SFdiv prec emax (raw a) (raw b) with
       | S754_infinity _ =>
           Raise (OverflowError (lit "integer division result too large for a float"))
       | f => Ok f
       end.

(** [i < f] with [i] an integer and [f] a float compares the two exact
    values; no conversion of [i] takes place. *)
Definition int_lt (i : Z) (f : float) : bool :=
  match f with
  | S754_nan => false
  | S754_infinity s => negb s
  | S754_zero _ => i <? 0
  | S754_finite s m e =>
      let v := if s then Zneg m else Zpos m in
      if 0 <=? e then i <? v * 2 ^ e else i * 2 ^ (- e) <? v
  end.

(** The literal [0.2]: the double nearest to one fifth,
    [0x1.999999999999ap-3]. *)
Definition lit_0_2 : float := S754_finite false 7205759403792794 (-55).

(** The integer nearest to [n / d] for [0 < d], ties to even. *)
Definition round_half_even (n d : Z) : Z :=
  let q := n / d in
  match 2 * (n mod d) ?= d with
  | Lt => q
  | Gt => q + 1
  | Eq => if Z.even q then q else q + 1
  end.

(** [f"{x:.2f}"]: the decimal with two places nearest to the exact value
    of [x], ties to even. *)
Definition format_2f (x : float) : pystr :=
  match x with
  | S754_nan => lit "nan"
  | S754_infinity s => if s then lit "-inf" else lit "inf"
  | S754_zero s => (if s then lit "-" else []) ++ lit "0.00"
  | S754_finite s m e =>
      let cents :=
        if 0 <=? e then 100 * Zpos m * 2 ^ e
        else round_half_even (100 * Zpos m) (2 ^ (- e)) in
      (if s then lit "-" else []) ++ str_int (cents / 100) ++ lit "."
      ++ pad0 2 (str_int (cents mod 100))
  end.

(** Where the remainder [r] of a division by [d] lies: nowhere, below,
    at or above one half ([new_location] of the library, in one piece). *)
Definition div_location (d r : Z) : location :=
  if r =? 0 then loc_Exact else loc_Inexact (2 * r ?= d).

(** The exact value of a finite float, as a rational. *)
Definition to_Q (x : float) : option Q :=
  match x with
  | S754_zero _ => Some 0%Q
  | S754_finite s m e =>
      let v := if s then Zneg m else Zpos m in
      Some (if 0 <=? e then inject_Z (v * 2 ^ e)
            else Qmake v (Z.to_pos (2 ^ (- e))))
  | _ => None
  end.

End Float.

(* ================================================================== *)
(** * Tables ([pandas]) *)

Inductive Cell :=
| CDate (d : date)
| CStr (s : pystr)
| CInt (i : Z)
| CNaN.

Definition str_cell (c : Cell) : pystr :=
  match c with
  | CDate d => isoformat d
  | CStr s => s
  | CInt i => str_int i
  | CNaN => []
  end.

Record DataFrame := { columns : list pystr; rows : list (list Cell) }.

(** [pd.DataFrame(records)] on a list of dictionaries: the columns are the
    keys in order of first appearance, and a record without a key leaves
    its cell empty. *)
Definition add_column (cols : list pystr) (k : pystr) : list pystr :=
  if existsb (str_eqb k) cols then cols else cols ++ [k].

Definition record_columns (records : list (dict Cell)) : list pystr :=
  fold_left (fun cols r => fold_left add_column (dict_keys r) cols) records [].

Definition cell_of (r : dict Cell) (col : pystr) : Cell :=
  match dict_get r col with
  | Some c => c
  | None => CNaN
  end.

Definition DataFrame_of_records (records : list (dict Cell)) : DataFrame :=
  let cols := record_columns records in
  {| columns := cols; rows := map (fun r => map (cell_of r) cols) records |}.

(** [df[[c1, ..., cn]]]: the named columns in the order asked for;
    [KeyError] when one is missing. *)
Fixpoint index_of (col : pystr) (cols : list pystr) : option nat :=
  match cols with
  | [] => None
  | c :: cols' =>
      if str_eqb c col then Some O
      else match index_of col cols' with
           | Some i => Some (S i)
           | None => None
           end
  end.

Fixpoint positions (wanted cols : list pystr) : Result (list nat) :=
  match wanted with
  | [] => Ok []
  | c :: wanted' =>
      match index_of c cols with
      | None => Raise (KeyError c)
      | Some i => bindR (positions wanted' cols) (fun l => Ok (i :: l))
      end
  end.

Definition df_select (df : DataFrame) (wanted : list pystr) : Result DataFrame :=
  bindR (positions wanted (columns df)) (fun idx =>
  Ok {| columns := wanted;
        rows := map (fun r => map (fun i => nth i r CNaN) idx) (rows df) |}).

(** [df.to_csv(index=False)]: a header line, then one line per row; fields
    are separated by commas and a field is quoted only when it holds a
    comma, a quote or a line break. *)
Definition csv_special (c : N) : bool :=
  ((c =? 44) || (c =? 34) || (c =? 13) || (c =? 10))%N.

Definition csv_field (s : pystr) : pystr :=
  if existsb csv_special s
  then cp 34 ++ flat_map (fun c => if (c =? 34)%N then [c; c] else [c]) s ++ cp 34
  else s.

Definition csv_line (linesep : pystr) (fields : list pystr) : pystr :=
  join (cp 44) (map csv_field fields) ++ linesep.

Definition to_csv (linesep : pystr) (df : DataFrame) : pystr :=
  csv_line linesep (columns df)
  ++ flat_map (fun r => csv_line linesep (map str_cell r)) (rows df).

(* ================================================================== *)
(** * The page, the widgets and the world around a run *)

#[local] Set Warnings "-register-all".

(** What the script renders, one constructor per Streamlit call. *)
Inductive Element :=
| StPageConfig (page_title layout : pystr)
| StTitle (body : pystr)
| StCaption (body : pystr)
| StSubheader (body : pystr)
| StMarkdown (body : pystr)
| StRadio (label : pystr) (options : list pystr)
| StNumberInput (label : pystr)
| StExpander (label : pystr) (inside : list Element)
| StMetric (column : nat) (label value : pystr)
| StInfo (body : pystr)
| StError (body : pystr)
| StWarning (body : pystr)
| StSuccess (body : pystr)
| StPyplot (values : list Z) (labels : list pystr)
| StBarChart (bars : list (pystr * Z))
| StButton (label : pystr)
| StWrite (table : DataFrame)
| StDownloadButton (label : pystr) (data : bytes) (file_name mime : pystr).

Inductive Mode := Monthly | Semester.

Definition MONTHLY : pystr := lit "Monthly Budgeting".
Definition SEMESTER : pystr := lit "Semester Budgeting".

Definition mode_str (m : Mode) : pystr :=
  match m with
  | Monthly => MONTHLY
  | Semester => SEMESTER
  end.

(** The widget values the browser holds when a run starts: the option chosen
    in the radio, what was typed in each number box (by widget key, the label
    standing for a key that is not given), and the button that was pressed. *)
Record Widgets := {
  radio_choice : Mode;
  number_entry : pystr -> Z;
  button_clicked : pystr -> bool
}.

(** An integer [st.number_input] delivers an integer between its
    [min_value] and the largest integer the browser represents exactly,
    [2 ^ 53 - 1].  An entry outside this range is dropped and the box
    delivers its default, which is [min_value] when no [value] is given,
    as in every box of the script. *)
Definition MAX_SAFE_INTEGER : Z := 2 ^ 53 - 1.

Definition number_value (min_value entry : Z) : Z :=
  if (min_value <=? entry) && (entry <=? MAX_SAFE_INTEGER) then entry
  else min_value.

(** The interpolated fields of the prompt of [get_ai_tips] (lines 18--31);
    the fixed text around them is left out. *)
Record Prompt := {
  prompt_mode : pystr;
  prompt_expenses : dict Z;
  prompt_budget : Z;
  prompt_remaining : Z;
  prompt_goal : Z
}.

Record Response := { text : Result pystr }.

Record GenerativeModel := { api_key : pystr; model_name : pystr }.

Inductive Platform := Posix | Windows.

(** [os.linesep], the line terminator [to_csv] uses by default. *)
Definition linesep (p : Platform) : pystr :=
  match p with
  | Posix => cp 10
  | Windows => cp 13 ++ cp 10
  end.

(** [st.secrets]: the secrets store of the deployment, or no store at all
    (no [secrets.toml]); without a store every access, a membership test
    included, raises [StreamlitSecretNotFoundError] with a message that
    lists the places searched. *)
Inductive Secrets :=
| NoSecrets (message : pystr)
| SecretsStore (items : dict pystr).

(** [key in st.secrets] *)
Definition secrets_contains (secrets : Secrets) (key : pystr) : Result bool :=
  match secrets with
  | NoSecrets message => Raise (StreamlitSecretNotFoundError message)
  | SecretsStore items =>
      Ok match dict_get items key with Some _ => true | None => false end
  end.

(** [st.secrets[key]] *)
Definition secrets_get (secrets : Secrets) (key : pystr) : Result pystr :=
  match secrets with
  | NoSecrets message => Raise (StreamlitSecretNotFoundError message)
  | SecretsStore items =>
      match dict_get items key with
      | Some value => Ok value
      | None => Raise (KeyError key)
      end
  end.

(** What a run finds around it: the secrets store, the date, the
    text-generation service behind [generate_content], and the platform. *)
Record World := {
  secrets : Secrets;
  today : date;
  service : GenerativeModel -> Prompt -> Result Response;
  platform : Platform
}.

(* ================================================================== *)
(** * Runs *)

(** One saved snapshot: the dictionary appended at lines 157--164. *)
Definition HistoryRecord := dict Cell.

(** What a run can change.  The page holds the elements that the calls of
    the script render, in order; what Streamlit itself shows for an error
    that ends the run is not part of it. *)
Record Run := {
  history : option (list HistoryRecord);   (* st.session_state["history"] *)
  page : list Element;
  requests : list (GenerativeModel * Prompt)
}.

Definition M (A : Type) : Type := Run -> Run * Result A.

Definition ret {A} (a : A) : M A := fun s => (s, Ok a).

Definition bind {A B} (c : M A) (k : A -> M B) : M B :=
  fun s =>
    match c s with
    | (s', Ok a) => k a s'
    | (s', Raise e) => (s', Raise e)
    end.

Definition raise {A} (e : exn) : M A := fun s => (s, Raise e).

Definition lift {A} (r : Result A) : M A := fun s => (s, r).

Declare Scope run_scope.
Delimit Scope run_scope with run.
Notation "x <- c ;; k" := (bind c (fun x => k))
  (at level 61, c at next level, right associativity) : run_scope.
Notation "c ;; k" := (bind c (fun _ => k))
  (at level 61, right associativity) : run_scope.
Local Open Scope run_scope.

Definition emit (e : Element) : M unit :=
  fun s => ({| history := history s; page := page s ++ [e];
               requests := requests s |}, Ok tt).

(** [try: body except Exception as e: handler(e)] *)
Definition try_except {A} (body : M A) (handler : exn -> M A) : M A :=
  fun s =>
    match body s with
    | (s', Ok a) => (s', Ok a)
    | (s', Raise e) => if is_Exception e then handler e s' else (s', Raise e)
    end.

(** [with st.expander(label): body] renders the body inside the expander. *)
Definition with_expander {A} (label : pystr) (body : M A) : M A :=
  fun s =>
    let '(s', r) := body {| history := history s; page := [];
                            requests := requests s |} in
    ({| history := history s';
        page := page s ++ [StExpander label (page s')];
        requests := requests s' |}, r).

(** [for x in xs: acc = body(x, acc)] *)
Fixpoint for_each {X A} (xs : list X) (body : X -> A -> M A) (acc : A) : M A :=
  match xs with
  | [] => ret acc
  | x :: xs' => acc' <- body x acc ;; for_each xs' body acc'
  end.

(** ** Streamlit calls *)

Definition st_radio (ui : Widgets) (label : pystr) (options : list pystr)
  : M pystr :=
  emit (StRadio label options) ;; ret (mode_str (radio_choice ui)).

Definition st_number_input (ui : Widgets) (label : pystr)
    (min_value step : Z) (key : option pystr) : M Z :=
  emit (StNumberInput label) ;;
  ret (number_value min_value
         (number_entry ui match key with Some k => k | None => label end)).

Definition st_button (ui : Widgets) (label : pystr) : M bool :=
  emit (StButton label) ;; ret (button_clicked ui label).

(** ** Session state *)

Definition session_has_history : M bool :=
  fun s => (s, Ok match history s with Some _ => true | None => false end).

Definition session_set_history (h : list HistoryRecord) : M unit :=
  fun s => ({| history := Some h; page := page s; requests := requests s |},
            Ok tt).

(** [st.session_state["history"]] *)
Definition session_history : M (list HistoryRecord) :=
  fun s =>
    match history s with
    | Some h => (s, Ok h)
    | None => (s, Raise (KeyError (lit "history")))
    end.

(** [st.session_state["history"].append(r)]: the list in the session is
    extended in place. *)
Definition history_append (r : HistoryRecord) : M unit :=
  h <- session_history ;; session_set_history (h ++ [r]).

(* ================================================================== *)
(** * The script *)

(** ** Gemini configuration (lines 11--15) *)

Definition GEMINI_API_KEY : pystr := lit "GEMINI_API_KEY".

(** What lines 11--15 bind to the global [model], or the error that ends
    the run at line 11: the membership test raises when there is no
    secrets store. *)
Definition model (w : World) : Result (option GenerativeModel) :=
  bindR (secrets_contains (secrets w) GEMINI_API_KEY) (fun present =>
  if present then
    bindR (secrets_get (secrets w) GEMINI_API_KEY) (fun k =>
    Ok (Some {| api_key := k; model_name := lit "gemini-1.5-flash" |}))
  else Ok None).

(** [model.generate_content(prompt)] on a configured model is the one place
    where a request leaves the program. *)
Definition generate_content (w : World) (m : GenerativeModel) (prompt : Prompt)
  : M Response :=
  fun s => ({| history := history s; page := page s;
               requests := requests s ++ [(m, prompt)] |},
            service w m prompt).

(** The message of the [AttributeError] on [None]. *)
Definition NONE_MESSAGE : pystr :=
  lit "'NoneType' object has no attribute 'generate_content'".

(** Lines 17--33.  The function reads the global [model], here its
    argument [configured]: what lines 11--15 bound to it.  With
    [model = None] the attribute lookup [model.generate_content] raises
    before anything is called. *)
Definition get_ai_tips (w : World) (configured : option GenerativeModel)
    (expenses : dict Z) (budget remaining goal : Z) (mode : pystr) : M pystr :=
  let prompt := {| prompt_mode := mode; prompt_expenses := expenses;
                   prompt_budget := budget; prompt_remaining := remaining;
                   prompt_goal := goal |} in
  match configured with
  | None =>
      raise (AttributeError NONE_MESSAGE)
  | Some m =>
      response <- generate_content w m prompt ;;
      lift (text response)
  end.

(** ** Categories (lines 56--66 and 73--84) *)

Definition monthly_categories : dict pystr :=
  dict_literal
    [ (cp 0x1F354 ++ lit " Food", lit "Daily meals, snacks, canteen");
      (cp 0x1F68C ++ lit " Transport", lit "Bus, train, Uber, bike fuel");
      (cp 0x1F3E0 ++ lit " Rent/Hostel", lit "Hostel fee or PG rent");
      (cp 0x270F ++ cp 0xFE0F ++ lit " Study Materials",
       lit "Books, stationery, software");
      (cp 0x1F4F1 ++ lit " Internet/Phone", lit "Mobile data, WiFi, recharge");
      (cp 0x1F3AC ++ lit " Entertainment & Outings",
       lit "Movies, hangouts, trips");
      (cp 0x1F3E5 ++ lit " Health & Fitness",
       lit "Medicines, doctor visits, gym");
      (cp 0x1F3AD ++ lit " Clubs/Events", lit "Societies, fests, competitions");
      (cp 0x1F4E6 ++ lit " Others", lit "Miscellaneous expenses") ].

Definition semester_categories : dict pystr :=
  dict_literal
    [ (cp 0x1F4DA ++ lit " Tuition Fees", lit "College or semester fees");
      (cp 0x1F3E0 ++ lit " Hostel/PG Rent",
       lit "Semester-long rent or hostel fee");
      (cp 0x270F ++ cp 0xFE0F ++ lit " Study Materials",
       lit "Books, notes, stationery, software");
      (cp 0x1F68C ++ lit " Transport", lit "Travel home, trips, daily commute");
      (cp 0x1F3AD ++ lit " College Events/Fests",
       lit "Cultural fest, tech fest, competitions");
      (cp 0x1F392 ++ lit " Trips & Excursions",
       lit "Industrial visit, college trip");
      (cp 0x1F3E5 ++ lit " Health & Insurance",
       lit "Medicines, hospital, insurance");
      (cp 0x1F4F1 ++ lit " Internet & Utilities",
       lit "WiFi, mobile recharge, electricity");
      (cp 0x1F354 ++ lit " Food & Daily Expenses",
       lit "Canteen, groceries, mess");
      (cp 0x1F4E6 ++ lit " Others", lit "Miscellaneous semester expenses") ].

(** ** The calculator (lines 96--127) *)

(** Line 96: [total_expenses = sum(expenses.values())] *)
Definition computeTotal (expenses : dict Z) : Z := py_sum (dict_values expenses).

(** Line 97: [remaining = budget - total_expenses] *)
Definition computeRemaining (budget total_expenses : Z) : Z :=
  budget - total_expenses.

(** Lines 112 and 115--116: [budget / 30], and [budget / months] with
    [months = 6]. *)
Definition computeEquivalent (m : Mode) (budget : Z) : Result Float.float :=
  match m with
  | Monthly => Float.int_truediv budget 30
  | Semester => let months := 6 in Float.int_truediv budget months
  end.

Inductive Status := Exceeded | NearLimit | OnTrack.

(** Lines 122--127: the three-way test
<<
    if remaining < 0: ... elif remaining < budget * 0.2: ... else: ...
>> *)
Definition classifyStatus (remaining budget : Z) : Result Status :=
  if remaining <? 0 then Ok Exceeded
  else
    bindR (Float.int_mul budget Float.lit_0_2) (fun limit =>
    if Float.int_lt remaining limit then Ok NearLimit else Ok OnTrack).

(** The banner of each status: [st.error], [st.warning] or [st.success]. *)
Definition banner (status : Status) : Element :=
  match status with
  | Exceeded =>
      StError (cp 0x26A0 ++ cp 0xFE0F ++ lit " You exceeded your budget!")
  | NearLimit =>
      StWarning (cp 0x26A0 ++ cp 0xFE0F
                 ++ lit " You are close to exceeding your budget.")
  | OnTrack => StSuccess (cp 0x2705 ++ lit " You're on track!")
  end.

(** [ax.pie(values, labels=...)] refuses a negative wedge. *)
Definition ax_pie (values : list Z) (labels : list pystr)
  : Result (list Z * list pystr) :=
  if existsb (fun v => v <? 0) values
  then Raise (ValueError (lit "Wedge sizes 'x' must be non negative values"))
  else Ok (values, labels).

(** ** The sections of the page *)

Definition RUPEE : pystr := cp 0x20B9.

(** What the input section leaves in the script's variables. *)
Record Entries := {
  mode : pystr;
  budget : Z;
  goal : Z;
  expenses : dict Z
}.

(** The labels of the budget and goal boxes (lines 53--54 and 70--71). *)
Definition budget_label (m : Mode) : pystr :=
  match m with
  | Monthly => cp 0x1F4B8 ++ lit " Monthly Budget (" ++ RUPEE ++ lit "):"
  | Semester => cp 0x1F4B8 ++ lit " Semester Budget (" ++ RUPEE ++ lit "):"
  end.

Definition goal_label (m : Mode) : pystr :=
  match m with
  | Monthly => cp 0x1F3AF ++ lit " Monthly Savings Goal (" ++ RUPEE ++ lit "):"
  | Semester => cp 0x1F3AF ++ lit " Semester Savings Goal (" ++ RUPEE ++ lit "):"
  end.

Definition SAVE_LABEL : pystr := cp 0x1F4BE ++ lit " Save this budget data".
Definition TIPS_LABEL : pystr := cp 0x2728 ++ lit " Get AI Tips".

(** Lines 38--94: header, mode, budget and goal, and one amount per
    category. *)
Definition input_section (ui : Widgets) : M Entries :=
  emit (StPageConfig (cp 0x1F393 ++ lit " Student Budgeting App") (lit "wide")) ;;
  emit (StTitle (cp 0x1F393 ++ lit " Smart Budgeting App for College Students")) ;;
  emit (StCaption (lit "Plan monthly OR semester budgets, track expenses, visualize data, and get AI tips!")) ;;
  mode <- st_radio ui (cp 0x1F4C5 ++ lit " Choose mode:") [MONTHLY; SEMESTER] ;;
  bgc <- (if str_eqb mode MONTHLY then
            budget <- st_number_input ui (budget_label Monthly) 0 500 None ;;
            goal <- st_number_input ui (goal_label Monthly) 0 500 None ;;
            ret (budget, goal, monthly_categories)
          else
            budget <- st_number_input ui (budget_label Semester) 0 1000 None ;;
            goal <- st_number_input ui (goal_label Semester) 0 1000 None ;;
            ret (budget, goal, semester_categories)) ;;
  let '(budget, goal, categories) := bgc in
  emit (StSubheader (cp 0x1F4DD ++ lit " Add Your Expenses")) ;;
  expenses <-
    for_each (dict_items categories)
      (fun item expenses =>
         let '(cat, desc) := item in
         with_expander (cat ++ lit " - " ++ desc)
           (amount <- st_number_input ui
              (lit "Enter amount for " ++ cat ++ lit " (" ++ RUPEE ++ lit "):")
              0 500 (Some (cat ++ mode)) ;;
            ret (dict_set expenses cat amount)))
      [] ;;
  ret {| mode := mode; budget := budget; goal := goal; expenses := expenses |}.

(** The lines of [st.info] at lines 113 and 117. *)
Definition insight_text (m : Mode) (equivalent : Float.float) : pystr :=
  match m with
  | Monthly =>
      cp 0x1F4C6 ++ lit " Your daily spending allowance: "
      ++ RUPEE ++ Float.format_2f equivalent
  | Semester =>
      cp 0x1F4C6 ++ lit " Equivalent Monthly Budget: "
      ++ RUPEE ++ Float.format_2f equivalent
  end.

(** Lines 99--106: the three metrics. *)
Definition budget_summary (v : Entries) (total_expenses remaining : Z) : M unit :=
  emit (StSubheader (cp 0x1F4CA ++ lit " Budget Summary")) ;;
  emit (StMetric 1 (cp 0x1F4B8 ++ lit " Budget") (RUPEE ++ str_int (budget v))) ;;
  emit (StMetric 2 (cp 0x1F4C9 ++ lit " Expenses") (RUPEE ++ str_int total_expenses)) ;;
  emit (StMetric 3 (cp 0x2705 ++ lit " Remaining") (RUPEE ++ str_int remaining)).

(** Lines 108--117: the time-scaled figure, behind [budget > 0]. *)
Definition insights (v : Entries) : M unit :=
  if str_eqb (mode v) MONTHLY && (budget v >? 0) then
    daily_budget <- lift (computeEquivalent Monthly (budget v)) ;;
    emit (StInfo (insight_text Monthly daily_budget))
  else if str_eqb (mode v) SEMESTER && (budget v >? 0) then
    monthly_equiv <- lift (computeEquivalent Semester (budget v)) ;;
    emit (StInfo (insight_text Semester monthly_equiv))
  else ret tt.

(** Lines 119--127: the banner. *)
Definition warnings (v : Entries) (remaining : Z) : M unit :=
  status <- lift (classifyStatus remaining (budget v)) ;;
  emit (banner status).

(** Lines 129--136: the proportion chart, only when something was spent. *)
Definition visualization (v : Entries) (total_expenses : Z) : M unit :=
  emit (StSubheader (cp 0x1F4C8 ++ lit " Expense Distribution")) ;;
  if total_expenses >? 0 then
    fig <- lift (ax_pie (dict_values (expenses v)) (dict_keys (expenses v))) ;;
    emit (StPyplot (fst fig) (snd fig))
  else ret tt.

(** Lines 138--147: the comparison chart, with a bar for what remains. *)
Definition bar_chart (v : Entries) (remaining : Z) : M unit :=
  emit (StSubheader (cp 0x1F4CA ++ lit " Budget vs Expenses")) ;;
  let df := combine (dict_keys (expenses v)) (dict_values (expenses v)) in
  let df := df ++ [(lit "Remaining", remaining)] in
  emit (StBarChart df).

(** Lines 96--147: totals, metrics, the time-scaled figure, the banner and
    the two charts.  Returns [total_expenses] and [remaining]. *)
Definition summary_section (v : Entries) : M (Z * Z) :=
  let total_expenses := computeTotal (expenses v) in
  let remaining := computeRemaining (budget v) total_expenses in
  budget_summary v total_expenses remaining ;;
  insights v ;;
  warnings v remaining ;;
  visualization v total_expenses ;;
  bar_chart v remaining ;;
  ret (total_expenses, remaining).

Definition HISTORY_COLUMNS : list pystr :=
  [lit "Date"; lit "Mode"; lit "Budget"; lit "Expenses"; lit "Remaining";
   lit "Goal"].

(** Lines 157--164: the snapshot that a save appends. *)
Definition snapshot (w : World) (v : Entries) (total_expenses remaining : Z)
  : HistoryRecord :=
  dict_literal
    [ (lit "Date", CDate (today w));
      (lit "Mode", CStr (mode v));
      (lit "Budget", CInt (budget v));
      (lit "Expenses", CInt total_expenses);
      (lit "Remaining", CInt remaining);
      (lit "Goal", CInt (goal v)) ].

Definition DOWNLOAD_LABEL : pystr :=
  cp 0x2B07 ++ cp 0xFE0F ++ lit " Download Expense History (CSV)".

(** Lines 166--172: the table of the log and its download, when the log is
    not empty. *)
Definition export_section (w : World) (h : list HistoryRecord) : M unit :=
  if (0 <? Z.of_nat (List.length h)) then
    let history_df := DataFrame_of_records h in
    view <- lift (df_select history_df HISTORY_COLUMNS) ;;
    emit (StWrite view) ;;
    csv <- lift (encode_utf8 (to_csv (linesep (platform w)) history_df)) ;;
    emit (StDownloadButton DOWNLOAD_LABEL csv (lit "expenses.csv")
            (lit "text/csv"))
  else ret tt.

(** Lines 152--172: the expense log and its export. *)
Definition log_section (w : World) (ui : Widgets) (v : Entries)
    (total_expenses remaining : Z) : M unit :=
  emit (StSubheader (cp 0x1F5C2 ++ lit " Expense Log")) ;;
  present <- session_has_history ;;
  (if negb present then session_set_history [] else ret tt) ;;
  save <- st_button ui SAVE_LABEL ;;
  (if save then history_append (snapshot w v total_expenses remaining)
   else ret tt) ;;
  h <- session_history ;;
  export_section w h.

(** The warning of line 183. *)
Definition TIPS_WARNING : Element :=
  StWarning (cp 0x26A0 ++ cp 0xFE0F
             ++ lit " Unable to fetch AI tips. Please check your Gemini API key.").

(** Lines 177--187: the advice button and the footer. *)
Definition tips_section (w : World) (configured : option GenerativeModel)
    (ui : Widgets) (v : Entries) (remaining : Z) : M unit :=
  emit (StSubheader (cp 0x1F916 ++ lit " AI-Powered Smart Tips")) ;;
  asked <- st_button ui TIPS_LABEL ;;
  (if asked then
     try_except
       (tips <- get_ai_tips w configured (expenses v) (budget v) remaining
                  (goal v) (mode v) ;;
        emit (StSuccess tips))
       (fun e =>
          emit TIPS_WARNING ;;
          emit (StError (str_exn e)))
   else ret tt) ;;
  emit (StMarkdown (lit "---")) ;;
  emit (StCaption (cp 0x26A1 ++ lit " Powered by **Google Gemini AI** + **Streamlit**")) ;;
  emit (StCaption (cp 0x1F468 ++ cp 0x200D ++ cp 0x1F4BB
                   ++ lit " Developed by **Soham Dey**")).

(** The whole script, top to bottom: every run starts with lines 11--15,
    and stops there when they raise. *)
Definition script (w : World) (ui : Widgets) : M unit :=
  configured <- lift (model w) ;;
  v <- input_section ui ;;
  tr <- summary_section v ;;
  log_section w ui v (fst tr) (snd tr) ;;
  tips_section w configured ui v (snd tr).

(** One run over the session state left by the run before; the page and the
    record of requests start empty. *)
Definition rerun (w : World) (ui : Widgets) (h : option (list HistoryRecord))
  : Run * Result unit :=
  script w ui {| history := h; page := []; requests := [] |}.

(** A session: the runs triggered by successive interactions, the first on
    an empty session state. *)
Fixpoint session_from (h : option (list HistoryRecord))
    (runs : list (World * Widgets)) : option (list HistoryRecord) :=
  match runs with
  | [] => h
  | (w, ui) :: runs' => session_from (history (fst (rerun w ui h))) runs'
  end.

Definition session (runs : list (World * Widgets)) : option (list HistoryRecord) :=
  session_from None runs.

(** The calculator alone, on any mode, budget and mapping: what lines
    96--127 compute, without the rendering. *)
Record Summary := {
  summary_total : Z;
  summary_remaining : Z;
  summary_equivalent : option Float.float;
  summary_status : Status
}.

Definition calculator (mode : pystr) (budget : Z) (expenses : dict Z)
  : Result Summary :=
  let total_expenses := computeTotal expenses in
  let remaining := computeRemaining budget total_expenses in
  bindR (if str_eqb mode MONTHLY && (budget >? 0) then
           bindR (computeEquivalent Monthly budget) (fun d => Ok (Some d))
         else if str_eqb mode SEMESTER && (budget >? 0) then
           bindR (computeEquivalent Semester budget) (fun d => Ok (Some d))
         else Ok None) (fun equivalent =>
  bindR (classifyStatus remaining budget) (fun status =>
  Ok {| summary_total := total_expenses; summary_remaining := remaining;
        summary_equivalent := equivalent; summary_status := status |})).

(* ================================================================== *)
(** * The specification's wording, for comparison *)

(** "Exceeded when remaining < 0; NearLimit when 0 <= remaining < 0.2 x
    budget; OnTrack otherwise", over the rationals. *)
Definition classifyStatus_spec (remaining budget : Z) : Status :=
  if Qlt_le_dec (inject_Z remaining) 0 then Exceeded
  else if Qlt_le_dec (inject_Z remaining) (0.2 * inject_Z budget) then NearLimit
  else OnTrack.

(** "Sum of all values; 0 for an empty mapping." *)
Fixpoint sum_of_values (E : dict Z) : Z :=
  match E with
  | [] => 0
  | (_, v) :: E' => v + sum_of_values E'
  end.

(* ================================================================== *)
(** * Closed forms used in the statements *)

(** The run [s] with [els] rendered after what it already shows. *)
Definition extend (s : Run) (els : list Element) : Run :=
  {| history := history s; page := page s ++ els; requests := requests s |}.

Definition start (h : option (list HistoryRecord)) : Run :=
  {| history := h; page := []; requests := [] |}.

(** A computation that only renders: whatever the run it starts from, it
    appends the same elements and ends with the same result. *)
Definition writer {A} (c : M A) : Prop :=
  exists els r, forall s, c s = (extend s els, r).

Definition categories_of (m : Mode) : dict pystr :=
  match m with
  | Monthly => monthly_categories
  | Semester => semester_categories
  end.

(** What the input section reads from the widgets. *)
Definition entries_of (ui : Widgets) : Entries :=
  let m := radio_choice ui in
  {| mode := mode_str m;
     budget := number_value 0 (number_entry ui (budget_label m));
     goal := number_value 0 (number_entry ui (goal_label m));
     expenses :=
       map (fun item =>
              (fst item,
               number_value 0 (number_entry ui (fst item ++ mode_str m))))
           (categories_of m) |}.

(** What the input section renders. *)
Definition input_page (ui : Widgets) : list Element :=
  page (fst (input_section ui (start None))).

(** The number of days, or of months, the budget is divided by. *)
Definition divisor (m : Mode) : Z :=
  match m with
  | Monthly => 30
  | Semester => 6
  end.

(** The fixed parts of the summary: the three metrics, and the bars. *)
Definition summary_head (v : Entries) : list Element :=
  let total_expenses := computeTotal (expenses v) in
  let remaining := computeRemaining (budget v) total_expenses in
  [ StSubheader (cp 0x1F4CA ++ lit " Budget Summary");
    StMetric 1 (cp 0x1F4B8 ++ lit " Budget") (RUPEE ++ str_int (budget v));
    StMetric 2 (cp 0x1F4C9 ++ lit " Expenses") (RUPEE ++ str_int total_expenses);
    StMetric 3 (cp 0x2705 ++ lit " Remaining") (RUPEE ++ str_int remaining) ].

Definition bars (v : Entries) : list (pystr * Z) :=
  combine (dict_keys (expenses v)) (dict_values (expenses v))
  ++ [(lit "Remaining",
       computeRemaining (budget v) (computeTotal (expenses v)))].

(** Entries as the widgets deliver them. *)
Definition validated (v : Entries) : Prop :=
  (exists m, mode v = mode_str m) /\
  0 <= budget v <= MAX_SAFE_INTEGER /\
  Forall (fun item => 0 <= snd item <= MAX_SAFE_INTEGER) (expenses v).

(** A snapshot with its six fields in place. *)
Definition row (d : date) (mode : pystr) (budget total remaining goal : Z)
  : HistoryRecord :=
  [ (lit "Date", CDate d); (lit "Mode", CStr mode); (lit "Budget", CInt budget);
    (lit "Expenses", CInt total); (lit "Remaining", CInt remaining);
    (lit "Goal", CInt goal) ].

Definition is_row (r : HistoryRecord) : Prop :=
  exists d m b t rem g, r = row d (mode_str m) b t rem g.

(** A snapshot whose Remaining field is its Budget minus its Expenses. *)
Definition balanced (r : HistoryRecord) : Prop :=
  exists d m b t g, r = row d (mode_str m) b t (b - t) g.

(** The cells of a snapshot, in column order. *)
Definition cells (r : HistoryRecord) : list Cell := map snd r.

(** A line of comma-separated fields, none of them quoted. *)
Definition plain_line (sep : pystr) (fields : list pystr) : pystr :=
  join (cp 44) fields ++ sep.

(** The exported table and its text, in closed form. *)
Definition table (h : list HistoryRecord) : DataFrame :=
  {| columns := HISTORY_COLUMNS; rows := map cells h |}.

Definition csv_text (sep : pystr) (h : list HistoryRecord) : pystr :=
  plain_line sep HISTORY_COLUMNS
  ++ flat_map (fun r => plain_line sep (map str_cell (cells r))) h.

Definition export (w : World) (h : list HistoryRecord) : list Element :=
  match h with
  | [] => []
  | _ => [ StWrite (table h);
           StDownloadButton DOWNLOAD_LABEL (csv_text (linesep (platform w)) h)
             (lit "expenses.csv") (lit "text/csv") ]
  end.

Definition is_ascii (c : N) : bool := (c <? 128)%N.

Definition is_plain (c : N) : bool := is_ascii c && negb (csv_special c).

(** The log of a session state, empty before the first run. *)
Definition log_of (h : option (list HistoryRecord)) : list HistoryRecord :=
  match h with
  | Some l => l
  | None => []
  end.

(** The log after a run: the log before, and the snapshot of this run when
    the save button was pressed. *)
Definition log_after (w : World) (ui : Widgets) (v : Entries)
    (before : option (list HistoryRecord)) : list HistoryRecord :=
  log_of before
  ++ (if button_clicked ui SAVE_LABEL
      then [snapshot w v (computeTotal (expenses v))
              (computeRemaining (budget v) (computeTotal (expenses v)))]
      else []).

(** What the log section renders when it leaves the log [h]. *)
Definition log_page (w : World) (h : list HistoryRecord) : list Element :=
  [ StSubheader (cp 0x1F5C2 ++ lit " Expense Log"); StButton SAVE_LABEL ]
  ++ export w h.

(** The prompt the advice button sends for given entries. *)
Definition prompt_of (v : Entries) : Prompt :=
  {| prompt_mode := mode v; prompt_expenses := expenses v;
     prompt_budget := budget v;
     prompt_remaining := computeRemaining (budget v) (computeTotal (expenses v));
     prompt_goal := goal v |}.

(** The line of the time-scaled figure: there is one when the budget is
    positive. *)
Definition insight_of (m : Mode) (b : Z) : list Element :=
  if b >? 0 then
    match computeEquivalent m b with
    | Ok f => [StInfo (insight_text m f)]
    | Raise _ => []
    end
  else [].

(** What the summary section renders, given the line of the time-scaled
    figure. *)
Definition summary_page (v : Entries) (info : list Element) : list Element :=
  let total := computeTotal (expenses v) in
  let remaining := computeRemaining (budget v) total in
  summary_head v ++ info
  ++ [ banner (classifyStatus_spec remaining (budget v));
       StSubheader (cp 0x1F4C8 ++ lit " Expense Distribution") ]
  ++ (if total >? 0
      then [StPyplot (dict_values (expenses v)) (dict_keys (expenses v))]
      else [])
  ++ [ StSubheader (cp 0x1F4CA ++ lit " Budget vs Expenses");
       StBarChart (bars v) ].

Definition tips_head : list Element :=
  [ StSubheader (cp 0x1F916 ++ lit " AI-Powered Smart Tips");
    StButton TIPS_LABEL ].

Definition footer : list Element :=
  [ StMarkdown (lit "---");
    StCaption (cp 0x26A1 ++ lit " Powered by **Google Gemini AI** + **Streamlit**");
    StCaption (cp 0x1F468 ++ cp 0x200D ++ cp 0x1F4BB
               ++ lit " Developed by **Soham Dey**") ].

(** What pressing the advice button does: the elements it renders, the
    requests it sends, and how the [try] statement ends. *)
Record Advice := {
  shown : list Element;
  sent : list (GenerativeModel * Prompt);
  outcome : Result unit
}.

Definition advice (w : World) (configured : option GenerativeModel)
    (v : Entries) : Advice :=
  match configured with
  | None =>
      {| shown := [TIPS_WARNING; StError NONE_MESSAGE]; sent := [];
         outcome := Ok tt |}
  | Some m =>
      match bindR (service w m (prompt_of v)) text with
      | Ok tips =>
          {| shown := [StSuccess tips]; sent := [(m, prompt_of v)];
             outcome := Ok tt |}
      | Raise e =>
          if is_Exception e
          then {| shown := [TIPS_WARNING; StError (str_exn e)];
                  sent := [(m, prompt_of v)]; outcome := Ok tt |}
          else {| shown := []; sent := [(m, prompt_of v)];
                  outcome := Raise e |}
      end
  end.

(** The end of the page: the footer, unless the advice section was left by
    an exception. *)
Definition closing (res : Result unit) : list Element :=
  match res with
  | Ok _ => footer
  | Raise _ => []
  end.

(** A computation that sends nothing to the text-generation service. *)
Definition quiet {A} (c : M A) : Prop :=
  forall s, requests (fst (c s)) = requests s.

(** The widgets with [g] typed in the savings-goal boxes. *)
Definition with_goal (ui : Widgets) (g : Z) : Widgets :=
  {| radio_choice := radio_choice ui;
     number_entry :=
       fun k => if str_eqb k (goal_label Monthly) || str_eqb k (goal_label Semester)
                then g else number_entry ui k;
     button_clicked := button_clicked ui |}.

(** The widgets with one button released or pressed. *)
Definition with_button (ui : Widgets) (label : pystr) (pressed : bool)
  : Widgets :=
  {| radio_choice := radio_choice ui;
     number_entry := number_entry ui;
     button_clicked :=
       fun l => if str_eqb l label then pressed else button_clicked ui l |}.

Definition is_info (e : Element) : bool :=
  match e with StInfo _ => true | _ => false end.

Definition is_download (e : Element) : bool :=
  match e with StDownloadButton _ _ _ _ => true | _ => false end.

(* ================================================================== *)
(** * Further closed forms *)

(** The keys of the number boxes of a run in mode [m]: the labels of the
    budget and goal boxes, which are given no key, and [cat + mode] for
    each category (line 93). *)
Definition number_keys (m : Mode) : list pystr :=
  budget_label m :: goal_label m
  :: map (fun cat => cat ++ mode_str m) (dict_keys (categories_of m)).

(** No string of the list occurs twice. *)
Fixpoint distinct (l : list pystr) : bool :=
  match l with
  | [] => true
  | x :: l' => negb (existsb (str_eqb x) l') && distinct l'
  end.

(** A run that gets past lines 11--15. *)
Definition starts (w : World) : bool :=
  match model w with Ok _ => true | Raise _ => false end.

(** A run in which the save button is reached and was pressed. *)
Definition saves (run : World * Widgets) : bool :=
  starts (fst run) && button_clicked (snd run) SAVE_LABEL.

(** What a run adds to the log: its snapshot when it saves. *)
Definition saved_in (run : World * Widgets) : list HistoryRecord :=
  let v := entries_of (snd run) in
  if saves run
  then [snapshot (fst run) v (computeTotal (expenses v))
          (computeRemaining (budget v) (computeTotal (expenses v)))]
  else [].

(** The status in terms of what was spent: over the budget, over four
    fifths of it, or neither. *)
Definition spending_status (budget total_expenses : Z) : Status :=
  if budget <? total_expenses then Exceeded
  else if 4 * budget <? 5 * total_expenses then NearLimit
  else OnTrack.

(** The page of a run up to the advice button. *)
Definition body_page (w : World) (ui : Widgets)
    (before : option (list HistoryRecord)) : list Element :=
  let v := entries_of ui in
  input_page ui
  ++ summary_page v (insight_of (radio_choice ui) (budget v))
  ++ log_page w (log_after w ui v before) ++ tips_head.

(** The text before the figure in the lines of [st.info]. *)
Definition insight_label (m : Mode) : pystr :=
  match m with
  | Monthly => cp 0x1F4C6 ++ lit " Your daily spending allowance: "
  | Semester => cp 0x1F4C6 ++ lit " Equivalent Monthly Budget: "
  end.

Definition is_page_config (e : Element) : bool :=
  match e with StPageConfig _ _ => true | _ => false end.

(* ================================================================== *)
(** * Facts about the binary64 operations *)

Module FloatFacts.
Import Float.

Lemma digits2_size p : digits2_pos p = Pos.size p.
Proof. induction p; simpl; congruence. Qed.

Lemma digits2_bounds p :
  2 ^ (Zpos (digits2_pos p) - 1) <= Zpos p < 2 ^ Zpos (digits2_pos p).
Proof.
  rewrite digits2_size. split.
  - pose proof (Pos.size_le p) as H.
    assert (H' : 2 ^ Zpos (Pos.size p) <= 2 * Zpos p).
    { rewrite <- Pos2Z.inj_pow. change (2 * Zpos p) with (Zpos p~0).
      now apply Pos2Z.pos_le_pos. }
    replace (Zpos (Pos.size p)) with (Z.succ (Zpos (Pos.size p) - 1)) in H' by lia.
    rewrite Z.pow_succ_r in H' by lia. lia.
  - pose proof (Pos.size_gt p) as H.
    rewrite <- Pos2Z.inj_pow. now apply Pos2Z.pos_lt_pos.
Qed.

Lemma digits2_unique p k :
  2 ^ (k - 1) <= Zpos p < 2 ^ k -> Zpos (digits2_pos p) = k.
Proof.
  intros [Hlo Hhi]. pose proof (digits2_bounds p) as [Dlo Dhi].
  set (d := Zpos (digits2_pos p)) in *.
  assert (0 < k).
  { destruct (Z.ltb_spec 0 k); [assumption|].
    destruct (Z.eq_dec k 0) as [->|]; [simpl in Hhi; lia|].
    rewrite Z.pow_neg_r in Hhi by lia. lia. }
  destruct (Z.lt_trichotomy d k) as [Hlt | [Heq | Hgt]]; [|assumption|].
  - assert (2 ^ d <= 2 ^ (k - 1)) by (apply Z.pow_le_mono_r; lia). lia.
  - assert (2 ^ k <= 2 ^ (d - 1)) by (apply Z.pow_le_mono_r; lia). lia.
Qed.

Lemma iter_pos_iter {A} (f : A -> A) p x : iter_pos f p x = Pos.iter f x p.
Proof.
  revert x. induction p as [p IH | p IH |]; intros x; simpl.
  - rewrite !IH. now rewrite <- !Pos.iter_swap.
  - now rewrite !IH.
  - reflexivity.
Qed.

Lemma iter_pos_nat {A} (f : A -> A) p x :
  iter_pos f p x = Nat.iter (Pos.to_nat p) f x.
Proof. rewrite iter_pos_iter. apply Pos2Nat.inj_iter. Qed.

Lemma shr_1_nonneg m r s :
  0 <= m ->
  shr_1 (Build_shr_record m r s) = Build_shr_record (m / 2) (Z.odd m) (r || s).
Proof.
  intros Hm. destruct m as [| p | p]; [reflexivity | | lia].
  destruct p as [p | p |]; unfold shr_1.
  - replace (Zpos p~1 / 2) with (Zpos p); [reflexivity|].
    rewrite Pos2Z.inj_xI. apply Z.div_unique with (r := 1); lia.
  - replace (Zpos p~0 / 2) with (Zpos p); [reflexivity|].
    rewrite Pos2Z.inj_xO. apply Z.div_unique with (r := 0); lia.
  - reflexivity.
Qed.

(** [n + 1] one-bit shifts of an exact mantissa leave the quotient by
    [2 ^ (n + 1)], the last bit shifted out and whether anything below it
    was set. *)
Lemma shr_iter m (n : nat) :
  0 <= m ->
  Nat.iter (S n) shr_1 (Build_shr_record m false false) =
  Build_shr_record (m / 2 ^ (Z.of_nat n + 1))
                   (Z.odd (m / 2 ^ Z.of_nat n))
                   (negb (m mod 2 ^ Z.of_nat n =? 0)).
Proof.
  intros Hm. induction n as [| n IH].
  - change (Nat.iter 1 shr_1 ?x) with (shr_1 x).
    rewrite shr_1_nonneg by assumption.
    change (2 ^ (Z.of_nat 0 + 1)) with 2. change (2 ^ Z.of_nat 0) with 1.
    rewrite Z.div_1_r, Z.mod_1_r. reflexivity.
  - change (Nat.iter (S (S n)) shr_1 ?x) with (shr_1 (Nat.iter (S n) shr_1 x)).
    rewrite IH. rewrite Nat2Z.inj_succ.
    set (k := Z.of_nat n). assert (0 <= k) by (subst k; lia).
    assert (Hpow : 2 ^ Z.succ k = 2 ^ k * 2) by (rewrite Z.pow_succ_r by lia; lia).
    assert (0 < 2 ^ k) by (apply Z.pow_pos_nonneg; lia).
    rewrite shr_1_nonneg by (apply Z.div_pos; lia).
    replace (k + 1) with (Z.succ k) by lia.
    replace (Z.succ k + 1) with (Z.succ (Z.succ k)) by lia.
    assert (E1 : m / 2 ^ Z.succ k / 2 = m / 2 ^ Z.succ (Z.succ k)).
    { rewrite (Z.pow_succ_r 2 (Z.succ k)) by lia.
      rewrite (Z.mul_comm 2), Z.div_div by lia. reflexivity. }
    assert (E3 : Z.odd (m / 2 ^ k) || negb (m mod 2 ^ k =? 0) =
                 negb (m mod 2 ^ Z.succ k =? 0)).
    { rewrite Hpow, Z.rem_mul_r by lia.
      pose proof (Z.mod_pos_bound m (2 ^ k) ltac:(lia)).
      rewrite Zodd_mod.
      pose proof (Z.mod_pos_bound (m / 2 ^ k) 2 ltac:(lia)).
      destruct (Z.eqb_spec ((m / 2 ^ k) mod 2) 1) as [E|E];
        destruct (Z.eqb_spec (m mod 2 ^ k) 0) as [E0|E0]; simpl;
        symmetry; rewrite ?negb_true_iff, ?negb_false_iff;
        rewrite ?Z.eqb_neq, ?Z.eqb_eq; nia. }
    rewrite E1, E3. reflexivity.
Qed.

Lemma fexp_normal d : -1074 <= d - 53 -> fexp prec emax d = d - 53.
Proof. unfold fexp, emin, prec, emax. lia. Qed.

(** A mantissa of exactly 53 bits at a normal exponent is kept as it is. *)
Lemma shr_fexp_fit p e :
  Zpos (digits2_pos p) = 53 -> -1074 <= e ->
  shr_fexp prec emax (Zpos p) e loc_Exact =
  (Build_shr_record (Zpos p) false false, e).
Proof.
  intros Hd He. unfold shr_fexp. simpl Zdigits2. rewrite Hd.
  rewrite fexp_normal by lia.
  replace (53 + e - 53 - e) with 0 by lia. reflexivity.
Qed.

Lemma pow2_pos k : 0 <= k -> 0 < 2 ^ k.
Proof. intros. apply Z.pow_pos_nonneg; lia. Qed.

Lemma ltb_double u : (u <? 2 ^ 52) = (2 * u <? 2 ^ 53).
Proof.
  change (2 ^ 52) with 4503599627370496.
  change (2 ^ 53) with 9007199254740992.
  destruct (Z.ltb_spec u 4503599627370496),
           (Z.ltb_spec (2 * u) 9007199254740992); try reflexivity; lia.
Qed.

(** Rounding an exact product to 53 bits, as seen by a comparison with an
    integer: the integer is compared with the rounded mantissa [m'], which
    is the quotient [P / 2 ^ n] or its successor, and is the quotient
    whenever the remainder is below one half. *)
Lemma round_aux_int_lt P e n :
  0 < P ->
  Zdigits2 P = 53 + Zpos n ->
  -1074 <= e + Zpos n < 0 ->
  exists m',
    P / 2 ^ Zpos n <= m' <= P / 2 ^ Zpos n + 1 /\
    (2 * (P mod 2 ^ Zpos n) < 2 ^ Zpos n -> m' = P / 2 ^ Zpos n) /\
    forall r,
      int_lt r (binary_round_aux prec emax false P e loc_Exact) =
      (r * 2 ^ (- (e + Zpos n)) <? m').
Proof.
  intros HP Hd He.
  destruct P as [| p | p]; try lia.
  pose proof (digits2_bounds p) as Hb. simpl Zdigits2 in Hd. rewrite Hd in Hb.
  pose proof (pow2_pos (Zpos n) ltac:(lia)) as HN.
  set (N := 2 ^ Zpos n) in *.
  assert (Hlo : 2 ^ 52 * N <= Zpos p).
  { unfold N. rewrite <- Z.pow_add_r by lia.
    replace (52 + Zpos n) with (53 + Zpos n - 1) by lia. apply Hb. }
  assert (Hhi : Zpos p < 2 ^ 53 * N).
  { unfold N. rewrite <- Z.pow_add_r by lia. apply Hb. }
  set (q := Zpos p / N).
  assert (Hq : 2 ^ 52 <= q < 2 ^ 53).
  { unfold q. split.
    - apply Z.div_le_lower_bound; lia.
    - apply Z.div_lt_upper_bound; lia. }
  set (rb := Z.odd (Zpos p / 2 ^ (Zpos n - 1))).
  set (sb := negb (Zpos p mod 2 ^ (Zpos n - 1) =? 0)).
  destruct (Pos2Nat.is_succ n) as [k Hk].
  assert (Hkn : Z.of_nat k = Zpos n - 1) by lia.
  assert (E1 : shr_fexp prec emax (Zpos p) e loc_Exact =
               (Build_shr_record q rb sb, e + Zpos n)).
  { unfold shr_fexp. simpl Zdigits2. rewrite Hd. rewrite fexp_normal by lia.
    replace (53 + Zpos n + e - 53 - e) with (Zpos n) by lia.
    unfold shr_record_of_loc, shr.
    rewrite iter_pos_nat, Hk, shr_iter by lia.
    rewrite Hkn. replace (Zpos n - 1 + 1) with (Zpos n) by lia.
    reflexivity. }
  set (m' := round_nearest_even q
               (loc_of_shr_record (Build_shr_record q rb sb))).
  assert (Hm' : q <= m' <= q + 1).
  { unfold m'. destruct rb, sb; simpl; try destruct (Z.even q); lia. }
  assert (Hhalf : 2 * (Zpos p mod N) < N -> m' = q).
  { intros Hlt.
    assert (Hrb : rb = false).
    { unfold rb. rewrite Zodd_mod.
      apply Z.eqb_neq. intros Hodd.
      assert (HN2 : N = 2 ^ (Zpos n - 1) * 2).
      { unfold N. replace (Zpos n) with (Zpos n - 1 + 1) at 1 by lia.
        rewrite Z.pow_add_r by lia. reflexivity. }
      pose proof (pow2_pos (Zpos n - 1) ltac:(lia)).
      rewrite HN2, Z.rem_mul_r in Hlt by lia.
      pose proof (Z.mod_pos_bound (Zpos p) (2 ^ (Zpos n - 1)) ltac:(lia)).
      nia. }
    unfold m'. rewrite Hrb. destruct sb; reflexivity. }
  exists m'. split; [exact Hm' | split; [exact Hhalf |]].
  intros r. unfold binary_round_aux. rewrite E1. simpl shr_m.
  fold m'.
  assert (Hm'pos : 0 < m') by lia.
  destruct m' as [| mp | mp] eqn:Em'; try lia.
  destruct (Z.eq_dec (Zpos mp) (2 ^ 53)) as [Etop | Ntop].
  - (* the rounding carried into a 54th bit *)
    unfold shr_fexp. simpl Zdigits2.
    rewrite (digits2_unique mp 54) by (rewrite Etop; simpl; lia).
    rewrite fexp_normal by lia.
    replace (54 + (e + Zpos n) - 53 - (e + Zpos n)) with 1 by lia.
    unfold shr_record_of_loc, shr.
    change (iter_pos shr_1 1 ?x) with (shr_1 x).
    rewrite shr_1_nonneg by lia. unfold shr_m.
    rewrite Etop. change (2 ^ 53 / 2) with (Zpos (2 ^ 52)).
    cbv iota beta.
    replace (e + Zpos n + 1 <=? emax - prec) with true
      by (symmetry; apply Z.leb_le; unfold emax, prec; lia).
    unfold int_lt.
    destruct (Z.leb_spec 0 (e + Zpos n + 1)) as [Hz | Hz].
    + assert (Ez : e + Zpos n = -1) by lia. rewrite Ez.
      change (2 ^ (-1 + 1)) with 1. change (2 ^ (- -1)) with 2.
      change (Zpos (2 ^ 52)) with (2 ^ 52).
      rewrite Z.mul_1_r, (Z.mul_comm r 2). apply ltb_double.
    + replace (- (e + Zpos n)) with (Z.succ (- (e + Zpos n + 1))) by lia.
      rewrite Z.pow_succ_r by lia.
      change (Zpos (2 ^ 52)) with (2 ^ 52).
      set (u := r * 2 ^ (- (e + Zpos n + 1))).
      replace (r * (2 * 2 ^ (- (e + Zpos n + 1)))) with (2 * u) by (unfold u; ring).
      apply ltb_double.
  - rewrite shr_fexp_fit.
    + simpl shr_m. cbv iota beta.
      replace (e + Zpos n <=? emax - prec) with true
        by (symmetry; apply Z.leb_le; unfold emax, prec; lia).
      unfold int_lt.
      destruct (Z.leb_spec 0 (e + Zpos n)); [lia | reflexivity].
    + apply digits2_unique. simpl. simpl in Hq, Ntop. lia.
    + lia.
Qed.

Lemma round_aux_fit s p e :
  Zpos (digits2_pos p) = 53 -> -1074 <= e <= 971 ->
  binary_round_aux prec emax s (Zpos p) e loc_Exact = S754_finite s p e.
Proof.
  intros Hd He. unfold binary_round_aux.
  rewrite shr_fexp_fit by lia. simpl shr_m. simpl loc_of_shr_record.
  simpl round_nearest_even. rewrite shr_fexp_fit by lia. simpl shr_m.
  replace (e <=? emax - prec) with true
    by (symmetry; apply Z.leb_le; unfold emax, prec; lia).
  reflexivity.
Qed.

Lemma iter_xO p d : Zpos (Pos.iter xO p d) = Zpos p * 2 ^ Zpos d.
Proof.
  rewrite (Pos.iter_swap_gen _ _ Zpos xO (Z.mul 2)) by reflexivity.
  change (Pos.iter (Z.mul 2) (Zpos p) d) with (Z.shiftl (Zpos p) (Zpos d)).
  apply Z.shiftl_mul_pow2. lia.
Qed.

(** The conversion of an integer below [2 ^ 53] is exact: the mantissa is
    the integer shifted up to 53 bits. *)
Lemma binary_round_small sg p :
  Zpos p < 2 ^ 53 ->
  exists B s,
    0 <= s <= 52 /\ Zpos B = Zpos p * 2 ^ s /\ 2 ^ 52 <= Zpos B < 2 ^ 53 /\
    binary_round prec emax sg p 0 = S754_finite sg B (- s).
Proof.
  intros Hp. pose proof (digits2_bounds p) as [Dlo Dhi].
  set (dg := Zpos (digits2_pos p)) in *.
  assert (Hdg : 1 <= dg <= 53).
  { split; [unfold dg; lia|].
    destruct (Z.le_gt_cases dg 53) as [|Hgt]; [assumption|].
    assert (2 ^ 53 <= 2 ^ (dg - 1)) by (apply Z.pow_le_mono_r; lia). lia. }
  unfold binary_round. fold dg. rewrite fexp_normal by lia.
  unfold shl_align.
  destruct (dg + 0 - 53 - 0) as [| d | d] eqn:Ed; try lia.
  - exists p, 0. replace (dg + 0 - 53) with 0 by lia.
    assert (dg = 53) by lia.
    repeat split; try lia.
    + replace (dg - 1) with 52 in Dlo by lia. exact Dlo.
    + apply round_aux_fit; [fold dg|]; lia.
  - exists (Pos.iter xO p d), (Zpos d).
    assert (Hd : Zpos d = 53 - dg) by lia.
    assert (Hv : 2 ^ 52 <= Zpos (Pos.iter xO p d) < 2 ^ 53).
    { rewrite iter_xO, Hd.
      pose proof (pow2_pos (53 - dg) ltac:(lia)).
      assert (E52 : 2 ^ 52 = 2 ^ (dg - 1) * 2 ^ (53 - dg)).
      { rewrite <- Z.pow_add_r by lia. f_equal. lia. }
      assert (E53 : 2 ^ 53 = 2 ^ dg * 2 ^ (53 - dg)).
      { rewrite <- Z.pow_add_r by lia. f_equal. lia. }
      rewrite E52, E53. split.
      - apply Z.mul_le_mono_nonneg_r; lia.
      - apply Z.mul_lt_mono_pos_r; lia. }
    repeat split; try lia.
    + apply iter_xO.
    + replace (dg + 0 - 53) with (- Zpos d) by lia.
      apply round_aux_fit; [|lia].
      apply digits2_unique. exact Hv.
Qed.

(** The arithmetic behind the 20% threshold.  [b * S] is the 53-bit
    mantissa of the budget, [P] its product with the mantissa of [0.2],
    [N] the power of two the product is divided by and [T] the scale of
    the comparison.  Five times the mantissa of [0.2] is [2 ^ 55 + 2]. *)
Lemma near_limit_arith b S T N P m' r :
  0 <= r -> 0 < b -> 1 <= S -> 0 < T -> 0 < N <= 2 ^ 53 ->
  T * N = S * 2 ^ 55 ->
  2 ^ 52 <= b * S < 2 ^ 53 ->
  P = b * S * 7205759403792794 ->
  P < N * 2 ^ 53 ->
  P / N <= m' <= P / N + 1 ->
  (2 * (P mod N) < N -> m' = P / N) ->
  (r * T <? m') = (5 * r <? b).
Proof.
  change (2 ^ 52) with 4503599627370496.
  change (2 ^ 53) with 9007199254740992.
  change (2 ^ 55) with 36028797018963968.
  intros Hr Hb HS HT HN HTN HB HP HPN Hm' Hhalf.
  set (B := b * S) in *. set (TN := T * N) in *.
  assert (H5P : 5 * P = b * TN + 2 * B).
  { rewrite HP, HTN. unfold B. ring. }
  assert (HTNlo : 36028797018963968 <= TN) by (rewrite HTN; lia).
  pose proof (Z.div_mod P N ltac:(lia)) as Hdm.
  pose proof (Z.mod_pos_bound P N ltac:(lia)) as Hmod.
  set (q := P / N) in *. set (R := P mod N) in *.
  assert (HrTN : r * T * N = r * TN) by (unfold TN; ring).
  destruct (Z.ltb_spec (5 * r) b) as [Hlt | Hge];
    destruct (Z.ltb_spec (r * T) m') as [Hlt' | Hge']; try reflexivity; exfalso.
  - (* below one fifth, yet the rounded product is not above [r] *)
    assert (N * q <= N * (r * T)) by (apply Z.mul_le_mono_nonneg_l; lia).
    assert ((5 * r + 1) * TN <= b * TN) by (apply Z.mul_le_mono_nonneg_r; lia).
    nia.
  - destruct (Z.eq_dec b (5 * r)) as [Eb | Nb].
    + (* exactly one fifth: the product rounds down to [r] itself *)
      set (rho := P - N * (r * T)).
      assert (H5rho : 5 * rho = 2 * B).
      { unfold rho. replace (N * (r * T)) with (r * TN) by (unfold TN; ring).
        rewrite Eb in H5P. lia. }
      assert (H4B : 4 * B < 5 * N) by lia.
      assert (Hrho : 0 <= rho < N) by lia.
      assert (Eq : q = r * T).
      { unfold q. symmetry. apply (Z.div_unique P N (r * T) rho); [lia|].
        unfold rho. ring. }
      assert (ER : R = rho).
      { unfold R. symmetry. apply (Z.mod_unique P N (r * T) rho); [lia|].
        unfold rho. ring. }
      assert (m' = q) by (apply Hhalf; lia).
      lia.
    + (* above one fifth: the quotient is already below [r] *)
      assert (b * TN <= (5 * r - 1) * TN) by (apply Z.mul_le_mono_nonneg_r; lia).
      assert (HPlt : P < N * (r * T)).
      { replace (N * (r * T)) with (r * TN) by (unfold TN; ring). lia. }
      assert (q < r * T) by (apply Z.div_lt_upper_bound; lia).
      lia.
Qed.

(** [budget * 0.2] for a positive budget below [2 ^ 53], as seen by the
    comparison [remaining < budget * 0.2]. *)
Lemma int_lt_mul_0_2 b r :
  0 <= r -> 0 < b < 2 ^ 53 ->
  exists f, int_mul b lit_0_2 = Ok f /\ int_lt r f = (5 * r <? b).
Proof.
  intros Hr Hb. destruct b as [| p | p]; try lia.
  destruct (binary_round_small false p (proj2 Hb)) as (B & s & Hs & HB & HBr & E).
  unfold int_mul, of_int, binary_normalize. rewrite E.
  unfold bindR, mul, lit_0_2, SFmul. eexists. split; [reflexivity|].
  set (C := 7205759403792794%positive). cbn [xorb].
  set (P := Zpos (B * C)).
  assert (HP : P = Zpos p * 2 ^ s * 7205759403792794).
  { unfold P. rewrite Pos2Z.inj_mul, HB. reflexivity. }
  assert (HPlo : 2 ^ 104 <= P).
  { unfold P. rewrite Pos2Z.inj_mul.
    change (2 ^ 104) with (2 ^ 52 * 2 ^ 52).
    apply Z.mul_le_mono_nonneg; try lia; unfold C; simpl; lia. }
  assert (HPhi : P < 2 ^ 106).
  { unfold P. rewrite Pos2Z.inj_mul.
    change (2 ^ 106) with (2 ^ 53 * 2 ^ 53).
    apply Z.mul_lt_mono_nonneg; try lia; unfold C; simpl; lia. }
  pose proof (digits2_bounds (B * C)) as [Dlo Dhi]. fold P in Dlo, Dhi.
  set (d := Zpos (digits2_pos (B * C))) in *.
  assert (Hd : 105 <= d <= 106).
  { split.
    - destruct (Z.le_gt_cases 105 d) as [|Hlt]; [assumption|].
      assert (2 ^ d <= 2 ^ 104) by (apply Z.pow_le_mono_r; lia). lia.
    - destruct (Z.le_gt_cases d 106) as [|Hgt]; [assumption|].
      assert (2 ^ 106 <= 2 ^ (d - 1)) by (apply Z.pow_le_mono_r; lia). lia. }
  destruct (d - 53) as [| n | n] eqn:En; try lia.
  assert (Hn : 52 <= Zpos n <= 53) by lia.
  destruct (round_aux_int_lt P (- s + -55) n) as (m' & Hm' & Hhalf & Hcmp).
  { unfold P. lia. }
  { unfold P. simpl Zdigits2. fold d. lia. }
  { lia. }
  rewrite Hcmp.
  pose proof (pow2_pos (Zpos n) ltac:(lia)) as HN.
  pose proof (pow2_pos s ltac:(lia)) as HS.
  assert (HT : 0 < 2 ^ (- (- s + -55 + Zpos n))) by (apply pow2_pos; lia).
  assert (HN53 : 0 < 2 ^ Zpos n <= 2 ^ 53).
  { split; [lia|]. apply Z.pow_le_mono_r; lia. }
  assert (HTN : 2 ^ (- (- s + -55 + Zpos n)) * 2 ^ Zpos n = 2 ^ s * 2 ^ 55).
  { rewrite <- !Z.pow_add_r by lia. f_equal. lia. }
  assert (HB' : 2 ^ 52 <= Zpos p * 2 ^ s < 2 ^ 53) by (rewrite <- HB; exact HBr).
  assert (HPN : P < 2 ^ Zpos n * 2 ^ 53).
  { rewrite <- Z.pow_add_r by lia.
    replace (Zpos n + 53) with d by lia. exact Dhi. }
  apply (near_limit_arith (Zpos p) (2 ^ s) _ (2 ^ Zpos n) P);
    solve [assumption | lia].
Qed.

(** A rounded negative value is never above a non-negative integer. *)
Lemma int_lt_round_aux_neg r P e l :
  0 <= r -> int_lt r (binary_round_aux prec emax true P e l) = false.
Proof.
  intros Hr. unfold binary_round_aux.
  destruct (shr_fexp prec emax P e l) as [mrs' e'].
  destruct (shr_fexp prec emax _ e' loc_Exact) as [mrs'' e''].
  destruct (shr_m mrs'') as [| m | m].
  - apply Z.ltb_ge. assumption.
  - destruct (e'' <=? emax - prec); [|reflexivity].
    unfold int_lt. destruct (0 <=? e'').
    + apply Z.ltb_ge.
      assert (0 <= 2 ^ e'') by (apply Z.pow_nonneg; lia). nia.
    + apply Z.ltb_ge.
      assert (0 <= 2 ^ (- e'')) by (apply Z.pow_nonneg; lia). nia.
  - reflexivity.
Qed.

Lemma int_lt_mul_0_2_neg b r :
  0 <= r -> - 2 ^ 53 < b < 0 ->
  exists f, int_mul b lit_0_2 = Ok f /\ int_lt r f = false.
Proof.
  intros Hr Hb. destruct b as [| p | p]; try lia.
  assert (Hp : Zpos p < 2 ^ 53) by lia.
  destruct (binary_round_small true p Hp) as (B & s & Hs & HB & HBr & E).
  unfold int_mul, of_int, binary_normalize. rewrite E.
  unfold bindR, mul, lit_0_2, SFmul. eexists. split; [reflexivity|].
  cbn [xorb]. apply int_lt_round_aux_neg. assumption.
Qed.

(** The three-way test on integers: with [|budget| < 2 ^ 53] the float
    threshold separates exactly the integers below one fifth of the
    budget. *)
Lemma classifyStatus_Z remaining budget :
  - 2 ^ 53 < budget < 2 ^ 53 ->
  classifyStatus remaining budget =
  Ok (if remaining <? 0 then Exceeded
      else if 5 * remaining <? budget then NearLimit else OnTrack).
Proof.
  intros Hb. unfold classifyStatus.
  destruct (Z.ltb_spec remaining 0) as [Hneg | Hpos]; [reflexivity|].
  destruct (Z.lt_trichotomy budget 0) as [Hlt | [Hz | Hgt]].
  - destruct (int_lt_mul_0_2_neg budget remaining Hpos) as (f & Ef & Hf); [lia|].
    rewrite Ef. unfold bindR. rewrite Hf.
    destruct (Z.ltb_spec (5 * remaining) budget); [lia | reflexivity].
  - subst budget.
    change (int_mul 0 lit_0_2) with (Ok (S754_zero false)).
    unfold bindR, int_lt.
    destruct (Z.ltb_spec remaining 0); [lia|].
    destruct (Z.ltb_spec (5 * remaining) 0); [lia | reflexivity].
  - destruct (int_lt_mul_0_2 budget remaining Hpos) as (f & Ef & Hf); [lia|].
    rewrite Ef. unfold bindR. rewrite Hf.
    destruct (5 * remaining <? budget); reflexivity.
Qed.

Lemma classifyStatus_spec_Z remaining budget :
  classifyStatus_spec remaining budget =
  if remaining <? 0 then Exceeded
  else if 5 * remaining <? budget then NearLimit else OnTrack.
Proof.
  unfold classifyStatus_spec.
  destruct (Qlt_le_dec (inject_Z remaining) 0) as [H | H];
    unfold Qlt, Qle, inject_Z in H; cbn [Qnum Qden] in H;
    destruct (Z.ltb_spec remaining 0); try lia; try reflexivity.
  destruct (Qlt_le_dec (inject_Z remaining) (0.2 * inject_Z budget)) as [H' | H'];
    unfold Qlt, Qle, Qmult, inject_Z in H'; cbn [Qnum Qden] in H';
    destruct (Z.ltb_spec (5 * remaining) budget); try lia; reflexivity.
Qed.

(** ** Division *)

Lemma new_location_spec d r :
  0 < d -> 0 <= r < d -> new_location d r = div_location d r.
Proof.
  intros Hd Hr. unfold new_location, div_location.
  destruct (Z.even d) eqn:Ev.
  - reflexivity.
  - unfold new_location_odd. destruct (r =? 0); [reflexivity|]. f_equal.
    assert (Hne : 2 * r <> d).
    { intros E. rewrite <- E, Z.even_mul in Ev. discriminate. }
    destruct (Z.compare_spec (2 * r + 1) d), (Z.compare_spec (2 * r) d);
      try reflexivity; lia.
Qed.

Lemma loc_of_record_of_loc m l :
  loc_of_shr_record (shr_record_of_loc m l) = l.
Proof. destruct l as [| []]; reflexivity. Qed.

Lemma shr_m_record_of_loc m l : shr_m (shr_record_of_loc m l) = m.
Proof. destruct l as [| []]; reflexivity. Qed.

(** Closing a rounding: a mantissa in [2 ^ 52, 2 ^ 53] becomes a float of
    the same value. *)
Lemma round_aux_close m1 e :
  2 ^ 52 <= m1 <= 2 ^ 53 -> -1074 <= e <= 900 ->
  exists m ef,
    (let '(mrs, e2) := shr_fexp prec emax m1 e loc_Exact in
     match shr_m mrs with
     | Z0 => S754_zero false
     | Zpos m => if e2 <=? emax - prec then S754_finite false m e2
                 else S754_infinity false
     | Zneg _ => S754_nan
     end) = S754_finite false m ef /\
    2 ^ 52 <= Zpos m < 2 ^ 53 /\ e <= ef <= e + 1 /\
    Zpos m * 2 ^ (ef - e) = m1.
Proof.
  intros Hm He.
  change (2 ^ 52) with 4503599627370496 in *.
  change (2 ^ 53) with 9007199254740992 in *.
  destruct m1 as [| p | p]; try lia.
  destruct (Z.eq_dec (Zpos p) 9007199254740992) as [Etop | Ntop].
  - exists 4503599627370496%positive, (e + 1).
    unfold shr_fexp. simpl Zdigits2.
    rewrite (digits2_unique p 54) by (rewrite Etop; simpl; lia).
    rewrite fexp_normal by lia.
    replace (54 + e - 53 - e) with 1 by lia.
    unfold shr_record_of_loc, shr.
    change (iter_pos shr_1 1 ?x) with (shr_1 x).
    rewrite shr_1_nonneg by lia. unfold shr_m. rewrite Etop.
    change (9007199254740992 / 2) with 4503599627370496.
    replace (e + 1 <=? emax - prec) with true
      by (symmetry; apply Z.leb_le; unfold emax, prec; lia).
    replace (e + 1 - e) with 1 by lia.
    repeat split; lia.
  - exists p, e.
    rewrite shr_fexp_fit; [| apply digits2_unique; simpl; lia | lia].
    unfold shr_m.
    replace (e <=? emax - prec) with true
      by (symmetry; apply Z.leb_le; unfold emax, prec; lia).
    rewrite Z.sub_diag. repeat split; lia.
Qed.

(** Rounding a quotient [q] with remainder [r] by [d] to 53 bits: the
    result, read in units of [2 ^ e], is within half a unit in the last
    place of [q + r / d]. *)
Lemma round_aux_div q e d r :
  0 < d -> 0 <= r < d -> 2 ^ 52 <= q < 2 ^ 54 -> -1074 <= e <= 800 ->
  exists m ef,
    binary_round_aux prec emax false q e (div_location d r) =
    S754_finite false m ef /\
    2 ^ 52 <= Zpos m < 2 ^ 53 /\ e <= ef <= e + 2 /\
    2 * Z.abs (d * (Zpos m * 2 ^ (ef - e)) - (d * q + r)) <= d * 2 ^ (ef - e).
Proof.
  intros Hd Hr Hq He.
  change (2 ^ 52) with 4503599627370496 in *.
  change (2 ^ 54) with 18014398509481984 in *.
  destruct q as [| p | p]; try lia.
  unfold binary_round_aux.
  destruct (Z_lt_le_dec (Zpos p) 9007199254740992) as [Hsmall | Hbig].
  - (* 53 bits: no shift *)
    assert (E1 : shr_fexp prec emax (Zpos p) e (div_location d r) =
                 (shr_record_of_loc (Zpos p) (div_location d r), e)).
    { unfold shr_fexp. simpl Zdigits2.
      rewrite (digits2_unique p 53) by (simpl; lia).
      rewrite fexp_normal by lia.
      replace (53 + e - 53 - e) with 0 by lia. reflexivity. }
    rewrite E1, loc_of_record_of_loc, shr_m_record_of_loc.
    set (m1 := round_nearest_even (Zpos p) (div_location d r)).
    assert (Hm1 : Zpos p <= m1 <= Zpos p + 1 /\
                  2 * Z.abs (d * m1 - (d * Zpos p + r)) <= d).
    { unfold m1, div_location, round_nearest_even.
      destruct (Z.eqb_spec r 0) as [-> | Hr0].
      - split; [lia|]. rewrite Z.add_0_r, Z.sub_diag. simpl. lia.
      - destruct (Z.compare_spec (2 * r) d);
          try destruct (Z.even (Zpos p)); split; lia. }
    destruct Hm1 as [Hm1 Hnear].
    destruct (round_aux_close m1 e) as (m & ef & Ec & Hm & Hef & Hv);
      [change (2 ^ 52) with 4503599627370496;
       change (2 ^ 53) with 9007199254740992; lia | lia |].
    exists m, ef. rewrite Ec. repeat split; try lia.
    rewrite Hv.
    assert (1 <= 2 ^ (ef - e)).
    { pose proof (pow2_pos (ef - e) ltac:(lia)). lia. }
    nia.
  - (* 54 bits: one shift *)
    assert (E1 : shr_fexp prec emax (Zpos p) e (div_location d r) =
                 (Build_shr_record (Zpos p / 2) (Z.odd (Zpos p))
                    (negb (r =? 0)), e + 1)).
    { unfold shr_fexp. simpl Zdigits2.
      rewrite (digits2_unique p 54) by (simpl; lia).
      rewrite fexp_normal by lia.
      replace (54 + e - 53 - e) with 1 by lia.
      unfold shr. change (iter_pos shr_1 1 ?x) with (shr_1 x).
      unfold div_location.
      destruct (r =? 0); [| destruct (2 * r ?= d)]; simpl shr_record_of_loc;
        rewrite shr_1_nonneg by lia; reflexivity. }
    rewrite E1. unfold shr_m at 1.
    set (h := Zpos p / 2).
    set (m1 := round_nearest_even h
                 (loc_of_shr_record
                    (Build_shr_record h (Z.odd (Zpos p)) (negb (r =? 0))))).
    pose proof (Z.div_mod (Zpos p) 2 ltac:(lia)) as Hdm. fold h in Hdm.
    pose proof (Z.mod_pos_bound (Zpos p) 2 ltac:(lia)) as Hmod.
    assert (Hm1 : h <= m1 <= h + 1 /\
                  2 * Z.abs (d * (2 * m1) - (d * Zpos p + r)) <= 2 * d).
    { unfold m1. rewrite Zodd_mod.
      destruct (Z.eqb_spec (Zpos p mod 2) 1) as [Eo | Eo];
        destruct (Z.eqb_spec r 0) as [Er | Er];
        cbn [negb loc_of_shr_record round_nearest_even];
        try destruct (Z.even h); split; lia. }
    destruct Hm1 as [Hm1 Hnear].
    assert (Hh : 4503599627370496 <= h < 9007199254740992) by lia.
    destruct (round_aux_close m1 (e + 1)) as (m & ef & Ec & Hm & Hef & Hv);
      [change (2 ^ 52) with 4503599627370496;
       change (2 ^ 53) with 9007199254740992; lia | lia |].
    exists m, ef. rewrite Ec. repeat split; try lia.
    replace (ef - e) with (ef - (e + 1) + 1) by lia.
    rewrite Z.pow_add_r by lia. change (2 ^ 1) with 2.
    assert (1 <= 2 ^ (ef - (e + 1))).
    { pose proof (pow2_pos (ef - (e + 1)) ltac:(lia)). lia. }
    replace (Zpos m * (2 ^ (ef - (e + 1)) * 2)) with (2 * m1) by lia.
    nia.
Qed.

(** [b / d] on integers below [2 ^ 53]: a normal double within half a unit
    in the last place of the exact quotient. *)
Lemma truediv_small b d :
  0 < b < 2 ^ 53 -> 2 <= d < 2 ^ 53 ->
  exists m e,
    int_truediv b d = Ok (S754_finite false m e) /\
    e <= 0 /\ 2 ^ 52 <= Zpos m < 2 ^ 53 /\
    2 * Z.abs (d * Zpos m - b * 2 ^ (- e)) <= d.
Proof.
  intros Hb Hd.
  destruct b as [| pb | pb]; try lia. destruct d as [| pd | pd]; try lia.
  pose proof (digits2_bounds pb) as [B1 B2].
  pose proof (digits2_bounds pd) as [D1 D2].
  set (d1 := Zpos (digits2_pos pb)) in *.
  set (d2 := Zpos (digits2_pos pd)) in *.
  assert (Hd1 : 1 <= d1 <= 53).
  { split; [unfold d1; lia|].
    destruct (Z.le_gt_cases d1 53) as [|Hgt]; [assumption|].
    assert (2 ^ 53 <= 2 ^ (d1 - 1)) by (apply Z.pow_le_mono_r; lia). lia. }
  assert (Hd2 : 2 <= d2 <= 53).
  { split.
    - destruct (Z.le_gt_cases 2 d2) as [|Hlt]; [assumption|].
      assert (2 ^ d2 <= 2 ^ 1) by (apply Z.pow_le_mono_r; unfold d2; lia).
      change (2 ^ 1) with 2 in *. lia.
    - destruct (Z.le_gt_cases d2 53) as [|Hgt]; [assumption|].
      assert (2 ^ 53 <= 2 ^ (d2 - 1)) by (apply Z.pow_le_mono_r; lia). lia. }
  set (s := 53 + d2 - d1).
  assert (Hs : 0 < s) by (unfold s; lia).
  unfold int_truediv. replace (Zpos pd =? 0) with false by reflexivity.
  unfold raw, SFdiv, SFdiv_core_binary. simpl Zdigits2. fold d1 d2.
  rewrite fexp_normal by lia.
  replace (Z.min (d1 + 0 - (d2 + 0) - 53) (0 - 0)) with (- s) by (unfold s; lia).
  replace (0 - 0 - - s) with s by lia.
  destruct s as [| ps | ps] eqn:Es; try lia.
  rewrite Z.shiftl_mul_pow2 by lia.
  set (m' := Zpos pb * 2 ^ Zpos ps).
  destruct (Z.div_eucl m' (Zpos pd)) as [q r] eqn:Ediv.
  assert (Eq : q = m' / Zpos pd) by (unfold Z.div; rewrite Ediv; reflexivity).
  assert (Er : r = m' mod Zpos pd) by (unfold Z.modulo; rewrite Ediv; reflexivity).
  pose proof (Z.div_mod m' (Zpos pd) ltac:(lia)) as Hdm.
  pose proof (Z.mod_pos_bound m' (Zpos pd) ltac:(lia)) as Hmod.
  rewrite <- Eq, <- Er in Hdm. rewrite <- Er in Hmod.
  pose proof (pow2_pos (Zpos ps) ltac:(lia)) as HS.
  pose proof (pow2_pos (d2 - 1) ltac:(lia)) as HD.
  assert (Hm'lo : 2 ^ 52 * 2 ^ d2 <= m').
  { unfold m'. rewrite <- Z.pow_add_r by lia.
    replace (52 + d2) with ((d1 - 1) + Zpos ps) by lia.
    rewrite Z.pow_add_r by lia. apply Z.mul_le_mono_nonneg_r; lia. }
  assert (Hm'hi : m' < 2 ^ 54 * 2 ^ (d2 - 1)).
  { unfold m'. rewrite <- Z.pow_add_r by lia.
    replace (54 + (d2 - 1)) with (d1 + Zpos ps) by lia.
    rewrite Z.pow_add_r by lia. apply Z.mul_lt_mono_pos_r; lia. }
  assert (Hq : 2 ^ 52 <= q < 2 ^ 54).
  { rewrite Eq. split.
    - apply Z.div_le_lower_bound; [lia|].
      assert (Zpos pd * 2 ^ 52 <= 2 ^ d2 * 2 ^ 52)
        by (apply Z.mul_le_mono_nonneg_r; lia).
      lia.
    - apply Z.div_lt_upper_bound; [lia|].
      assert (2 ^ (d2 - 1) * 2 ^ 54 <= Zpos pd * 2 ^ 54)
        by (apply Z.mul_le_mono_nonneg_r; lia).
      lia. }
  rewrite new_location_spec by lia.
  cbn [xorb].
  destruct (round_aux_div q (- Zpos ps) (Zpos pd) r) as (m & ef & Ec & Hm & Hef & Hv);
    try lia.
  rewrite Ec. exists m, ef. split; [reflexivity|].
  split; [lia|]. split; [exact Hm|].
  set (K := 2 ^ (ef - - Zpos ps)) in *.
  assert (HK : 0 < K) by (apply pow2_pos; lia).
  assert (Em' : m' = Zpos pb * 2 ^ (- ef) * K).
  { unfold m', K. rewrite <- Z.mul_assoc, <- Z.pow_add_r by lia.
    do 2 f_equal. lia. }
  rewrite <- Hdm, Em' in Hv.
  replace (Zpos pd * (Zpos m * K) - Zpos pb * 2 ^ (- ef) * K)
    with ((Zpos pd * Zpos m - Zpos pb * 2 ^ (- ef)) * K) in Hv by ring.
  rewrite Z.abs_mul, (Z.abs_eq K) in Hv by lia.
  apply Z.mul_le_mono_pos_r with (p := K); [exact HK|].
  lia.
Qed.

End FloatFacts.

(* ================================================================== *)
(** * Facts about runs *)

Module RunFacts.

Local Open Scope run_scope.

Lemma extend_nil s : extend s [] = s.
Proof. destruct s. unfold extend. simpl. now rewrite app_nil_r. Qed.

Lemma extend_extend s a b : extend (extend s a) b = extend s (a ++ b).
Proof. unfold extend. simpl. now rewrite app_assoc. Qed.

Lemma emit_run e s : emit e s = (extend s [e], Ok tt).
Proof. reflexivity. Qed.

Lemma bind_emit {B} e (k : unit -> M B) s :
  bind (emit e) k s = k tt (extend s [e]).
Proof. reflexivity. Qed.

Lemma bind_lift_ok {A B} (a : A) (k : A -> M B) s :
  bind (lift (Ok a)) k s = k a s.
Proof. reflexivity. Qed.

Lemma bind_run {A B} (c : M A) (k : A -> M B) s s' r :
  c s = (s', r) ->
  bind c k s = match r with Ok a => k a s' | Raise e => (s', Raise e) end.
Proof. intros E. unfold bind. rewrite E. destruct r; reflexivity. Qed.

(** ** Computations that only render *)

Lemma writer_ret {A} (a : A) : writer (ret a).
Proof. exists [], (Ok a). intros s. unfold ret. now rewrite extend_nil. Qed.

Lemma writer_lift {A} (r : Result A) : writer (lift r).
Proof. exists [], r. intros s. unfold lift. now rewrite extend_nil. Qed.

Lemma writer_emit e : writer (emit e).
Proof. exists [e], (Ok tt). intros s. reflexivity. Qed.

Lemma writer_bind {A B} (c : M A) (k : A -> M B) :
  writer c -> (forall a, writer (k a)) -> writer (bind c k).
Proof.
  intros (els & r & Hc) Hk. destruct r as [a | e].
  - destruct (Hk a) as (els' & r' & Hk').
    exists (els ++ els'), r'. intros s.
    unfold bind. rewrite Hc, Hk'. now rewrite extend_extend.
  - exists els, (Raise e). intros s. unfold bind. now rewrite Hc.
Qed.

Lemma writer_with_expander {A} label (body : M A) :
  writer body -> writer (with_expander label body).
Proof.
  intros (els & r & Hb). exists [StExpander label els], r. intros s.
  unfold with_expander. rewrite Hb. reflexivity.
Qed.

Lemma writer_for_each {X A} (xs : list X) (body : X -> A -> M A) acc :
  (forall x a, writer (body x a)) -> writer (for_each xs body acc).
Proof.
  intros Hb. revert acc. induction xs as [| x xs IH]; intros acc; simpl.
  - apply writer_ret.
  - apply writer_bind; [apply Hb | intros a; apply IH].
Qed.

Lemma writer_st_radio ui label options : writer (st_radio ui label options).
Proof.
  apply writer_bind; [apply writer_emit | intros; apply writer_ret].
Qed.

Lemma writer_st_number_input ui label lo step key :
  writer (st_number_input ui label lo step key).
Proof.
  apply writer_bind; [apply writer_emit | intros; apply writer_ret].
Qed.

Ltac writer_step :=
  match goal with
  | |- writer (bind _ _) => apply writer_bind; [| intros]
  | |- writer (ret _) => apply writer_ret
  | |- writer (lift _) => apply writer_lift
  | |- writer (emit _) => apply writer_emit
  | |- writer (st_radio _ _ _) => apply writer_st_radio
  | |- writer (st_number_input _ _ _ _ _) => apply writer_st_number_input
  | |- writer (with_expander _ _) => apply writer_with_expander
  | |- writer (for_each _ _ _) => apply writer_for_each; intros
  | |- writer (if ?b then _ else _) => destruct b
  | |- writer (let '(_, _) := ?p in _) => destruct p
  | |- writer (match ?p with (_, _) => _ end) => destruct p
  end.

Lemma writer_input_section ui : writer (input_section ui).
Proof. unfold input_section. repeat writer_step. Qed.

Lemma writer_summary_section v : writer (summary_section v).
Proof.
  unfold summary_section, budget_summary, insights, warnings, visualization,
    bar_chart.
  repeat writer_step.
Qed.

(** A rendering computation is known from one run on an empty page. *)
Lemma writer_eval {A} (c : M A) h :
  writer c ->
  forall s, c s = (extend s (page (fst (c (start h)))), snd (c (start h))).
Proof.
  intros (els & r & Hc) s. rewrite (Hc (start h)), Hc. reflexivity.
Qed.

Lemma input_section_result ui h :
  snd (input_section ui (start h)) = Ok (entries_of ui).
Proof.
  destruct ui as [choice entry clicked].
  destruct choice; cbv -[number_value]; reflexivity.
Qed.

(** The input section renders its widgets and returns what they hold. *)
Lemma input_section_run ui s :
  input_section ui s = (extend s (input_page ui), Ok (entries_of ui)).
Proof.
  rewrite (writer_eval _ None (writer_input_section ui) s).
  now rewrite input_section_result.
Qed.

Lemma number_value_range entry :
  0 <= number_value 0 entry <= MAX_SAFE_INTEGER.
Proof.
  unfold number_value, MAX_SAFE_INTEGER.
  change (2 ^ 53 - 1) with 9007199254740991.
  destruct (Z.leb_spec 0 entry), (Z.leb_spec entry 9007199254740991);
    cbn [andb]; lia.
Qed.

Lemma entries_validated ui : validated (entries_of ui).
Proof.
  unfold validated, entries_of. cbn [mode budget expenses]. repeat split.
  - eexists. reflexivity.
  - apply number_value_range.
  - apply number_value_range.
  - apply Forall_map, Forall_forall. intros item _. cbn [snd].
    apply number_value_range.
Qed.

(** ** The summary section, piece by piece *)

Lemma max_safe : MAX_SAFE_INTEGER = 9007199254740991.
Proof. reflexivity. Qed.

Lemma str_eqb_refl a : str_eqb a a = true.
Proof. induction a; simpl; [reflexivity|]. now rewrite N.eqb_refl. Qed.

Lemma budget_summary_run v t r s :
  budget_summary v t r s =
  (extend s
     [ StSubheader (cp 0x1F4CA ++ lit " Budget Summary");
       StMetric 1 (cp 0x1F4B8 ++ lit " Budget") (RUPEE ++ str_int (budget v));
       StMetric 2 (cp 0x1F4C9 ++ lit " Expenses") (RUPEE ++ str_int t);
       StMetric 3 (cp 0x2705 ++ lit " Remaining") (RUPEE ++ str_int r) ],
   Ok tt).
Proof.
  unfold budget_summary. rewrite !bind_emit, emit_run, !extend_extend.
  reflexivity.
Qed.

Lemma computeEquivalent_ok m b :
  0 < b <= MAX_SAFE_INTEGER -> exists f, computeEquivalent m b = Ok f.
Proof.
  rewrite max_safe. intros Hb.
  destruct m; unfold computeEquivalent;
    [destruct (FloatFacts.truediv_small b 30) as (mf & ef & E & _)
    |destruct (FloatFacts.truediv_small b 6) as (mf & ef & E & _)];
    try (change (2 ^ 53) with 9007199254740992; lia);
    eexists; exact E.
Qed.

Lemma insights_run v m s :
  mode v = mode_str m -> 0 <= budget v <= MAX_SAFE_INTEGER ->
  insights v s = (extend s (insight_of m (budget v)), Ok tt).
Proof.
  intros Hm Hb. unfold insights, insight_of. rewrite Hm.
  destruct (Z.gtb_spec (budget v) 0) as [Hpos | Hzero].
  - destruct (computeEquivalent_ok m (budget v)) as (f & Hf); [lia|].
    rewrite Hf. destruct m; cbn [mode_str].
    + rewrite str_eqb_refl. cbn [andb]. rewrite Hf. reflexivity.
    + change (str_eqb SEMESTER MONTHLY) with false.
      rewrite str_eqb_refl. cbn [andb]. rewrite Hf. reflexivity.
  - rewrite !andb_false_r. unfold ret. now rewrite extend_nil.
Qed.

Lemma warnings_run v r s :
  0 <= budget v <= MAX_SAFE_INTEGER ->
  warnings v r s =
  (extend s [banner (classifyStatus_spec r (budget v))], Ok tt).
Proof.
  rewrite max_safe. intros Hb. unfold warnings.
  rewrite FloatFacts.classifyStatus_Z, <- FloatFacts.classifyStatus_spec_Z
    by (change (2 ^ 53) with 9007199254740992; lia).
  reflexivity.
Qed.

Lemma no_negative (E : dict Z) :
  Forall (fun item => 0 <= snd item <= MAX_SAFE_INTEGER) E ->
  existsb (fun a => a <? 0) (dict_values E) = false.
Proof.
  induction 1 as [| [k a] E Ha _ IH]; simpl; [reflexivity|].
  cbn [snd] in Ha. rewrite IH. destruct (Z.ltb_spec a 0); [lia | reflexivity].
Qed.

Lemma visualization_run v t s :
  Forall (fun item => 0 <= snd item <= MAX_SAFE_INTEGER) (expenses v) ->
  visualization v t s =
  (extend s
     (StSubheader (cp 0x1F4C8 ++ lit " Expense Distribution")
      :: if t >? 0
         then [StPyplot (dict_values (expenses v)) (dict_keys (expenses v))]
         else []),
   Ok tt).
Proof.
  intros He. unfold visualization, ax_pie. rewrite bind_emit, no_negative by assumption.
  destruct (t >? 0).
  - rewrite bind_lift_ok, emit_run, extend_extend. reflexivity.
  - unfold ret. reflexivity.
Qed.

Lemma bar_chart_run v r s :
  bar_chart v r s =
  (extend s
     [ StSubheader (cp 0x1F4CA ++ lit " Budget vs Expenses");
       StBarChart (combine (dict_keys (expenses v)) (dict_values (expenses v))
                   ++ [(lit "Remaining", r)]) ],
   Ok tt).
Proof.
  unfold bar_chart. rewrite bind_emit, emit_run, extend_extend. reflexivity.
Qed.

(** The summary section on validated entries: it completes, and renders
    the metrics, the time-scaled figure when the budget is positive, the
    banner of the status, the proportion chart when something was spent,
    and the bars. *)
Lemma summary_section_run v m s :
  mode v = mode_str m -> validated v ->
  summary_section v s =
  (extend s (summary_page v (insight_of m (budget v))),
   Ok (computeTotal (expenses v),
       computeRemaining (budget v) (computeTotal (expenses v)))).
Proof.
  intros Hm (_ & Hb & He).
  unfold summary_section, summary_page.
  set (total := computeTotal (expenses v)).
  set (remaining := computeRemaining (budget v) total).
  rewrite (bind_run _ _ _ _ _ (budget_summary_run v total remaining s)).
  fold (summary_head v).
  rewrite (bind_run _ _ _ _ _ (insights_run v m _ Hm Hb)).
  rewrite (bind_run _ _ _ _ _ (warnings_run v remaining _ Hb)).
  rewrite (bind_run _ _ _ _ _ (visualization_run v total _ He)).
  rewrite (bind_run _ _ _ _ _ (bar_chart_run v remaining _)).
  unfold ret. rewrite !extend_extend. unfold bars. fold total. fold remaining.
  repeat (f_equal; []). f_equal.
Qed.

(** ** Text: digits, plain fields, ASCII *)

Lemma lit_cons c s : lit (String c s) = N_of_ascii c :: lit s.
Proof. reflexivity. Qed.

Lemma plain_uint d : forallb is_plain (lit (NilEmpty.string_of_uint d)) = true.
Proof.
  induction d; cbn [NilEmpty.string_of_uint]; try reflexivity;
    rewrite lit_cons; cbn [forallb]; rewrite IHd; reflexivity.
Qed.

Lemma plain_str_int i : forallb is_plain (str_int i) = true.
Proof.
  unfold str_int.
  assert (Hz : forall d, forallb is_plain (lit (NilZero.string_of_uint d)) = true).
  { intros d. destruct d; try apply plain_uint. reflexivity. }
  destruct (Z.to_int i) as [d | d]; cbn [NilZero.string_of_int].
  - apply Hz.
  - rewrite lit_cons. cbn [forallb]. rewrite Hz. reflexivity.
Qed.

Lemma forallb_repeat {A} (f : A -> bool) a n :
  f a = true -> forallb f (repeat a n) = true.
Proof. intros Ha. induction n; simpl; [reflexivity|]. now rewrite Ha. Qed.

Lemma plain_pad0 n s :
  forallb is_plain s = true -> forallb is_plain (pad0 n s) = true.
Proof.
  intros Hs. unfold pad0. rewrite forallb_app, Hs.
  rewrite forallb_repeat by reflexivity. reflexivity.
Qed.

Lemma plain_isoformat d : forallb is_plain (isoformat d) = true.
Proof.
  unfold isoformat. rewrite !forallb_app.
  rewrite !plain_pad0 by apply plain_str_int. reflexivity.
Qed.

Lemma plain_is_ascii s : forallb is_plain s = true -> forallb is_ascii s = true.
Proof.
  induction s as [| c s IH]; simpl; [reflexivity|].
  intros H. apply andb_true_iff in H as [Hc Hs].
  unfold is_plain in Hc. apply andb_true_iff in Hc as [Hc _].
  now rewrite Hc, IH.
Qed.

Lemma csv_field_plain s : forallb is_plain s = true -> csv_field s = s.
Proof.
  intros Hs. unfold csv_field.
  replace (existsb csv_special s) with false; [reflexivity|].
  symmetry. induction s as [| c s IH]; simpl in *; [reflexivity|].
  apply andb_true_iff in Hs as [Hc Hs]. rewrite (IH Hs).
  unfold is_plain in Hc. apply andb_true_iff in Hc as [_ Hc].
  apply negb_true_iff in Hc. now rewrite Hc.
Qed.

Lemma encode_ascii s : forallb is_ascii s = true -> encode_utf8 s = Ok s.
Proof.
  induction s as [| c s IH]; simpl; [reflexivity|].
  intros H. apply andb_true_iff in H as [Hc Hs].
  rewrite (IH Hs). unfold utf8_char. unfold is_ascii in Hc.
  change 0x80%N with 128%N. rewrite Hc. reflexivity.
Qed.

Lemma plain_mode m : forallb is_plain (mode_str m) = true.
Proof. destruct m; reflexivity. Qed.

Lemma plain_cells r :
  is_row r -> Forall (fun c => forallb is_plain (str_cell c) = true) (cells r).
Proof.
  intros (d & m & b & t & rem & g & ->). unfold cells, row. cbn [map snd].
  repeat constructor; cbn [str_cell];
    auto using plain_isoformat, plain_mode, plain_str_int.
Qed.

Lemma ascii_join sep parts :
  forallb is_ascii sep = true ->
  Forall (fun p => forallb is_ascii p = true) parts ->
  forallb is_ascii (join sep parts) = true.
Proof.
  intros Hsep. induction 1 as [| p parts Hp Hps IH]; [reflexivity|].
  destruct parts as [| p' parts']; [exact Hp|].
  change (join sep (p :: p' :: parts')) with (p ++ sep ++ join sep (p' :: parts')).
  now rewrite !forallb_app, Hp, Hsep, IH.
Qed.

Lemma ascii_linesep p : forallb is_ascii (linesep p) = true.
Proof. destruct p; reflexivity. Qed.

Lemma ascii_plain_line sep fields :
  forallb is_ascii sep = true ->
  Forall (fun p => forallb is_ascii p = true) fields ->
  forallb is_ascii (plain_line sep fields) = true.
Proof.
  intros Hsep Hf. unfold plain_line.
  rewrite forallb_app, Hsep, ascii_join; auto.
Qed.

Lemma ascii_csv_text p h :
  Forall is_row h -> forallb is_ascii (csv_text (linesep p) h) = true.
Proof.
  intros Hh. unfold csv_text. rewrite forallb_app.
  rewrite ascii_plain_line;
    [| apply ascii_linesep | repeat constructor].
  induction Hh as [| r h Hr _ IH]; [reflexivity|].
  cbn [flat_map]. rewrite forallb_app.
  cbn [andb] in IH |- *. rewrite IH, andb_true_r.
  apply ascii_plain_line; [apply ascii_linesep|].
  apply Forall_map. eapply Forall_impl; [| apply plain_cells; exact Hr].
  intros c Hc. now apply plain_is_ascii.
Qed.

(** ** The table of the log *)

Lemma snapshot_row w v t r :
  snapshot w v t r = row (today w) (mode v) (budget v) t r (goal v).
Proof. reflexivity. Qed.

Lemma columns_step cols r :
  is_row r -> cols = [] \/ cols = HISTORY_COLUMNS ->
  fold_left add_column (dict_keys r) cols = HISTORY_COLUMNS.
Proof.
  intros (d & m & b & t & rem & g & ->) [-> | ->]; reflexivity.
Qed.

Lemma record_columns_rows h :
  Forall is_row h -> h <> [] -> record_columns h = HISTORY_COLUMNS.
Proof.
  intros Hh Hne. unfold record_columns.
  assert (G : forall cols,
             cols = [] \/ cols = HISTORY_COLUMNS ->
             h <> [] \/ cols = HISTORY_COLUMNS ->
             fold_left (fun cols r => fold_left add_column (dict_keys r) cols)
                       h cols = HISTORY_COLUMNS).
  { clear Hne. induction Hh as [| r h Hr _ IH]; intros cols Hc Hn.
    - destruct Hn as [Hn | Hn]; [contradiction | exact Hn].
    - cbn [fold_left]. rewrite (columns_step cols r Hr Hc).
      apply IH; right; reflexivity. }
  apply G; [left; reflexivity | left; exact Hne].
Qed.

Lemma DataFrame_of_rows h :
  Forall is_row h -> h <> [] -> DataFrame_of_records h = table h.
Proof.
  intros Hh Hne. unfold DataFrame_of_records, table.
  rewrite record_columns_rows by assumption. f_equal.
  apply map_ext_in. intros r Hr.
  rewrite Forall_forall in Hh.
  destruct (Hh r Hr) as (d & m & b & t & rem & g & ->). reflexivity.
Qed.

Lemma df_select_table h :
  Forall is_row h -> df_select (table h) HISTORY_COLUMNS = Ok (table h).
Proof.
  intros Hh. unfold df_select, table. cbn [columns rows].
  change (positions HISTORY_COLUMNS HISTORY_COLUMNS)
    with (Ok [0; 1; 2; 3; 4; 5]%nat).
  cbn [bindR]. do 2 f_equal.
  rewrite map_map. apply map_ext_in. intros r Hr.
  rewrite Forall_forall in Hh.
  destruct (Hh r Hr) as (d & m & b & t & rem & g & ->). reflexivity.
Qed.

Lemma csv_line_plain sep fields :
  Forall (fun p => forallb is_plain p = true) fields ->
  csv_line sep fields = plain_line sep fields.
Proof.
  intros Hf. unfold csv_line, plain_line. f_equal. f_equal.
  induction Hf as [| p fields Hp _ IH]; [reflexivity|].
  cbn [map]. now rewrite IH, csv_field_plain.
Qed.

Lemma to_csv_table sep h :
  Forall is_row h -> to_csv sep (table h) = csv_text sep h.
Proof.
  intros Hh. unfold to_csv, csv_text, table. cbn [columns rows].
  rewrite (csv_line_plain sep HISTORY_COLUMNS) by (repeat constructor).
  f_equal.
  induction Hh as [| r h Hr _ IH]; [reflexivity|].
  cbn [map flat_map]. rewrite IH.
  rewrite csv_line_plain; [reflexivity|].
  apply Forall_map. now apply plain_cells.
Qed.

(** ** The log section *)

Lemma export_section_run w h s :
  Forall is_row h -> export_section w h s = (extend s (export w h), Ok tt).
Proof.
  intros Hh. unfold export_section, export.
  destruct h as [| r h'].
  - cbn [List.length Z.of_nat Z.ltb Z.compare]. unfold ret.
    now rewrite extend_nil.
  - set (h := r :: h') in *.
    replace (0 <? Z.of_nat (List.length h)) with true
      by (symmetry; apply Z.ltb_lt; unfold h; cbn [List.length]; lia).
    rewrite DataFrame_of_rows by (assumption || discriminate).
    rewrite df_select_table, to_csv_table by assumption.
    rewrite encode_ascii by (apply ascii_csv_text; assumption).
    rewrite bind_lift_ok, bind_emit, bind_lift_ok, emit_run, extend_extend.
    reflexivity.
Qed.

Lemma snapshot_is_row w v m t r :
  mode v = mode_str m -> is_row (snapshot w v t r).
Proof.
  intros Hm. rewrite snapshot_row, Hm. unfold is_row. eauto 10.
Qed.

Lemma log_section_run w ui v m s :
  mode v = mode_str m -> Forall is_row (log_of (history s)) ->
  let t := computeTotal (expenses v) in
  let r := computeRemaining (budget v) t in
  let h := log_after w ui v (history s) in
  log_section w ui v t r s =
  ({| history := Some h; page := page s ++ log_page w h;
      requests := requests s |}, Ok tt).
Proof.
  intros Hm Hrows t r h.
  assert (Hh : Forall is_row h).
  { unfold h, log_after. apply Forall_app. split; [assumption|].
    destruct (button_clicked ui SAVE_LABEL); constructor;
      [eapply snapshot_is_row; eassumption | constructor]. }
  unfold log_section.
  unfold h, log_after in *. fold t in Hh |- *. fold r in Hh |- *.
  destruct s as [[before |] pg rq];
    cbn [log_of history page requests] in *;
    destruct (button_clicked ui SAVE_LABEL) eqn:Esave;
    cbn [bind emit ret session_has_history session_set_history st_button
         history_append session_history history page requests negb];
    rewrite Esave;
    cbn [bind emit ret session_has_history session_set_history st_button
         history_append session_history history page requests negb];
    rewrite ?app_nil_r in *; cbn [app] in *;
    rewrite export_section_run by assumption;
    unfold extend, log_page; cbn [history page requests];
    rewrite <- !app_assoc; reflexivity.
Qed.

(** ** The advice section *)

Ltac run_done :=
  cbn [bind emit ret]; rewrite ?emit_run; unfold extend;
  cbn [history page requests];
  rewrite <- ?app_assoc, ?app_nil_r; cbn [app]; reflexivity.

Lemma tips_section_idle w mo ui v r s :
  button_clicked ui TIPS_LABEL = false ->
  tips_section w mo ui v r s = (extend s (tips_head ++ footer), Ok tt).
Proof.
  intros Hno. unfold tips_section, st_button.
  cbn [bind emit ret]. rewrite Hno. run_done.
Qed.

Lemma get_ai_tips_run w mo v r s :
  get_ai_tips w mo (expenses v) (budget v) r (goal v) (mode v) s =
  match mo with
  | None => (s, Raise (AttributeError NONE_MESSAGE))
  | Some m =>
      let prompt := {| prompt_mode := mode v; prompt_expenses := expenses v;
                       prompt_budget := budget v; prompt_remaining := r;
                       prompt_goal := goal v |} in
      ({| history := history s; page := page s;
          requests := requests s ++ [(m, prompt)] |},
       bindR (service w m prompt) text)
  end.
Proof.
  unfold get_ai_tips. destruct mo as [m |]; [| reflexivity].
  unfold bind, generate_content, lift.
  destruct (service w m _); reflexivity.
Qed.

(** The [try] statement of lines 179--184. *)
Lemma try_tips_run w mo v s :
  try_except
    (bind (get_ai_tips w mo (expenses v) (budget v)
             (computeRemaining (budget v) (computeTotal (expenses v)))
             (goal v) (mode v))
          (fun tips => emit (StSuccess tips)))
    (fun e => bind (emit TIPS_WARNING) (fun _ => emit (StError (str_exn e))))
    s =
  ({| history := history s; page := page s ++ shown (advice w mo v);
      requests := requests s ++ sent (advice w mo v) |},
   outcome (advice w mo v)).
Proof.
  unfold try_except, bind at 1. rewrite get_ai_tips_run.
  unfold advice. fold (prompt_of v).
  destruct mo as [m |].
  - cbv zeta. fold (prompt_of v).
    destruct (bindR (service w m (prompt_of v)) text) as [tips | e].
    + reflexivity.
    + destruct (is_Exception e);
        [| cbn [shown sent outcome]; rewrite app_nil_r; reflexivity].
      cbn [shown sent outcome]. run_done.
  - cbn [is_Exception str_exn shown sent outcome]. run_done.
Qed.

Lemma tips_section_asked w mo ui v s :
  button_clicked ui TIPS_LABEL = true ->
  tips_section w mo ui v
    (computeRemaining (budget v) (computeTotal (expenses v))) s =
  ({| history := history s;
      page := page s ++ tips_head ++ shown (advice w mo v)
              ++ closing (outcome (advice w mo v));
      requests := requests s ++ sent (advice w mo v) |},
   outcome (advice w mo v)).
Proof.
  intros Hyes. unfold tips_section, st_button.
  cbn [bind emit ret]. rewrite Hyes.
  match goal with
  | |- bind _ ?k ?s1 = _ =>
      rewrite (bind_run _ k s1 _ _ (try_tips_run w mo v s1))
  end.
  destruct (outcome (advice w mo v)) as [[] | e]; cbn [closing].
  - run_done.
  - cbn [history page requests]. rewrite <- !app_assoc, app_nil_r.
    reflexivity.
Qed.

(** ** A whole run *)

(** Lines 11--15 by cases on the secrets store. *)
Lemma model_secrets w :
  model w =
  match secrets w with
  | NoSecrets message => Raise (StreamlitSecretNotFoundError message)
  | SecretsStore items =>
      Ok match dict_get items GEMINI_API_KEY with
         | Some k => Some {| api_key := k; model_name := lit "gemini-1.5-flash" |}
         | None => None
         end
  end.
Proof.
  unfold model, secrets_contains, secrets_get.
  destruct (secrets w) as [message | items]; [reflexivity|].
  cbn [bindR]. destruct (dict_get items GEMINI_API_KEY); reflexivity.
Qed.

(** The script after lines 11--15. *)
Lemma script_run w ui s :
  script w ui s =
  match model w with
  | Ok mo =>
      (v <- input_section ui ;;
       tr <- summary_section v ;;
       log_section w ui v (fst tr) (snd tr) ;;
       tips_section w mo ui v (snd tr)) s
  | Raise e => (s, Raise e)
  end.
Proof. unfold script, bind at 1, lift. destruct (model w); reflexivity. Qed.

(** A run whose line 11 raises stops there: no call of the script is
    reached, nothing is sent, and the session state is left as it was. *)
Lemma rerun_stop w e ui before :
  model w = Raise e -> rerun w ui before = (start before, Raise e).
Proof. intros Hm. unfold rerun, script, bind, lift. now rewrite Hm. Qed.

(** A run on a session whose log holds snapshots, once lines 11--15 have
    bound [model]: the entries are read, the summary is rendered, the log
    is extended when the save button was pressed, and the advice section
    runs. *)
Lemma rerun_run w mo ui before :
  model w = Ok mo ->
  Forall is_row (log_of before) ->
  let v := entries_of ui in
  let h := log_after w ui v before in
  let body := input_page ui
              ++ summary_page v (insight_of (radio_choice ui) (budget v))
              ++ log_page w h ++ tips_head in
  rerun w ui before =
  (if button_clicked ui TIPS_LABEL then
     ({| history := Some h;
         page := body ++ shown (advice w mo v)
                 ++ closing (outcome (advice w mo v));
         requests := sent (advice w mo v) |}, outcome (advice w mo v))
   else
     ({| history := Some h; page := body ++ footer; requests := [] |},
      Ok tt)).
Proof.
  intros Hmo Hrows v h body.
  assert (Hm : mode v = mode_str (radio_choice ui)) by reflexivity.
  assert (Hsum := summary_section_run v (radio_choice ui)
                    (extend (start before) (input_page ui)) Hm
                    (entries_validated ui)).
  unfold rerun, script. fold (start before).
  rewrite (bind_run _ _ (start before) (start before) (Ok mo))
    by (unfold lift; now rewrite Hmo).
  rewrite (bind_run _ _ _ _ _ (input_section_run ui (start before))).
  fold v. rewrite (bind_run _ _ _ _ _ Hsum). cbn [fst snd].
  rewrite extend_extend.
  set (s2 := extend (start before)
               (input_page ui
                ++ summary_page v (insight_of (radio_choice ui) (budget v)))).
  assert (Hlog := log_section_run w ui v (radio_choice ui) s2 Hm Hrows).
  cbn zeta in Hlog. cbn [s2 extend start history page requests app] in Hlog.
  fold h in Hlog.
  rewrite (bind_run _ _ _ _ _ Hlog).
  unfold body.
  destruct (button_clicked ui TIPS_LABEL) eqn:Etips.
  - rewrite tips_section_asked by assumption.
    cbn [history page requests app]. rewrite <- !app_assoc. reflexivity.
  - rewrite tips_section_idle by assumption.
    unfold extend. cbn [history page requests app].
    rewrite <- !app_assoc. reflexivity.
Qed.

End RunFacts.

(* ================================================================== *)
(** * The properties of the specification *)

Import FloatFacts RunFacts.
Local Open Scope run_scope.

(** The literal [0.2] is the correctly rounded quotient of 1 by 5. *)
Lemma lit_0_2_nearest : Float.int_truediv 1 5 = Ok Float.lit_0_2.
Proof. reflexivity. Qed.

(** C1.  [classifyStatus] returns Exceeded when remaining < 0, NearLimit
    when 0 <= remaining < 0.2 x budget, and OnTrack otherwise: for every
    integer remaining and every budget of magnitude below 2^53, the
    floating-point test of the script decides exactly the condition on the
    rationals; on the budget of any widgets, the banner rendered is the one
    of that status.  In particular classifyStatus(-1, 100) = Exceeded,
    classifyStatus(19, 100) = NearLimit, classifyStatus(20, 100) = OnTrack
    (the boundary is OnTrack, the comparison being strict) and
    classifyStatus(0, 0) = OnTrack. *)
Theorem classifyStatus_thresholds :
  (forall remaining budget,
      - 2 ^ 53 < budget < 2 ^ 53 ->
      classifyStatus remaining budget =
      Ok (classifyStatus_spec remaining budget)) /\
  (forall ui remaining s,
      let v := entries_of ui in
      warnings v remaining s =
      (extend s [banner (classifyStatus_spec remaining (budget v))], Ok tt)) /\
  classifyStatus (-1) 100 = Ok Exceeded /\
  classifyStatus 19 100 = Ok NearLimit /\
  classifyStatus 20 100 = Ok OnTrack /\
  classifyStatus 0 0 = Ok OnTrack.
Proof.
  split; [| split; [| repeat split; reflexivity]].
  - intros remaining budget Hb.
    rewrite classifyStatus_spec_Z. now apply classifyStatus_Z.
  - intros ui remaining s v. apply warnings_run.
    apply (entries_validated ui).
Qed.

Lemma classifyStatus_thresholds_witness :
  - 2 ^ 53 < 5000 < 2 ^ 53 /\
  classifyStatus 1000 5000 = Ok (classifyStatus_spec 1000 5000).
Proof.
  split; [split; reflexivity |].
  apply (proj1 classifyStatus_thresholds). split; reflexivity.
Defined.

Lemma fold_left_add (xs : list Z) (a : Z) :
  fold_left Z.add xs a = a + fold_left Z.add xs 0.
Proof.
  revert a. induction xs as [| x xs IH]; intros a; simpl; [lia|].
  rewrite (IH (a + x)), (IH x). lia.
Qed.

(** The total as the sum of the values, for the statements below. *)
Lemma computeTotal_values (E : dict Z) : computeTotal E = sum_of_values E.
Proof.
  unfold computeTotal, py_sum.
  induction E as [| [k a] E IH]; [reflexivity|].
  cbn [dict_values map snd fold_left sum_of_values].
  unfold dict_values in IH. rewrite fold_left_add, IH. lia.
Qed.

(** C2.  For every expense mapping E, [computeTotal E] is the sum of all
    values of E, and the total of the empty mapping is 0. *)
Theorem computeTotal_sum :
  (forall E : dict Z, computeTotal E = sum_of_values E) /\
  computeTotal [] = 0.
Proof.
  split; [| reflexivity].
  intros E. unfold computeTotal, py_sum, dict_values.
  induction E as [| [k a] E IH]; [reflexivity|].
  cbn [map snd fold_left sum_of_values].
  rewrite fold_left_add, IH. lia.
Qed.

(** C3.  For every budget b and total t, [computeRemaining b t] is b - t.
    A negative result (t > b) is a value like any other and no error: the
    test of the banner classifies it Exceeded, and on the entries of any
    widgets the summary section completes, shows budget - total in the
    Remaining metric and renders the banner of its status. *)
Theorem computeRemaining_signed :
  (forall b t, computeRemaining b t = b - t) /\
  (forall b t,
      b < t ->
      computeRemaining b t < 0 /\
      (- 2 ^ 53 < b < 2 ^ 53 ->
       classifyStatus (computeRemaining b t) b = Ok Exceeded)) /\
  (forall ui s,
      let v := entries_of ui in
      let total := computeTotal (expenses v) in
      exists s',
        summary_section v s = (s', Ok (total, budget v - total)) /\
        In (StMetric 3 (cp 0x2705 ++ lit " Remaining")
              (RUPEE ++ str_int (budget v - total))) (page s') /\
        In (banner (classifyStatus_spec (budget v - total) (budget v)))
           (page s')).
Proof.
  split; [reflexivity|]. split.
  - intros b t Hlt. unfold computeRemaining. split; [lia|].
    intros Hb. rewrite classifyStatus_Z by assumption.
    destruct (Z.ltb_spec (b - t) 0); [reflexivity | lia].
  - intros ui s v total.
    assert (Hrun := summary_section_run v (radio_choice ui) s eq_refl
                      (entries_validated ui)).
    eexists. split; [exact Hrun|].
    unfold extend, summary_page, summary_head. cbn [page]. fold total.
    unfold computeRemaining. split.
    + apply in_or_app. right. apply in_or_app. left.
      cbn [In]. auto.
    + apply in_or_app. right. apply in_or_app. right.
      apply in_or_app. right. cbn [app In]. auto.
Qed.

Lemma computeRemaining_signed_witness :
  50000 < 52000 /\ computeRemaining 50000 52000 < 0 /\
  classifyStatus (computeRemaining 50000 52000) 50000 = Ok Exceeded.
Proof.
  split; [reflexivity|].
  destruct (proj1 (proj2 computeRemaining_signed) 50000 52000 eq_refl)
    as [Hneg Hst].
  split; [exact Hneg|]. apply Hst. split; reflexivity.
Defined.

Lemma existsb_is_info_banner st : is_info (banner st) = false.
Proof. destruct st; reflexivity. Qed.

Lemma to_Q_exact m e k :
  e <= 0 -> Zpos m = k * 2 ^ (- e) ->
  exists q, Float.to_Q (S754_finite false m e) = Some q /\ (q == inject_Z k)%Q.
Proof.
  intros He Hm. unfold Float.to_Q.
  assert (Hp : 0 < 2 ^ (- e)) by (apply pow2_pos; lia).
  destruct (Z.leb_spec 0 e) as [H0 | H0].
  - assert (e = 0) by lia. subst e.
    change (2 ^ (- 0)) with 1 in Hm. rewrite Z.mul_1_r in Hm.
    eexists. split; [reflexivity|]. unfold Qeq, inject_Z. cbn [Qnum Qden].
    change (2 ^ 0) with 1. lia.
  - eexists. split; [reflexivity|]. unfold Qeq, inject_Z. cbn [Qnum Qden].
    rewrite Z2Pos.id by assumption. lia.
Qed.

(** C4.  [computeEquivalent] is budget / 30 in Monthly mode and budget / 6
    in Semester mode as Python divides integers: for a budget the widgets
    can deliver, the double within half a unit in the last place of the
    exact quotient, and the exact quotient when the division has no
    remainder.  It is 0.0 when budget is 0, and the figure is put on the
    page exactly when budget > 0.  In particular
    computeEquivalent(Monthly, 3000) = 100.0 and
    computeEquivalent(Semester, 6000) = 1000.0. *)
Theorem computeEquivalent_quotient :
  (forall m b,
      0 < b < 2 ^ 53 ->
      exists mant e,
        computeEquivalent m b = Ok (S754_finite false mant e) /\
        e <= 0 /\ 2 ^ 52 <= Zpos mant < 2 ^ 53 /\
        2 * Z.abs (divisor m * Zpos mant - b * 2 ^ (- e)) <= divisor m) /\
  (forall m k,
      0 < k -> divisor m * k < 2 ^ 53 ->
      exists f q,
        computeEquivalent m (divisor m * k) = Ok f /\
        Float.to_Q f = Some q /\ (q == inject_Z k)%Q) /\
  (forall m, computeEquivalent m 0 = Ok (S754_zero false)) /\
  (forall ui s,
      let v := entries_of ui in
      exists shown,
        page (fst (summary_section v s)) = page s ++ shown /\
        existsb is_info shown = (budget v >? 0)) /\
  computeEquivalent Monthly 3000 = Float.of_int 100 /\
  computeEquivalent Semester 6000 = Float.of_int 1000.
Proof.
  assert (A : forall m b,
             0 < b < 2 ^ 53 ->
             exists mant e,
               computeEquivalent m b = Ok (S754_finite false mant e) /\
               e <= 0 /\ 2 ^ 52 <= Zpos mant < 2 ^ 53 /\
               2 * Z.abs (divisor m * Zpos mant - b * 2 ^ (- e)) <= divisor m).
  { intros m b Hb. destruct m; unfold computeEquivalent, divisor;
      apply truediv_small; try assumption;
      change (2 ^ 53) with 9007199254740992; lia. }
  split; [exact A|]. split; [| split; [| split]].
  - intros m k Hk Hlt.
    assert (Hd : 0 < divisor m) by (destruct m; reflexivity).
    destruct (A m (divisor m * k)) as (mant & e & E & He & _ & Hnear); [nia|].
    destruct (to_Q_exact mant e k He) as (q & Hq & Hqk).
    + replace (divisor m * Zpos mant - divisor m * k * 2 ^ (- e))
        with (divisor m * (Zpos mant - k * 2 ^ (- e))) in Hnear by ring.
      rewrite Z.abs_mul, (Z.abs_eq (divisor m)) in Hnear by lia.
      assert (Z.abs (Zpos mant - k * 2 ^ (- e)) < 1) by nia.
      lia.
    + exists (S754_finite false mant e), q. auto.
  - intros m. destruct m; reflexivity.
  - intros ui s v.
    rewrite (summary_section_run v (radio_choice ui) s eq_refl
               (entries_validated ui)).
    cbn [fst extend page]. eexists. split; [reflexivity|].
    unfold summary_page. rewrite !existsb_app. unfold summary_head.
    cbn [existsb is_info orb]. rewrite existsb_is_info_banner.
    assert (Hpie : existsb is_info
                     (if computeTotal (expenses v) >? 0
                      then [StPyplot (dict_values (expenses v))
                              (dict_keys (expenses v))]
                      else []) = false)
      by (destruct (computeTotal (expenses v) >? 0); reflexivity).
    rewrite Hpie, !orb_false_r. unfold insight_of.
    destruct (Z.gtb_spec (budget v) 0) as [Hpos | Hzero]; [| reflexivity].
    destruct (computeEquivalent_ok (radio_choice ui) (budget v)) as (f & Hf).
    + pose proof (entries_validated ui) as (_ & Hb & _). fold v in Hb. lia.
    + rewrite Hf. reflexivity.
  - split; reflexivity.
Qed.

Lemma computeEquivalent_quotient_witness :
  0 < 5000 < 2 ^ 53 /\
  exists mant e,
    computeEquivalent Monthly 5000 = Ok (S754_finite false mant e) /\
    e <= 0 /\ 2 ^ 52 <= Zpos mant < 2 ^ 53 /\
    2 * Z.abs (30 * Zpos mant - 5000 * 2 ^ (- e)) <= 30.
Proof.
  split; [split; reflexivity |].
  apply (proj1 computeEquivalent_quotient Monthly 5000). split; reflexivity.
Defined.

(** The calculator on a budget the widgets can deliver ends normally,
    whatever the amounts. *)
Lemma calculator_run mode b E :
  0 <= b <= MAX_SAFE_INTEGER ->
  exists equivalent,
    calculator mode b E =
    Ok {| summary_total := computeTotal E;
          summary_remaining := b - computeTotal E;
          summary_equivalent := equivalent;
          summary_status := classifyStatus_spec (b - computeTotal E) b |}.
Proof.
  intros Hb. unfold calculator, computeRemaining.
  rewrite classifyStatus_Z, <- classifyStatus_spec_Z
    by (rewrite max_safe in Hb; change (2 ^ 53) with 9007199254740992; lia).
  destruct (Z.gtb_spec b 0) as [Hpos | Hzero].
  - destruct (computeEquivalent_ok Monthly b) as (f1 & Hf1); [lia|].
    destruct (computeEquivalent_ok Semester b) as (f2 & Hf2); [lia|].
    rewrite Hf1, Hf2, !andb_true_r.
    destruct (str_eqb mode MONTHLY); [eexists; reflexivity|].
    destruct (str_eqb mode SEMESTER); eexists; reflexivity.
  - rewrite !andb_false_r. eexists. reflexivity.
Qed.

(** C5, as stated, fails: on a mapping with a negative value the total is
    computed like any other and the calculator ends normally. *)
Lemma computeTotal_negative_accepted :
  let E := [(lit "Food", -5)] in
  (exists k a, In (k, a) E /\ a < 0) /\
  computeTotal E = -5 /\
  exists equivalent,
    calculator MONTHLY 100 E =
    Ok {| summary_total := -5; summary_remaining := 105;
          summary_equivalent := equivalent; summary_status := OnTrack |}.
Proof.
  split; [| split].
  - exists (lit "Food"), (-5). split; [left; reflexivity | reflexivity].
  - reflexivity.
  - eexists. vm_compute. reflexivity.
Qed.

(** C5, amended.  [computeTotal] never fails: a negative value is summed
    like any other.  The calculator (computeTotal, computeRemaining,
    computeEquivalent, classifyStatus) ends normally whenever the budget is
    a validated number, between 0 and 2^53 - 1 as the widgets deliver it;
    and negative amounts do not reach it: a number box with minimum 0
    delivers a value between 0 and 2^53 - 1, the entry itself when it lies
    in that range and the minimum 0 in place of a negative entry (and of
    one above the range); the budget, the goal and every amount that the
    input section returns is what such a box delivers, so that on the
    entries of any widgets all values are validated and the summary
    section completes. *)
Theorem calculator_total :
  (forall mode b E,
      0 <= b <= MAX_SAFE_INTEGER ->
      exists sm,
        calculator mode b E = Ok sm /\
        summary_total sm = sum_of_values E /\
        summary_remaining sm = b - sum_of_values E) /\
  (forall entry, 0 <= number_value 0 entry <= MAX_SAFE_INTEGER) /\
  (forall entry, 0 <= entry <= MAX_SAFE_INTEGER -> number_value 0 entry = entry) /\
  (forall entry, entry < 0 -> number_value 0 entry = 0) /\
  (forall entry, MAX_SAFE_INTEGER < entry -> number_value 0 entry = 0) /\
  (forall ui s,
      let m := radio_choice ui in
      let box key := number_value 0 (number_entry ui key) in
      exists s',
        input_section ui s =
        (s', Ok {| mode := mode_str m;
                   budget := box (budget_label m);
                   goal := box (goal_label m);
                   expenses :=
                     map (fun item => (fst item, box (fst item ++ mode_str m)))
                         (categories_of m) |})) /\
  (forall ui, validated (entries_of ui)) /\
  (forall ui s,
      exists v s' tr,
        input_section ui s = (s', Ok v) /\ validated v /\
        exists s'', summary_section v s' = (s'', Ok tr)).
Proof.
  assert (Hbox : forall entry,
             number_value 0 entry
             = if (0 <=? entry) && (entry <=? 9007199254740991) then entry
               else 0) by reflexivity.
  split; [| split; [| split; [| split; [| split; [| split; [| split]]]]]].
  - intros mode b E Hb. destruct (calculator_run mode b E Hb) as (eq & Hc).
    eexists. split; [exact Hc|]. cbn [summary_total summary_remaining].
    rewrite computeTotal_values. auto.
  - apply number_value_range.
  - intros entry. rewrite max_safe, Hbox. intros [H0 Hmax].
    destruct (Z.leb_spec 0 entry), (Z.leb_spec entry 9007199254740991);
      cbn [andb]; lia.
  - intros entry Hneg. rewrite Hbox.
    destruct (Z.leb_spec 0 entry); [lia | reflexivity].
  - intros entry. rewrite max_safe, Hbox. intros Hbig.
    destruct (Z.leb_spec 0 entry), (Z.leb_spec entry 9007199254740991);
      cbn [andb]; (lia || reflexivity).
  - intros ui s m box. rewrite input_section_run. eexists. reflexivity.
  - apply entries_validated.
  - intros ui s. exists (entries_of ui). do 2 eexists.
    split; [apply input_section_run|]. split; [apply entries_validated|].
    eexists. apply (summary_section_run _ (radio_choice ui));
      [reflexivity | apply entries_validated].
Qed.

Lemma calculator_total_witness :
  0 <= 5000 <= MAX_SAFE_INTEGER /\
  exists sm,
    calculator MONTHLY 5000
      [(lit "Food", 2000); (lit "Transport", 500); (lit "Rent", 1500)] = Ok sm /\
    summary_total sm = 4000 /\ summary_remaining sm = 1000.
Proof.
  split; [split; discriminate |].
  apply (proj1 calculator_total MONTHLY 5000
           [(lit "Food", 2000); (lit "Transport", 500); (lit "Rent", 1500)]).
  split; discriminate.
Defined.

(** ** The log across runs *)

Lemma balanced_is_row r : balanced r -> is_row r.
Proof. intros (d & m & b & t & g & ->). unfold is_row. eauto 10. Qed.

Lemma snapshot_balanced w ui :
  let v := entries_of ui in
  balanced (snapshot w v (computeTotal (expenses v))
              (computeRemaining (budget v) (computeTotal (expenses v)))).
Proof.
  intros v. rewrite snapshot_row. unfold balanced, computeRemaining.
  exists (today w), (radio_choice ui), (budget v), (computeTotal (expenses v)),
    (goal v). reflexivity.
Qed.

Lemma rerun_history w ui before :
  Forall is_row (log_of before) ->
  history (fst (rerun w ui before)) =
  if starts w then Some (log_after w ui (entries_of ui) before) else before.
Proof.
  intros Hrows. unfold starts. destruct (model w) as [mo | e] eqn:Hmo.
  - rewrite (rerun_run w mo ui before Hmo Hrows).
    destruct (button_clicked ui TIPS_LABEL); reflexivity.
  - now rewrite (rerun_stop w e ui before Hmo).
Qed.

Lemma starts_model w mo : model w = Ok mo -> starts w = true.
Proof. intros H. unfold starts. now rewrite H. Qed.

Lemma log_after_balanced w ui before :
  Forall balanced (log_of before) ->
  Forall balanced (log_after w ui (entries_of ui) before).
Proof.
  intros Hb. unfold log_after. apply Forall_app. split; [assumption|].
  destruct (button_clicked ui SAVE_LABEL); repeat constructor.
  apply snapshot_balanced.
Qed.

(** Whatever the runs of a session, its log is the log it started from
    followed by balanced snapshots. *)
Lemma session_from_grows runs :
  forall h,
    Forall balanced (log_of h) ->
    exists added,
      log_of (session_from h runs) = log_of h ++ added /\
      Forall balanced added.
Proof.
  induction runs as [| [w ui] runs IH]; intros h Hh.
  - exists []. rewrite app_nil_r. split; [reflexivity | constructor].
  - cbn [session_from].
    assert (Hrows : Forall is_row (log_of h))
      by (eapply Forall_impl; [apply balanced_is_row | exact Hh]).
    rewrite (rerun_history w ui h Hrows).
    destruct (starts w); [| now apply IH].
    destruct (IH (Some (log_after w ui (entries_of ui) h))) as (added & E & Ha).
    { cbn [log_of]. now apply log_after_balanced. }
    rewrite E. cbn [log_of]. unfold log_after at 1.
    rewrite <- app_assoc. eexists. split; [reflexivity|].
    apply Forall_app. split; [| exact Ha].
    destruct (button_clicked ui SAVE_LABEL); repeat constructor.
    apply snapshot_balanced.
Qed.

Lemma session_from_app runs1 runs2 h :
  session_from h (runs1 ++ runs2) = session_from (session_from h runs1) runs2.
Proof.
  revert h. induction runs1 as [| [w ui] runs1 IH]; intros h; [reflexivity|].
  cbn [app session_from]. apply IH.
Qed.

(** C6.  A run that reaches the save button (lines 11--15 have bound
    [model]) appends a snapshot to the log exactly when the button was
    pressed, and the snapshot matches the state of that run: its Expenses
    field is the sum of the expense values, its Remaining field is its
    Budget minus its Expenses, and Date, Mode and Goal are those of the
    run.  A run that line 11 ends leaves the session state as it was.  The
    records already in the log are left as they were and the log only
    grows, over any runs of a session; every record of a session has
    Remaining = Budget - Expenses.  Two saves in one session give a table
    of two rows in save order with all six columns populated. *)
Theorem history_snapshots :
  (forall w mo ui before,
      model w = Ok mo ->
      Forall is_row (log_of before) ->
      let v := entries_of ui in
      history (fst (rerun w ui before)) =
      Some (log_of before
            ++ if button_clicked ui SAVE_LABEL
               then [row (today w) (mode v) (budget v)
                       (sum_of_values (expenses v))
                       (budget v - sum_of_values (expenses v)) (goal v)]
               else [])) /\
  (forall w e ui before,
      model w = Raise e ->
      history (fst (rerun w ui before)) = before) /\
  (forall runs1 runs2,
      exists added,
        log_of (session (runs1 ++ runs2)) = log_of (session runs1) ++ added) /\
  (forall runs, Forall balanced (log_of (session runs))) /\
  (forall w1 mo1 ui1 w2 mo2 ui2,
      model w1 = Ok mo1 -> model w2 = Ok mo2 ->
      button_clicked ui1 SAVE_LABEL = true ->
      button_clicked ui2 SAVE_LABEL = true ->
      let v1 := entries_of ui1 in
      let v2 := entries_of ui2 in
      let r1 := row (today w1) (mode v1) (budget v1) (sum_of_values (expenses v1))
                  (budget v1 - sum_of_values (expenses v1)) (goal v1) in
      let r2 := row (today w2) (mode v2) (budget v2) (sum_of_values (expenses v2))
                  (budget v2 - sum_of_values (expenses v2)) (goal v2) in
      session [(w1, ui1); (w2, ui2)] = Some [r1; r2] /\
      DataFrame_of_records [r1; r2] =
      {| columns := HISTORY_COLUMNS; rows := [map snd r1; map snd r2] |} /\
      Forall (fun cells => List.length cells = 6%nat /\ ~ In CNaN cells)
             (rows (DataFrame_of_records [r1; r2]))).
Proof.
  split; [| split; [| split; [| split]]].
  - intros w mo ui before Hmo Hrows v. rewrite rerun_history by assumption.
    rewrite (starts_model w mo Hmo).
    unfold log_after. rewrite snapshot_row. fold v.
    unfold computeRemaining. rewrite computeTotal_values. reflexivity.
  - intros w e ui before He. now rewrite (rerun_stop w e ui before He).
  - intros runs1 runs2. unfold session. rewrite session_from_app.
    destruct (session_from_grows runs1 None (Forall_nil _)) as (a1 & E1 & H1).
    cbn [log_of app] in E1.
    destruct (session_from_grows runs2 (session_from None runs1)) as (a2 & E2 & _).
    { rewrite E1. exact H1. }
    exists a2. exact E2.
  - intros runs. unfold session.
    destruct (session_from_grows runs None (Forall_nil _)) as (a & E & H).
    rewrite E. exact H.
  - intros w1 mo1 ui1 w2 mo2 ui2 M1 M2 S1 S2 v1 v2 r1 r2.
    assert (E : session [(w1, ui1); (w2, ui2)] = Some [r1; r2]).
    { unfold session. cbn [session_from].
      rewrite (rerun_history w1 ui1 None) by constructor.
      rewrite (starts_model w1 mo1 M1).
      unfold log_after. rewrite S1. cbn [log_of app].
      rewrite rerun_history.
      - rewrite (starts_model w2 mo2 M2).
        unfold log_after. rewrite S2. cbn [log_of app].
        rewrite !snapshot_row. unfold computeRemaining.
        rewrite !computeTotal_values. reflexivity.
      - cbn [log_of]. repeat constructor.
        apply (snapshot_is_row _ _ (radio_choice ui1)). reflexivity. }
    split; [exact E|].
    assert (D : DataFrame_of_records [r1; r2] =
                {| columns := HISTORY_COLUMNS; rows := [map snd r1; map snd r2] |})
      by reflexivity.
    split; [exact D|]. rewrite D. cbn [rows].
    repeat constructor; cbn [map snd r1 r2 row In]; intuition discriminate.
Qed.

Lemma history_snapshots_witness :
  let ui := {| radio_choice := Monthly; number_entry := fun _ => 500;
               button_clicked := fun _ => true |} in
  let w := {| secrets := SecretsStore [];
              today := {| year := 2026; month := 11; day := 3 |};
              service := fun _ _ => Raise (ServiceError Transport []);
              platform := Posix |} in
  model w = Ok None /\ Forall is_row (log_of None) /\
  history (fst (rerun w ui None)) =
  Some [row (today w) MONTHLY 500 4500 (-4000) 500].
Proof.
  intros ui w. split; [reflexivity |]. split; [constructor |].
  apply (proj1 history_snapshots w None ui None); [reflexivity | constructor].
Defined.

(** ** Where the download button can be *)

Lemma no_download_input ui : existsb is_download (input_page ui) = false.
Proof.
  destruct ui as [choice entry clicked].
  destruct choice; cbv -[number_value]; reflexivity.
Qed.

Lemma no_download_summary v info :
  existsb is_download info = false ->
  existsb is_download (summary_page v info) = false.
Proof.
  intros Hinfo. unfold summary_page, summary_head.
  rewrite !existsb_app, Hinfo.
  destruct (classifyStatus_spec _ _), (computeTotal (expenses v) >? 0);
    reflexivity.
Qed.

Lemma no_download_insight m b : existsb is_download (insight_of m b) = false.
Proof.
  unfold insight_of. destruct (b >? 0); [| reflexivity].
  destruct (computeEquivalent m b); reflexivity.
Qed.

Lemma no_download_advice w mo v :
  existsb is_download (shown (advice w mo v)) = false.
Proof.
  unfold advice. destruct mo as [m |]; [| reflexivity].
  destruct (bindR (service w m (prompt_of v)) text) as [tips | e];
    [reflexivity|].
  destruct (is_Exception e); reflexivity.
Qed.

Lemma no_download_closing res : existsb is_download (closing res) = false.
Proof. destruct res; reflexivity. Qed.

(** C7.  In a run that reaches the log section (lines 11--15 have bound
    [model]), when the log is not empty after the save of the run, the page
    shows the table with exactly the columns Date, Mode, Budget, Expenses,
    Remaining, Goal and offers a download named expenses.csv of type
    text/csv; its content is what [to_csv] makes of the log: a header line
    with the six column names, then one line per snapshot in append order,
    six comma-separated fields each, none of them quoted; the text is
    ASCII, so that its UTF-8 encoding succeeds and is the text itself.
    When the log is empty the page holds no download button, and neither
    does the page of a run that line 11 ends. *)
Theorem csv_export :
  (forall w mo ui before,
      model w = Ok mo ->
      Forall is_row (log_of before) ->
      let h := log_after w ui (entries_of ui) before in
      let rendered := page (fst (rerun w ui before)) in
      (h <> [] ->
       In (StWrite {| columns := HISTORY_COLUMNS; rows := map cells h |})
          rendered /\
       In (StDownloadButton DOWNLOAD_LABEL
             (csv_text (linesep (platform w)) h)
             (lit "expenses.csv") (lit "text/csv")) rendered) /\
      (h = [] -> existsb is_download rendered = false)) /\
  (forall w e ui before,
      model w = Raise e ->
      existsb is_download (page (fst (rerun w ui before))) = false) /\
  (forall sep h,
      Forall is_row h -> h <> [] ->
      DataFrame_of_records h =
      {| columns := HISTORY_COLUMNS; rows := map cells h |} /\
      to_csv sep (DataFrame_of_records h) = csv_text sep h) /\
  (forall sep h,
      csv_text sep h =
      (join (cp 44) HISTORY_COLUMNS ++ sep)
      ++ flat_map (fun r => join (cp 44) (map str_cell (cells r)) ++ sep) h) /\
  (forall h,
      Forall is_row h ->
      Forall (fun r =>
                List.length (cells r) = 6%nat /\
                Forall (fun c => forallb is_plain (str_cell c) = true) (cells r))
             h) /\
  (forall p h,
      Forall is_row h ->
      forallb is_ascii (csv_text (linesep p) h) = true /\
      encode_utf8 (csv_text (linesep p) h) = Ok (csv_text (linesep p) h)).
Proof.
  split; [| split; [| split; [| split; [| split]]]].
  - intros w mo ui before Hmo Hrows h rendered. unfold rendered.
    rewrite (rerun_run w mo ui before Hmo Hrows). fold h.
    split.
    + intros Hne.
      assert (Hexp : In (StWrite (table h)) (log_page w h) /\
                     In (StDownloadButton DOWNLOAD_LABEL
                           (csv_text (linesep (platform w)) h)
                           (lit "expenses.csv") (lit "text/csv"))
                        (log_page w h)).
      { unfold log_page, export. destruct h as [| r h']; [contradiction|].
        cbn [app In]. split; auto 10. }
      destruct Hexp as [H1 H2]. unfold table in H1.
      destruct (button_clicked ui TIPS_LABEL); cbn [fst page];
        rewrite !in_app_iff; auto 10.
    + intros Hnil. rewrite Hnil.
      destruct (button_clicked ui TIPS_LABEL); cbn [fst page];
        rewrite !existsb_app, no_download_input,
          (no_download_summary _ _ (no_download_insight _ _)),
          ?no_download_advice, ?no_download_closing; reflexivity.
  - intros w e ui before He. now rewrite (rerun_stop w e ui before He).
  - intros sep h Hh Hne. rewrite DataFrame_of_rows by assumption.
    split; [reflexivity | now apply to_csv_table].
  - reflexivity.
  - intros h Hh. eapply Forall_impl; [| exact Hh].
    intros r Hr. split; [| now apply plain_cells].
    destruct Hr as (d & m & b & t & rem & g & ->). reflexivity.
  - intros p h Hh. pose proof (ascii_csv_text p h Hh) as Ha.
    split; [exact Ha | now apply encode_ascii].
Qed.

Lemma csv_export_witness :
  let r := row {| year := 2026; month := 11; day := 3 |} MONTHLY 5000 4000 1000 1000 in
  Forall is_row [r] /\ [r] <> [] /\
  to_csv (linesep Posix) (DataFrame_of_records [r]) =
  lit "Date,Mode,Budget,Expenses,Remaining,Goal" ++ cp 10
  ++ lit "2026-11-03,Monthly Budgeting,5000,4000,1000,1000" ++ cp 10.
Proof.
  intros r.
  assert (Hr : Forall is_row [r]).
  { repeat constructor. unfold is_row.
    exists {| year := 2026; month := 11; day := 3 |}, Monthly, 5000, 4000, 1000,
      1000. reflexivity. }
  assert (Hne : [r] <> []) by discriminate.
  split; [exact Hr|]. split; [exact Hne|].
  exact (proj2 (proj1 (proj2 (proj2 csv_export)) (linesep Posix) [r] Hr Hne)).
Defined.

(** ** Runs that send nothing *)

Lemma quiet_writer {A} (c : M A) : writer c -> quiet c.
Proof. intros (els & r & Hc) s. rewrite Hc. reflexivity. Qed.

Lemma quiet_bind {A B} (c : M A) (k : A -> M B) :
  quiet c -> (forall a, quiet (k a)) -> quiet (bind c k).
Proof.
  intros Hc Hk s. unfold bind. specialize (Hc s).
  destruct (c s) as [s1 [a | e]]; cbn [fst] in *; [| exact Hc].
  rewrite Hk. exact Hc.
Qed.

Lemma quiet_try_except {A} (body : M A) handler :
  quiet body -> (forall e, quiet (handler e)) -> quiet (try_except body handler).
Proof.
  intros Hb Hh s. unfold try_except. specialize (Hb s).
  destruct (body s) as [s1 [a | e]]; cbn [fst] in *; [exact Hb|].
  destruct (is_Exception e); [| exact Hb]. rewrite Hh. exact Hb.
Qed.

Lemma writer_export_section w h : writer (export_section w h).
Proof. unfold export_section. cbv zeta. repeat writer_step. Qed.

Lemma writer_st_button ui label : writer (st_button ui label).
Proof. unfold st_button. repeat writer_step. Qed.

Lemma quiet_log_section w ui v t r : quiet (log_section w ui v t r).
Proof.
  unfold log_section.
  apply quiet_bind; [apply quiet_writer, writer_emit | intros _].
  apply quiet_bind; [intros s; reflexivity | intros present].
  apply quiet_bind;
    [destruct (negb present); intros s; reflexivity | intros _].
  apply quiet_bind; [apply quiet_writer, writer_st_button | intros save].
  apply quiet_bind.
  - destruct save; [| intros s; reflexivity].
    intros s. unfold history_append, bind, session_history, session_set_history.
    destruct (history s); reflexivity.
  - intros _. apply quiet_bind.
    + intros s. unfold session_history. destruct (history s); reflexivity.
    + intros h. apply quiet_writer, writer_export_section.
Qed.

Lemma quiet_tips_section w ui v r : quiet (tips_section w None ui v r).
Proof.
  unfold tips_section.
  apply quiet_bind; [apply quiet_writer, writer_emit | intros _].
  apply quiet_bind; [apply quiet_writer, writer_st_button | intros asked].
  apply quiet_bind.
  - destruct asked; [| apply quiet_writer, writer_ret].
    apply quiet_try_except.
    + apply quiet_bind; [| intros tips; apply quiet_writer, writer_emit].
      intros s. reflexivity.
    + intros e. apply quiet_writer. repeat writer_step.
  - intros _. apply quiet_writer. repeat writer_step.
Qed.

Lemma quiet_script w ui :
  (forall m, model w <> Ok (Some m)) -> quiet (script w ui).
Proof.
  intros Hnone s. unfold script, bind at 1, lift.
  destruct (model w) as [[m |] | e]; [now destruct (Hnone m) | | reflexivity].
  revert s.
  apply quiet_bind; [apply quiet_writer, writer_input_section | intros v].
  apply quiet_bind; [apply quiet_writer, writer_summary_section | intros tr].
  apply quiet_bind; [apply quiet_log_section | intros _].
  apply quiet_tips_section.
Qed.

Lemma button_idle ui label : button_clicked (with_button ui label false) label = false.
Proof. cbn [with_button button_clicked]. now rewrite str_eqb_refl. Qed.

(** C8.  When the advice call raises a transport, authentication or quota
    error, the error is caught where the call is made: the run ends
    normally, the page is the page of the same run without the press of the
    advice button with the warning and the raw error detail inserted before
    the footer, the session state is the same, and exactly one request was
    sent (no retry). *)
Theorem advice_failure_contained :
  forall w ui before m kind msg,
    Forall is_row (log_of before) ->
    button_clicked ui TIPS_LABEL = true ->
    model w = Ok (Some m) ->
    service w m (prompt_of (entries_of ui)) = Raise (ServiceError kind msg) ->
    exists h body,
      rerun w (with_button ui TIPS_LABEL false) before =
      ({| history := Some h; page := body ++ footer; requests := [] |}, Ok tt) /\
      rerun w ui before =
      ({| history := Some h;
          page := body ++ [TIPS_WARNING; StError msg] ++ footer;
          requests := [(m, prompt_of (entries_of ui))] |}, Ok tt).
Proof.
  intros w ui before m kind msg Hrows Hasked Hmodel Hfail.
  set (v := entries_of ui) in *.
  exists (log_after w ui v before).
  exists (input_page ui
          ++ summary_page v (insight_of (radio_choice ui) (budget v))
          ++ log_page w (log_after w ui v before) ++ tips_head).
  split.
  - rewrite (rerun_run w _ _ before Hmodel Hrows). rewrite button_idle.
    reflexivity.
  - rewrite (rerun_run w _ ui before Hmodel Hrows). rewrite Hasked. fold v.
    unfold advice. rewrite Hfail. reflexivity.
Qed.

Lemma advice_failure_contained_witness :
  let m := {| api_key := lit "k"; model_name := lit "gemini-1.5-flash" |} in
  let w := {| secrets := SecretsStore [(GEMINI_API_KEY, lit "k")];
              today := {| year := 2026; month := 11; day := 3 |};
              service := fun _ _ => Raise (ServiceError Quota (lit "429"));
              platform := Posix |} in
  let ui := {| radio_choice := Monthly; number_entry := fun _ => 0;
               button_clicked := fun l => str_eqb l TIPS_LABEL |} in
  exists h body,
    rerun w (with_button ui TIPS_LABEL false) None =
    ({| history := Some h; page := body ++ footer; requests := [] |}, Ok tt) /\
    rerun w ui None =
    ({| history := Some h;
        page := body ++ [TIPS_WARNING; StError (lit "429")] ++ footer;
        requests := [(m, prompt_of (entries_of ui))] |}, Ok tt).
Proof.
  intros m w ui.
  apply (advice_failure_contained w ui None m Quota (lit "429"));
    [constructor | reflexivity | reflexivity | reflexivity].
Defined.

(** C9.  No advice credential is configured when the secrets store holds
    no GEMINI_API_KEY, or when there is no secrets store at all.  An
    invocation of [get_ai_tips] without a model raises at once, leaving the
    run as it was.  With a store that lacks the key there is no model
    ([model = None]): no run sends a request to the text-generation
    service, and a press of the advice button ends in the warning and the
    error message on the page.  Without a store line 11 raises: every run
    ends there with that error, before anything is invoked or sent, and
    the session state is left as it was. *)
Theorem advice_disabled_without_credential :
  (forall w expenses budget remaining goal mode s,
      get_ai_tips w None expenses budget remaining goal mode s =
      (s, Raise (AttributeError NONE_MESSAGE))) /\
  (forall w items,
      secrets w = SecretsStore items ->
      dict_get items GEMINI_API_KEY = None ->
      model w = Ok None /\
      (forall ui before, requests (fst (rerun w ui before)) = []) /\
      (forall ui before,
          Forall is_row (log_of before) ->
          button_clicked ui TIPS_LABEL = true ->
          exists h body,
            rerun w ui before =
            ({| history := Some h;
                page := body ++ [TIPS_WARNING; StError NONE_MESSAGE] ++ footer;
                requests := [] |}, Ok tt))) /\
  (forall w message,
      secrets w = NoSecrets message ->
      model w = Raise (StreamlitSecretNotFoundError message) /\
      (forall ui before,
          snd (rerun w ui before)
          = Raise (StreamlitSecretNotFoundError message) /\
          requests (fst (rerun w ui before)) = [] /\
          history (fst (rerun w ui before)) = before)).
Proof.
  split; [reflexivity|]. split.
  - intros w items Hstore Hkey.
    assert (Hnone : model w = Ok None)
      by (rewrite model_secrets, Hstore, Hkey; reflexivity).
    split; [exact Hnone|]. split.
    + intros ui before. unfold rerun. rewrite quiet_script; [reflexivity|].
      intros m. rewrite Hnone. discriminate.
    + intros ui before Hrows Hasked.
      rewrite (rerun_run w None ui before Hnone Hrows), Hasked.
      unfold advice. cbn [shown sent outcome closing].
      do 2 eexists. reflexivity.
  - intros w message Hstore.
    assert (Hstop : model w = Raise (StreamlitSecretNotFoundError message))
      by (rewrite model_secrets, Hstore; reflexivity).
    split; [exact Hstop|]. intros ui before.
    rewrite (rerun_stop w _ ui before Hstop). repeat split.
Qed.

Lemma advice_disabled_without_credential_witness :
  let day := {| year := 2026; month := 11; day := 3 |} in
  let answer := fun (_ : GenerativeModel) (_ : Prompt) =>
                  Ok {| text := Ok (lit "tips") |} in
  let w1 := {| secrets := SecretsStore [(lit "OTHER_KEY", lit "x")];
               today := day; service := answer; platform := Posix |} in
  let w2 := {| secrets := NoSecrets (lit "No secrets found.");
               today := day; service := answer; platform := Posix |} in
  (forall ui before, requests (fst (rerun w1 ui before)) = []) /\
  (forall ui before,
      snd (rerun w2 ui before)
      = Raise (StreamlitSecretNotFoundError (lit "No secrets found.")) /\
      requests (fst (rerun w2 ui before)) = [] /\
      history (fst (rerun w2 ui before)) = before).
Proof.
  intros day answer w1 w2. split.
  - exact (proj1 (proj2 (proj1 (proj2 advice_disabled_without_credential)
                           w1 [(lit "OTHER_KEY", lit "x")] eq_refl eq_refl))).
  - exact (proj2 (proj2 (proj2 advice_disabled_without_credential)
                    w2 (lit "No secrets found.") eq_refl)).
Defined.

(** ** The savings goal *)

Lemma entries_with_goal ui g :
  entries_of (with_goal ui g) =
  {| mode := mode (entries_of ui); budget := budget (entries_of ui);
     goal := number_value 0 g; expenses := expenses (entries_of ui) |}.
Proof.
  destruct ui as [choice entry clicked].
  destruct choice; cbv -[number_value]; reflexivity.
Qed.

Lemma input_page_with_goal ui g : input_page (with_goal ui g) = input_page ui.
Proof.
  destruct ui as [choice entry clicked].
  destruct choice; cbv -[number_value]; reflexivity.
Qed.

Lemma summary_section_goal md b g1 g2 E :
  summary_section {| mode := md; budget := b; goal := g1; expenses := E |} =
  summary_section {| mode := md; budget := b; goal := g2; expenses := E |}.
Proof. reflexivity. Qed.

Lemma log_section_unsaved w ui v1 v2 t r s :
  button_clicked ui SAVE_LABEL = false ->
  log_section w ui v1 t r s = log_section w ui v2 t r s.
Proof.
  intros Hno. unfold log_section.
  destruct s as [[h |] pg rq];
    cbn [bind emit ret session_has_history session_set_history st_button
         history_append session_history history page requests negb];
    rewrite Hno; reflexivity.
Qed.

(** C10.  The savings goal does not influence the computed summary.  For
    the same widgets with two different goals typed in, the entries agree
    on mode, budget and expense mapping, and the run of the input and
    summary sections is the same run: same page (metrics, time-scaled
    figure, banner, both charts) and same total and remaining.  When no
    button is pressed the whole run is the same: the goal reaches only the
    saved snapshot and the advice prompt. *)
Theorem goal_noninterference :
  (forall ui g1 g2,
      let v1 := entries_of (with_goal ui g1) in
      let v2 := entries_of (with_goal ui g2) in
      mode v1 = mode v2 /\ budget v1 = budget v2 /\ expenses v1 = expenses v2 /\
      goal v1 = number_value 0 g1 /\ goal v2 = number_value 0 g2 /\
      calculator (mode v1) (budget v1) (expenses v1) =
      calculator (mode v2) (budget v2) (expenses v2)) /\
  (forall ui g1 g2 s,
      bind (input_section (with_goal ui g1)) summary_section s =
      bind (input_section (with_goal ui g2)) summary_section s) /\
  (forall w ui g1 g2 before,
      let idle := with_button (with_button ui SAVE_LABEL false) TIPS_LABEL false in
      rerun w (with_goal idle g1) before = rerun w (with_goal idle g2) before).
Proof.
  split; [| split].
  - intros ui g1 g2 v1 v2. unfold v1, v2. rewrite !entries_with_goal.
    cbn [mode budget expenses goal]. repeat split; reflexivity.
  - intros ui g1 g2 s.
    rewrite (bind_run _ _ _ _ _ (input_section_run (with_goal ui g1) s)).
    rewrite (bind_run _ _ _ _ _ (input_section_run (with_goal ui g2) s)).
    rewrite !input_page_with_goal, !entries_with_goal.
    now rewrite (summary_section_goal _ _ (number_value 0 g1) (number_value 0 g2)).
  - intros w ui g1 g2 before idle. unfold rerun. rewrite !script_run.
    destruct (model w) as [mo | e]; [| reflexivity].
    rewrite (bind_run _ _ _ _ _ (input_section_run (with_goal idle g1) _)).
    rewrite (bind_run _ _ _ _ _ (input_section_run (with_goal idle g2) _)).
    rewrite !input_page_with_goal, !entries_with_goal.
    rewrite (summary_section_goal _ _ (number_value 0 g1) (number_value 0 g2)).
    set (v1 := {| mode := _; budget := _; goal := number_value 0 g1; expenses := _ |}).
    set (v2 := {| mode := _; budget := _; goal := number_value 0 g2; expenses := _ |}).
    unfold bind at 1 3.
    destruct (summary_section v2 _) as [s1 [tr | e]]; [| reflexivity].
    assert (Hsave : forall g, button_clicked (with_goal idle g) SAVE_LABEL = false).
    { intros g. cbn [with_goal idle with_button button_clicked].
      change (str_eqb SAVE_LABEL TIPS_LABEL) with false. cbv iota.
      now rewrite str_eqb_refl. }
    assert (Htips : forall g, button_clicked (with_goal idle g) TIPS_LABEL = false).
    { intros g. cbn [with_goal idle with_button button_clicked].
      now rewrite str_eqb_refl. }
    unfold bind.
    rewrite (log_section_unsaved w (with_goal idle g1) v1 v2 _ _ _ (Hsave g1)).
    assert (Hlog : log_section w (with_goal idle g1) v2 (fst tr) (snd tr) s1 =
                   log_section w (with_goal idle g2) v2 (fst tr) (snd tr) s1).
    { unfold log_section, st_button.
      destruct s1 as [[h |] pg rq];
        cbn [bind emit ret session_has_history session_set_history
             history_append session_history history page requests negb];
        rewrite !Hsave; reflexivity. }
    rewrite Hlog.
    destruct (log_section w (with_goal idle g2) v2 (fst tr) (snd tr) s1)
      as [s2 [[] | e]]; [| reflexivity].
    now rewrite !tips_section_idle by apply Htips.
Qed.

(* ================================================================== *)
(** * Remarks and scenarios *)

(** The bound 2^53 on the budget matters to the floating-point test, though
    for no budget that a widget delivers: at five times [2 ^ 53 + 1] the
    conversion of the budget and the product are both rounded, and the
    threshold moves up by one. *)
Remark classifyStatus_beyond_2_53 :
  let budget := 5 * (2 ^ 53 + 1) in
  let remaining := 2 ^ 53 + 1 in
  MAX_SAFE_INTEGER < budget /\
  classifyStatus remaining budget = Ok NearLimit /\
  classifyStatus_spec remaining budget = OnTrack.
Proof. repeat split. Qed.

(** The sum does not depend on the order of the items. *)
Lemma computeTotal_permutation (E E' : dict Z) :
  Permutation E E' -> computeTotal E = computeTotal E'.
Proof.
  intros HP. rewrite !computeTotal_values.
  induction HP as [| [k a] E1 E2 _ IH | [k a] [k' a'] E1 | E1 E2 E3 _ IH1 _ IH2];
    cbn [sum_of_values]; lia.
Qed.

(** Monthly mode, budget 5000, expenses 2000 + 500 + 1500: total 4000,
    remaining 1000, on track (1000 is not below 0.2 x 5000), daily
    allowance shown as 166.67. *)
Example scenario_monthly :
  exists daily,
    calculator MONTHLY 5000
      [(lit "Food", 2000); (lit "Transport", 500); (lit "Rent", 1500)] =
    Ok {| summary_total := 4000; summary_remaining := 1000;
          summary_equivalent := Some daily; summary_status := OnTrack |} /\
    Float.format_2f daily = lit "166.67".
Proof. eexists. split; vm_compute; reflexivity. Qed.

(** Semester mode, budget 50000, expenses totalling 52000: remaining -2000,
    exceeded. *)
Example scenario_semester :
  exists monthly,
    calculator SEMESTER 50000
      [(lit "Tuition Fees", 40000); (lit "Hostel", 12000)] =
    Ok {| summary_total := 52000; summary_remaining := -2000;
          summary_equivalent := Some monthly; summary_status := Exceeded |} /\
    banner Exceeded =
    StError (cp 0x26A0 ++ cp 0xFE0F ++ lit " You exceeded your budget!").
Proof. eexists. split; vm_compute; reflexivity. Qed.

(* ================================================================== *)
(** * Further properties of the script *)

Lemma str_eqb_eq a : forall b, str_eqb a b = true <-> a = b.
Proof.
  induction a as [| x a IH]; intros [| y b]; simpl; split; intros H;
    try reflexivity; try discriminate.
  - apply andb_true_iff in H as [Hx Hab]. apply N.eqb_eq in Hx.
    apply IH in Hab. now subst.
  - injection H as -> ->. rewrite N.eqb_refl. now apply IH.
Qed.

Lemma distinct_NoDup l : distinct l = true -> NoDup l.
Proof.
  induction l as [| x l IH]; simpl; intros H; constructor.
  - apply andb_true_iff in H as [H _]. apply negb_true_iff in H.
    intros Hin. enough (existsb (str_eqb x) l = true) by congruence.
    apply existsb_exists. exists x. split; [assumption | now apply str_eqb_eq].
  - apply IH. now apply andb_true_iff in H as [_ H].
Qed.

Lemma entries_keys ui :
  dict_keys (expenses (entries_of ui)) = dict_keys (categories_of (radio_choice ui)).
Proof.
  unfold entries_of, dict_keys. cbn [expenses]. rewrite map_map. reflexivity.
Qed.

Lemma categories_distinct m : distinct (dict_keys (categories_of m)) = true.
Proof. destruct m; vm_compute; reflexivity. Qed.

Lemma dict_get_map {V} (f : pystr -> V) (keys : list pystr) k :
  In k keys -> dict_get (map (fun c => (c, f c)) keys) k = Some (f k).
Proof.
  induction keys as [| c keys IH]; simpl; [contradiction|].
  intros [-> | Hin].
  - now rewrite str_eqb_refl.
  - destruct (str_eqb c k) eqn:E; [| now apply IH].
    apply str_eqb_eq in E. now subst.
Qed.

(** X1.  The loop of lines 90--94 leaves in [expenses] one amount for each
    category of the chosen mode and nothing else: the keys are the
    categories in the order of the table, none twice (nine in Monthly mode,
    ten in Semester mode), every amount lies between 0 and [2 ^ 53 - 1], and
    the amount under a category is the validated entry of the number box
    whose key is the category followed by the mode. *)
Theorem expenses_one_per_category :
  forall ui s,
    let m := radio_choice ui in
    exists s' v,
      input_section ui s = (s', Ok v) /\
      mode v = mode_str m /\
      dict_keys (expenses v) = dict_keys (categories_of m) /\
      NoDup (dict_keys (expenses v)) /\
      List.length (expenses v) = match m with Monthly => 9%nat | Semester => 10%nat end /\
      Forall (fun item => 0 <= snd item <= MAX_SAFE_INTEGER) (expenses v) /\
      forall cat,
        In cat (dict_keys (categories_of m)) ->
        dict_get (expenses v) cat =
        Some (number_value 0 (number_entry ui (cat ++ mode_str m))).
Proof.
  intros ui s m. rewrite input_section_run. do 2 eexists.
  split; [reflexivity|]. split; [reflexivity|].
  split; [apply entries_keys|]. split; [| split; [| split]].
  - rewrite entries_keys. apply distinct_NoDup, categories_distinct.
  - unfold entries_of. cbn [expenses]. rewrite length_map. fold m.
    destruct m; reflexivity.
  - apply (entries_validated ui).
  - intros cat Hin. unfold entries_of. cbn [expenses]. fold m.
    replace (map (fun item => (fst item, number_value 0 (number_entry ui (fst item ++ mode_str m))))
               (categories_of m))
      with (map (fun c => (c, number_value 0 (number_entry ui (c ++ mode_str m))))
              (dict_keys (categories_of m)))
      by (unfold dict_keys; now rewrite map_map).
    now apply (dict_get_map (fun c => number_value 0 (number_entry ui (c ++ mode_str m)))).
Qed.

Lemma expenses_one_per_category_witness :
  let ui := {| radio_choice := Monthly;
               number_entry := fun k =>
                 if str_eqb k (cp 0x1F354 ++ lit " Food" ++ MONTHLY)
                 then 1200 else -5;
               button_clicked := fun _ => false |} in
  exists s' v,
    input_section ui (start None) = (s', Ok v) /\
    List.length (expenses v) = 9%nat /\
    dict_get (expenses v) (cp 0x1F354 ++ lit " Food") = Some 1200 /\
    dict_get (expenses v) (cp 0x1F4E6 ++ lit " Others") = Some 0.
Proof.
  intros ui.
  destruct (expenses_one_per_category ui (start None))
    as (s' & v & E & _ & _ & _ & Hlen & _ & Hget).
  exists s', v. split; [exact E|]. split; [exact Hlen|].
  split; apply Hget; cbv; auto 10.
Defined.

Lemma input_page_mode ui ui' :
  radio_choice ui = radio_choice ui' -> input_page ui = input_page ui'.
Proof.
  destruct ui as [m e b], ui' as [m' e' b']. cbn [radio_choice]. intros <-.
  destruct m; cbv -[number_value]; reflexivity.
Qed.

(** X2.  No two number boxes share a key, within a mode or across the two
    modes (the categories that both tables name are told apart by the mode
    appended to the key), and what the input section renders and returns
    depends on the number boxes only through the keys of the chosen mode:
    an amount typed in the other mode changes nothing. *)
Theorem entries_by_mode_keys :
  NoDup (number_keys Monthly ++ number_keys Semester) /\
  forall ui ui' s,
    radio_choice ui = radio_choice ui' ->
    (forall k, In k (number_keys (radio_choice ui)) ->
               number_entry ui k = number_entry ui' k) ->
    input_section ui s = input_section ui' s.
Proof.
  split; [apply distinct_NoDup; vm_compute; reflexivity|].
  intros ui ui' s Hm Hk. rewrite !input_section_run.
  rewrite (input_page_mode ui ui' Hm). f_equal. f_equal.
  unfold entries_of. rewrite <- Hm.
  set (m := radio_choice ui) in *. unfold number_keys in Hk.
  rewrite <- (Hk (budget_label m)) by (left; reflexivity).
  rewrite <- (Hk (goal_label m)) by (right; left; reflexivity).
  f_equal. apply map_ext_in. intros item Hin. f_equal. f_equal.
  apply Hk. right. right. apply in_map_iff. exists (fst item).
  split; [reflexivity|]. now apply in_map.
Qed.

Lemma entries_by_mode_keys_witness :
  let ui := {| radio_choice := Monthly; number_entry := fun _ => 700;
               button_clicked := fun _ => false |} in
  let ui' := {| radio_choice := Monthly;
                number_entry := fun k =>
                  if str_eqb k (cp 0x1F68C ++ lit " Transport" ++ SEMESTER)
                  then 9000 else 700;
                button_clicked := fun _ => false |} in
  input_section ui (start None) = input_section ui' (start None).
Proof.
  intros ui ui'.
  apply (proj2 entries_by_mode_keys ui ui' (start None)); [reflexivity|].
  intros k Hin. cbv -[number_value] in Hin.
  repeat (destruct Hin as [<- | Hin]; [reflexivity|]). contradiction.
Defined.

Lemma py_sum_app xs ys : py_sum (xs ++ ys) = py_sum xs + py_sum ys.
Proof.
  unfold py_sum. rewrite fold_left_app.
  now rewrite (fold_left_add ys (fold_left Z.add xs 0)).
Qed.

Lemma combine_keys_values {V} (d : dict V) :
  combine (dict_keys d) (dict_values d) = d.
Proof.
  induction d as [| [k a] d IH]; simpl; [reflexivity|]. f_equal. exact IH.
Qed.

(** X3.  The comparison chart has one bar per expense, in the order of the
    mapping, followed by the bar "Remaining"; the heights of the bars add up
    to the budget. *)
Theorem bar_chart_balance :
  forall v s,
    let remaining := computeRemaining (budget v) (computeTotal (expenses v)) in
    exists df,
      bar_chart v remaining s =
      (extend s [StSubheader (cp 0x1F4CA ++ lit " Budget vs Expenses");
                 StBarChart df], Ok tt) /\
      map fst df = dict_keys (expenses v) ++ [lit "Remaining"] /\
      map snd df = dict_values (expenses v) ++ [remaining] /\
      py_sum (map snd df) = budget v.
Proof.
  intros v s remaining. rewrite bar_chart_run. eexists.
  split; [reflexivity|]. rewrite combine_keys_values, !map_app.
  split; [reflexivity|]. split; [reflexivity|].
  change (map snd (expenses v)) with (dict_values (expenses v)).
  rewrite py_sum_app. fold (computeTotal (expenses v)).
  unfold remaining, computeRemaining, py_sum. simpl. lia.
Qed.

Lemma sum_nonneg (E : dict Z) :
  Forall (fun item => 0 <= snd item <= MAX_SAFE_INTEGER) E ->
  0 <= sum_of_values E /\
  (sum_of_values E >? 0) = existsb (fun a => 0 <? a) (dict_values E).
Proof.
  induction 1 as [| [k a] E Ha _ [IH1 IH2]]; cbn [sum_of_values dict_values map existsb snd] in *.
  - split; [lia | reflexivity].
  - split; [lia|]. fold (dict_values E). rewrite <- IH2.
    destruct (Z.ltb_spec 0 a), (Z.gtb_spec (sum_of_values E) 0),
      (Z.gtb_spec (a + sum_of_values E) 0); simpl; try reflexivity; lia.
Qed.

(** X4.  In a run over the widgets, the proportion chart is drawn exactly
    when some amount is positive; it then has one wedge per category of the
    mode, labelled in table order, and no wedge is negative, so that
    [ax.pie] does not refuse them. *)
Theorem pie_chart_when_spent :
  forall ui s,
    let v := entries_of ui in
    let amounts := dict_values (expenses v) in
    visualization v (computeTotal (expenses v)) s =
    (extend s
       (StSubheader (cp 0x1F4C8 ++ lit " Expense Distribution")
        :: if existsb (fun a => 0 <? a) amounts
           then [StPyplot amounts (dict_keys (categories_of (radio_choice ui)))]
           else []),
     Ok tt) /\
    List.length amounts = List.length (dict_keys (categories_of (radio_choice ui))) /\
    existsb (fun a => a <? 0) amounts = false.
Proof.
  intros ui s v amounts.
  pose proof (entries_validated ui) as (_ & _ & Hval). fold v in Hval.
  split; [| split].
  - rewrite (visualization_run v _ s Hval), computeTotal_values.
    rewrite (proj2 (sum_nonneg _ Hval)). unfold v at 3. now rewrite entries_keys.
  - unfold amounts, dict_values, dict_keys, v, entries_of. cbn [expenses].
    now rewrite !length_map.
  - now apply no_negative.
Qed.

Lemma spending_status_remaining b t :
  classifyStatus_spec (computeRemaining b t) b = spending_status b t.
Proof.
  rewrite classifyStatus_spec_Z. unfold spending_status, computeRemaining.
  destruct (Z.ltb_spec (b - t) 0), (Z.ltb_spec b t); try lia; [reflexivity|].
  destruct (Z.ltb_spec (5 * (b - t)) b), (Z.ltb_spec (4 * b) (5 * t));
    try lia; reflexivity.
Qed.

(** X5.  In a run over the widgets the total is never negative and what
    remains never exceeds the budget; the banner is the error when more
    than the budget was spent, the warning when more than four fifths of it
    (and no more than all of it) was spent, and the success otherwise. *)
Theorem banner_by_spending :
  forall ui s,
    let v := entries_of ui in
    let total := computeTotal (expenses v) in
    let remaining := computeRemaining (budget v) total in
    0 <= total /\ remaining <= budget v /\
    warnings v remaining s =
    (extend s [banner (spending_status (budget v) total)], Ok tt).
Proof.
  intros ui s v total remaining.
  pose proof (entries_validated ui) as (_ & Hb & Hval). fold v in Hb, Hval.
  assert (Ht : 0 <= total)
    by (unfold total; rewrite computeTotal_values; now apply sum_nonneg).
  split; [exact Ht|]. split; [unfold remaining, computeRemaining; lia|].
  rewrite (warnings_run v remaining s Hb). unfold remaining.
  now rewrite spending_status_remaining.
Qed.

Lemma session_from_log runs :
  forall h,
    Forall balanced (log_of h) ->
    log_of (session_from h runs) = log_of h ++ flat_map saved_in runs.
Proof.
  induction runs as [| [w ui] runs IH]; intros h Hh.
  - cbn [session_from flat_map]. now rewrite app_nil_r.
  - cbn [session_from flat_map].
    assert (Hrows : Forall is_row (log_of h))
      by (eapply Forall_impl; [apply balanced_is_row | exact Hh]).
    rewrite (rerun_history w ui h Hrows). unfold saved_in at 1, saves.
    cbn [fst snd]. destruct (starts w); cbn [andb app].
    + rewrite IH by (cbn [log_of]; now apply log_after_balanced).
      cbn [log_of]. unfold log_after. now rewrite <- app_assoc.
    + now apply IH.
Qed.

(** X6.  The log of a session is the list of the snapshots of the runs
    that save (the run gets past lines 11--15 and the save button was
    pressed), in the order of the runs; it has as many records as there
    were saves. *)
Theorem session_log_saves :
  forall runs,
    log_of (session runs) = flat_map saved_in runs /\
    List.length (log_of (session runs)) = List.length (filter saves runs).
Proof.
  intros runs.
  assert (E : log_of (session runs) = flat_map saved_in runs)
    by (unfold session; rewrite session_from_log; [reflexivity | constructor]).
  split; [exact E|]. rewrite E. clear E.
  induction runs as [| [w ui] runs IH]; [reflexivity|].
  cbn [flat_map filter]. rewrite length_app, IH. unfold saved_in.
  destruct (saves (w, ui)); reflexivity.
Qed.

(** X7.  When the advice button is pressed, a model is configured and the
    service answers with a text, the run ends normally: the text is shown
    in one [st.success] between the advice button and the footer, the log
    is what the save button made of it, and exactly one request was sent,
    carrying the mode, the expenses, the budget, the budget minus the sum
    of the expenses, and the goal of this run. *)
Theorem advice_success_shown :
  forall w ui before m response tips,
    Forall is_row (log_of before) ->
    button_clicked ui TIPS_LABEL = true ->
    model w = Ok (Some m) ->
    service w m (prompt_of (entries_of ui)) = Ok response ->
    text response = Ok tips ->
    let v := entries_of ui in
    rerun w ui before =
    ({| history := Some (log_after w ui v before);
        page := body_page w ui before ++ [StSuccess tips] ++ footer;
        requests :=
          [(m, {| prompt_mode := mode_str (radio_choice ui);
                  prompt_expenses := expenses v;
                  prompt_budget := budget v;
                  prompt_remaining := budget v - sum_of_values (expenses v);
                  prompt_goal := goal v |})] |}, Ok tt).
Proof.
  intros w ui before m response tips Hrows Hasked Hm Hs Ht v.
  rewrite (rerun_run w _ ui before Hm Hrows), Hasked. fold v in Hs |- *.
  unfold advice. rewrite Hs. cbn [bindR]. rewrite Ht.
  cbn [shown sent outcome closing]. unfold body_page. fold v.
  rewrite <- !app_assoc. unfold prompt_of, computeRemaining.
  now rewrite computeTotal_values.
Qed.

Lemma advice_success_shown_witness :
  let m := {| api_key := lit "k"; model_name := lit "gemini-1.5-flash" |} in
  let w := {| secrets := SecretsStore [(GEMINI_API_KEY, lit "k")];
              today := {| year := 2026; month := 11; day := 3 |};
              service := fun _ _ => Ok {| text := Ok (lit "Cook at home.") |};
              platform := Posix |} in
  let ui := {| radio_choice := Semester; number_entry := fun _ => 1000;
               button_clicked := fun l => str_eqb l TIPS_LABEL |} in
  let v := entries_of ui in
  rerun w ui None =
  ({| history := Some (log_after w ui v None);
      page := body_page w ui None ++ [StSuccess (lit "Cook at home.")] ++ footer;
      requests :=
        [(m, {| prompt_mode := SEMESTER;
                prompt_expenses := expenses v;
                prompt_budget := budget v;
                prompt_remaining := budget v - sum_of_values (expenses v);
                prompt_goal := goal v |})] |}, Ok tt).
Proof.
  intros m w ui.
  apply (advice_success_shown w ui None m {| text := Ok (lit "Cook at home.") |}
           (lit "Cook at home."));
    [constructor | reflexivity | reflexivity | reflexivity | reflexivity].
Defined.

(** X8.  An error of the advice call, or of reading the text of its
    response, is handled by its class.  An [Exception] is caught: the run
    ends normally with the warning and [str(e)] before the footer.  An
    error that is not an [Exception] (the interrupt) leaves the [try]: the
    run ends with it, the page stops after the advice button, without the
    footer.  Either way one request was sent and the log is kept. *)
Theorem advice_exception_handling :
  forall w ui before m e,
    Forall is_row (log_of before) ->
    button_clicked ui TIPS_LABEL = true ->
    model w = Ok (Some m) ->
    bindR (service w m (prompt_of (entries_of ui))) text = Raise e ->
    let v := entries_of ui in
    rerun w ui before =
    if is_Exception e then
      ({| history := Some (log_after w ui v before);
          page := body_page w ui before
                  ++ [TIPS_WARNING; StError (str_exn e)] ++ footer;
          requests := [(m, prompt_of v)] |}, Ok tt)
    else
      ({| history := Some (log_after w ui v before);
          page := body_page w ui before;
          requests := [(m, prompt_of v)] |}, Raise e).
Proof.
  intros w ui before m e Hrows Hasked Hm He v.
  rewrite (rerun_run w _ ui before Hm Hrows), Hasked. fold v in He |- *.
  unfold advice. rewrite He. unfold body_page. fold v.
  destruct (is_Exception e); cbn [shown sent outcome closing];
    rewrite <- ?app_assoc, ?app_nil_r; reflexivity.
Qed.

Lemma advice_exception_handling_witness :
  let m := {| api_key := lit "k"; model_name := lit "gemini-1.5-flash" |} in
  let blocked := lit "The response was blocked." in
  let w := {| secrets := SecretsStore [(GEMINI_API_KEY, lit "k")];
              today := {| year := 2026; month := 11; day := 3 |};
              service := fun _ p =>
                if prompt_budget p =? 0
                then Ok {| text := Raise (ValueError blocked) |}
                else Raise KeyboardInterrupt;
              platform := Posix |} in
  let ui b := {| radio_choice := Monthly; number_entry := fun _ => b;
                 button_clicked := fun l => str_eqb l TIPS_LABEL |} in
  rerun w (ui 0) None =
  ({| history := Some [];
      page := body_page w (ui 0) None
              ++ [TIPS_WARNING; StError blocked] ++ footer;
      requests := [(m, prompt_of (entries_of (ui 0)))] |}, Ok tt) /\
  rerun w (ui 5) None =
  ({| history := Some [];
      page := body_page w (ui 5) None;
      requests := [(m, prompt_of (entries_of (ui 5)))] |}, Raise KeyboardInterrupt).
Proof.
  intros m blocked w ui. split.
  - apply (advice_exception_handling w (ui 0) None m (ValueError blocked));
      [constructor | reflexivity | reflexivity | reflexivity].
  - apply (advice_exception_handling w (ui 5) None m KeyboardInterrupt);
      [constructor | reflexivity | reflexivity | reflexivity].
Defined.

Lemma format_2f_integer m e k :
  e <= 0 -> Zpos m = k * 2 ^ (- e) ->
  Float.format_2f (S754_finite false m e) = str_int k ++ lit ".00".
Proof.
  intros He Hm. unfold Float.format_2f.
  assert (Hp : 0 < 2 ^ (- e)) by (apply Z.pow_pos_nonneg; lia).
  assert (Hc : (if 0 <=? e then 100 * Zpos m * 2 ^ e
                else Float.round_half_even (100 * Zpos m) (2 ^ (- e))) = k * 100).
  { destruct (Z.leb_spec 0 e) as [H0 | H0].
    - assert (e = 0) by lia. subst e. change (- 0) with 0 in Hm.
      rewrite Z.pow_0_r in *. lia.
    - unfold Float.round_half_even. rewrite Hm.
      replace (100 * (k * 2 ^ (- e))) with (100 * k * 2 ^ (- e)) by ring.
      rewrite Z.div_mul, Z.mod_mul by lia. rewrite Z.mul_0_r.
      destruct (Z.compare_spec 0 (2 ^ (- e))); lia. }
  rewrite Hc, Z.div_mul, Z.mod_mul by lia. reflexivity.
Qed.


Lemma computeEquivalent_multiple m k :
  0 < k -> divisor m * k <= MAX_SAFE_INTEGER ->
  exists mant e,
    computeEquivalent m (divisor m * k) = Ok (S754_finite false mant e) /\
    e <= 0 /\ Zpos mant = k * 2 ^ (- e).
Proof.
  intros Hk Hmax. rewrite max_safe in Hmax.
  assert (Hd : 2 <= divisor m < 2 ^ 53)
    by (change (2 ^ 53) with 9007199254740992; destruct m; cbn; lia).
  assert (Hb : 0 < divisor m * k < 2 ^ 53)
    by (change (2 ^ 53) with 9007199254740992; nia).
  destruct (truediv_small (divisor m * k) (divisor m) Hb Hd)
    as (mant & e & E & He & _ & Hnear).
  exists mant, e. split; [| split; [exact He|]].
  - rewrite <- E. destruct m; reflexivity.
  - replace (divisor m * Zpos mant - divisor m * k * 2 ^ (- e))
      with (divisor m * (Zpos mant - k * 2 ^ (- e))) in Hnear by ring.
    rewrite Z.abs_mul, (Z.abs_eq (divisor m)) in Hnear by lia.
    assert (Z.abs (Zpos mant - k * 2 ^ (- e)) < 1) by nia.
    lia.
Qed.

(** X9.  When the budget is a positive multiple [divisor * k] of the
    divisor of the mode (30 or 6), the line of the time-scaled figure shows
    exactly [k] with two zero decimals, over the whole range of the
    widget. *)
Theorem insight_round_figure :
  forall ui s k,
    let v := entries_of ui in
    let m := radio_choice ui in
    0 < k -> budget v = divisor m * k ->
    insights v s =
    (extend s [StInfo (insight_label m ++ RUPEE ++ str_int k ++ lit ".00")],
     Ok tt).
Proof.
  intros ui s k v m Hk Hb.
  pose proof (entries_validated ui) as (_ & Hrange & _). fold v in Hrange.
  rewrite (insights_run v m s eq_refl Hrange). unfold insight_of.
  destruct (Z.gtb_spec (budget v) 0) as [_ | Hle];
    [| assert (0 < divisor m) by (destruct m; reflexivity); nia].
  rewrite Hb in *.
  destruct (computeEquivalent_multiple m k Hk (proj2 Hrange))
    as (mant & e & E & He & Hm).
  rewrite E, <- (format_2f_integer mant e k He Hm).
  destruct m; unfold insight_text, insight_label; now rewrite <- !app_assoc.
Qed.

Lemma insight_round_figure_witness :
  let ui := {| radio_choice := Monthly; number_entry := fun _ => 3000;
               button_clicked := fun _ => false |} in
  insights (entries_of ui) (start None) =
  (extend (start None)
     [StInfo (cp 0x1F4C6 ++ lit " Your daily spending allowance: "
              ++ RUPEE ++ lit "100.00")], Ok tt).
Proof.
  intros ui.
  apply (insight_round_figure ui (start None) 100); reflexivity.
Defined.

Lemma round_half_even_unique n d c :
  0 < d -> 2 * Z.abs (n - d * c) < d -> Float.round_half_even n d = c.
Proof.
  intros Hd Hc. unfold Float.round_half_even.
  pose proof (Z.div_mod n d ltac:(lia)) as E.
  pose proof (Z.mod_pos_bound n d Hd) as Hr.
  set (q := n / d) in *. set (r := n mod d) in *.
  assert (Hq : q = c \/ q + 1 = c) by nia.
  destruct (Z.compare_spec (2 * r) d) as [H | H | H].
  - exfalso. nia.
  - destruct Hq as [Hq | Hq]; [exact Hq | nia].
  - destruct Hq as [Hq | Hq]; [nia | exact Hq].
Qed.

Lemma round_half_even_near n d :
  0 < d -> 2 * (n mod d) <> d ->
  2 * Z.abs (n - d * Float.round_half_even n d) < d.
Proof.
  intros Hd Htie. unfold Float.round_half_even.
  pose proof (Z.div_mod n d ltac:(lia)) as E.
  pose proof (Z.mod_pos_bound n d Hd) as Hr.
  set (q := n / d) in *. set (r := n mod d) in *.
  destruct (Z.compare_spec (2 * r) d) as [H | H | H]; [contradiction | nia | nia].
Qed.

Lemma cents_no_tie m b : 2 * ((100 * b) mod divisor m) <> divisor m.
Proof. destruct m; cbn [divisor]; Z.div_mod_to_equations; lia. Qed.

Lemma computeEquivalent_cents m b :
  0 < b < divisor m * 2 ^ 40 ->
  exists f,
    computeEquivalent m b = Ok f /\
    Float.format_2f f =
    let cents := Float.round_half_even (100 * b) (divisor m) in
    str_int (cents / 100) ++ lit "." ++ pad0 2 (str_int (cents mod 100)).
Proof.
  intros Hb. change (2 ^ 40) with 1099511627776 in Hb.
  assert (Hd : 2 <= divisor m <= 30) by (destruct m; cbn; lia).
  assert (Hd53 : 2 <= divisor m < 2 ^ 53)
    by (change (2 ^ 53) with 9007199254740992; lia).
  assert (Hb53 : 0 < b < 2 ^ 53)
    by (change (2 ^ 53) with 9007199254740992; lia).
  destruct (truediv_small b (divisor m) Hb53 Hd53)
    as (mant & e & E & He & [Hlo _] & Hnear).
  change (2 ^ 52) with 4503599627370496 in Hlo.
  exists (S754_finite false mant e). split.
  { destruct m; exact E. }
  set (d := divisor m) in *. set (P := 2 ^ (- e)) in *.
  assert (HP : 4096 <= P).
  { assert (0 < P) by (apply Z.pow_pos_nonneg; lia).
    destruct (Z.le_gt_cases 4096 P) as [H1 | H1]; [exact H1 | exfalso].
    assert (b * P <= (d * 1099511627776 - 1) * 4095)
      by (apply Z.mul_le_mono_nonneg; lia).
    assert (d * 4503599627370496 <= d * Zpos mant)
      by (apply Z.mul_le_mono_nonneg_l; lia).
    lia. }
  assert (He' : e < 0).
  { destruct (Z.eq_dec e 0) as [-> |]; [| lia]. unfold P in HP. simpl in HP. lia. }
  cbv zeta. set (c := Float.round_half_even (100 * b) d).
  assert (Hc : 2 * Z.abs (100 * b - d * c) < d)
    by (apply round_half_even_near; [lia | apply cents_no_tie]).
  unfold Float.format_2f. destruct (Z.leb_spec 0 e) as [H0 | _]; [lia|].
  fold P. rewrite (round_half_even_unique (100 * Zpos mant) P c); [reflexivity | lia |].
  assert (Hid : d * (100 * Zpos mant - P * c)
                = 100 * (d * Zpos mant - b * P) + P * (100 * b - d * c)) by ring.
  assert (H1 : 2 * Z.abs (100 * (d * Zpos mant - b * P)) <= 100 * d).
  { rewrite Z.abs_mul. change (Z.abs 100) with 100. lia. }
  assert (H2 : 2 * Z.abs (P * (100 * b - d * c)) <= P * (d - 1)).
  { rewrite Z.abs_mul, (Z.abs_eq P) by lia.
    assert (P * (2 * Z.abs (100 * b - d * c)) <= P * (d - 1))
      by (apply Z.mul_le_mono_nonneg_l; lia).
    lia. }
  assert (H3 : 2 * Z.abs (d * (100 * Zpos mant - P * c)) < P * d).
  { rewrite Hid. pose proof (Z.abs_triangle (100 * (d * Zpos mant - b * P))
                               (P * (100 * b - d * c))). lia. }
  rewrite Z.abs_mul, (Z.abs_eq d) in H3 by lia.
  apply (Z.mul_lt_mono_pos_r d); lia.
Qed.

(** X10.  For a positive budget below [2 ^ 40] times the divisor of the
    mode, the figure shown is the exact quotient rounded to the nearest
    cent: the cents shown are within half a cent of
    [100 * budget / divisor], and no quotient lies halfway.  (The division
    and the formatting both round; below this bound the first rounding is
    too small to move the second.) *)
Theorem insight_nearest_cent :
  forall ui s,
    let v := entries_of ui in
    let m := radio_choice ui in
    0 < budget v < divisor m * 2 ^ 40 ->
    exists cents,
      2 * Z.abs (100 * budget v - divisor m * cents) < divisor m /\
      insights v s =
      (extend s
         [StInfo (insight_label m ++ RUPEE ++ str_int (cents / 100) ++ lit "."
                  ++ pad0 2 (str_int (cents mod 100)))],
       Ok tt).
Proof.
  intros ui s v m Hb.
  exists (Float.round_half_even (100 * budget v) (divisor m)). split.
  { apply round_half_even_near; [destruct m; reflexivity | apply cents_no_tie]. }
  pose proof (entries_validated ui) as (_ & Hrange & _). fold v in Hrange.
  rewrite (insights_run v m s eq_refl Hrange). unfold insight_of.
  destruct (Z.gtb_spec (budget v) 0) as [_ | Hle]; [| lia].
  destruct (computeEquivalent_cents m (budget v) Hb) as (f & E & Hf).
  rewrite E. cbv zeta in Hf. rewrite <- Hf.
  destruct m; unfold insight_text, insight_label; now rewrite <- !app_assoc.
Qed.

Lemma insight_nearest_cent_witness :
  let ui := {| radio_choice := Monthly; number_entry := fun _ => 5000;
               button_clicked := fun _ => false |} in
  exists cents,
    2 * Z.abs (100 * 5000 - 30 * cents) < 30 /\
    insights (entries_of ui) (start None) =
    (extend (start None)
       [StInfo (insight_label Monthly ++ RUPEE ++ str_int (cents / 100)
                ++ lit "." ++ pad0 2 (str_int (cents mod 100)))],
     Ok tt).
Proof.
  intros ui.
  apply (insight_nearest_cent ui (start None)). split; reflexivity.
Defined.

(** X11.  Assignment to a key of a mapping, as [expenses[cat] = amount]
    does: the key then holds the value, the other keys hold what they held,
    a key already present keeps its place and a new key goes last, and the
    keys stay pairwise different. *)
Theorem dict_set_lookup :
  forall (V : Type) (d : dict V) (k : pystr) (v : V),
    dict_get (dict_set d k v) k = Some v /\
    (forall k', k' <> k -> dict_get (dict_set d k v) k' = dict_get d k') /\
    dict_keys (dict_set d k v) =
    (if existsb (str_eqb k) (dict_keys d) then dict_keys d
     else dict_keys d ++ [k]) /\
    (NoDup (dict_keys d) -> NoDup (dict_keys (dict_set d k v))).
Proof.
  intros V d k v.
  assert (Hkeys : dict_keys (dict_set d k v) =
                  if existsb (str_eqb k) (dict_keys d) then dict_keys d
                  else dict_keys d ++ [k]).
  { induction d as [| [k1 v1] d IH]; [reflexivity|].
    cbn [dict_set dict_keys map fst existsb].
    destruct (str_eqb k1 k) eqn:E.
    - apply str_eqb_eq in E. subst k1. rewrite str_eqb_refl. reflexivity.
    - replace (str_eqb k k1) with false.
      + cbn [orb dict_keys map fst]. fold (dict_keys (dict_set d k v)).
        rewrite IH. fold (dict_keys d).
        destruct (existsb (str_eqb k) (dict_keys d)); reflexivity.
      + symmetry. apply not_true_is_false. intros H. apply str_eqb_eq in H.
        subst k1. now rewrite str_eqb_refl in E. }
  split; [| split; [| split; [exact Hkeys|]]].
  - clear Hkeys. induction d as [| [k1 v1] d IH]; cbn [dict_set dict_get].
    + now rewrite str_eqb_refl.
    + destruct (str_eqb k1 k) eqn:E; cbn [dict_get]; rewrite E;
        [reflexivity | exact IH].
  - clear Hkeys. intros k' Hne. induction d as [| [k1 v1] d IH]; cbn [dict_set dict_get].
    + destruct (str_eqb k k') eqn:E; [| reflexivity].
      apply str_eqb_eq in E. congruence.
    + destruct (str_eqb k1 k) eqn:E; cbn [dict_get]; [| now rewrite IH].
      apply str_eqb_eq in E. subst k1.
      destruct (str_eqb k k') eqn:E; [| reflexivity].
      apply str_eqb_eq in E. congruence.
  - intros Hnd. rewrite Hkeys.
    destruct (existsb (str_eqb k) (dict_keys d)) eqn:E; [exact Hnd|].
    apply NoDup_app; [exact Hnd | repeat constructor; simpl; tauto |].
    intros x Hx [Hk | []]. subst x.
    enough (existsb (str_eqb k) (dict_keys d) = true) by congruence.
    apply existsb_exists. exists k. split; [exact Hx | apply str_eqb_refl].
Qed.

Lemma dict_set_lookup_witness :
  let d := [(lit "a", 1); (lit "b", 2)] in
  dict_get (dict_set d (lit "a") 7) (lit "b") = Some 2 /\
  dict_keys (dict_set d (lit "c") 3) = [lit "a"; lit "b"; lit "c"] /\
  NoDup (dict_keys (dict_set d (lit "a") 7)).
Proof.
  intros d.
  destruct (dict_set_lookup Z d (lit "a") 7) as (_ & Hother & _ & Hnd).
  destruct (dict_set_lookup Z d (lit "c") 3) as (_ & _ & Hkeys & _).
  split; [apply Hother; discriminate|]. split; [exact Hkeys|].
  apply Hnd, distinct_NoDup. reflexivity.
Defined.

Lemma dict_set_new {V} (d : dict V) k v :
  ~ In k (dict_keys d) -> dict_set d k v = d ++ [(k, v)].
Proof.
  induction d as [| [k1 v1] d IH]; cbn [dict_set dict_keys map fst In app];
    intros Hnew; [reflexivity|].
  destruct (str_eqb k1 k) eqn:E.
  - apply str_eqb_eq in E. tauto.
  - f_equal. apply IH. tauto.
Qed.

(** X12.  A dictionary display whose keys are pairwise different holds
    its items as written, in order, and each key gives its value. *)
Theorem dict_literal_items :
  forall (V : Type) (items : list (pystr * V)),
    NoDup (map fst items) ->
    dict_literal items = items /\
    forall k v, In (k, v) items -> dict_get (dict_literal items) k = Some v.
Proof.
  intros V items Hnd.
  assert (E : dict_literal items = items).
  { unfold dict_literal.
    enough (H : forall acc : dict V,
               NoDup (map fst (acc ++ items)) ->
               fold_left (fun d kv => dict_set d (fst kv) (snd kv)) items acc
               = acc ++ items) by (apply (H []); exact Hnd).
    clear Hnd. induction items as [| [k v] items IH]; intros acc Hnd;
      cbn [fold_left fst snd]; [now rewrite app_nil_r|].
    rewrite dict_set_new.
    - rewrite IH; rewrite <- app_assoc; [reflexivity | exact Hnd].
    - rewrite map_app in Hnd. cbn [map fst] in Hnd.
      apply NoDup_remove_2 in Hnd. unfold dict_keys. intros Hin.
      apply Hnd, in_or_app. now left. }
  split; [exact E|]. rewrite E. clear E.
  induction items as [| [k1 v1] items IH]; intros k v Hin; [contradiction|].
  cbn [map fst] in Hnd. inversion Hnd as [| ? ? Hnew Hnd']; subst.
  cbn [dict_get]. destruct Hin as [Heq | Hin].
  - injection Heq as -> ->. now rewrite str_eqb_refl.
  - destruct (str_eqb k1 k) eqn:E; [| now apply IH].
    apply str_eqb_eq in E. subst k1. exfalso. apply Hnew.
    change k with (fst (k, v)). now apply in_map.
Qed.

Lemma dict_literal_items_witness :
  snapshot {| secrets := SecretsStore [];
              today := {| year := 2026; month := 11; day := 3 |};
              service := fun _ _ => Raise KeyboardInterrupt;
              platform := Posix |}
    {| mode := MONTHLY; budget := 5000; goal := 500; expenses := [] |} 0 5000 =
  [ (lit "Date", CDate {| year := 2026; month := 11; day := 3 |});
    (lit "Mode", CStr MONTHLY); (lit "Budget", CInt 5000);
    (lit "Expenses", CInt 0); (lit "Remaining", CInt 5000);
    (lit "Goal", CInt 500) ].
Proof.
  unfold snapshot. cbn [today mode budget goal].
  apply (dict_literal_items Cell). apply distinct_NoDup. reflexivity.
Defined.

Lemma no_config_input ui :
  exists rest,
    input_page ui =
    StPageConfig (cp 0x1F393 ++ lit " Student Budgeting App") (lit "wide") :: rest /\
    existsb is_page_config rest = false.
Proof.
  destruct ui as [choice entry clicked].
  destruct choice; eexists; split; cbv -[number_value]; reflexivity.
Qed.

Lemma no_config_summary v info :
  existsb is_page_config info = false ->
  existsb is_page_config (summary_page v info) = false.
Proof.
  intros Hinfo. unfold summary_page, summary_head.
  rewrite !existsb_app, Hinfo.
  destruct (classifyStatus_spec _ _), (computeTotal (expenses v) >? 0);
    reflexivity.
Qed.

Lemma no_config_insight m b : existsb is_page_config (insight_of m b) = false.
Proof.
  unfold insight_of. destruct (b >? 0); [| reflexivity].
  destruct (computeEquivalent m b); reflexivity.
Qed.

Lemma no_config_log w h : existsb is_page_config (log_page w h) = false.
Proof. unfold log_page, export. destruct h; reflexivity. Qed.

Lemma no_config_advice w mo v :
  existsb is_page_config (shown (advice w mo v)) = false.
Proof.
  unfold advice. destruct mo as [m |]; [| reflexivity].
  destruct (bindR (service w m (prompt_of v)) text) as [tips | e];
    [reflexivity|].
  destruct (is_Exception e); reflexivity.
Qed.

Lemma no_config_closing res : existsb is_page_config (closing res) = false.
Proof. destruct res; reflexivity. Qed.

(** X13.  A run that gets past lines 11--15 renders [st.set_page_config]
    before anything else, and only once.  A run that line 11 ends (there is
    no secrets store) does not reach it: it ends with the error of line 11
    and its page holds no page configuration. *)
Theorem page_config_first :
  forall w ui before,
    Forall is_row (log_of before) ->
    match model w with
    | Ok _ =>
        exists rest,
          page (fst (rerun w ui before)) =
          StPageConfig (cp 0x1F393 ++ lit " Student Budgeting App") (lit "wide")
          :: rest /\
          existsb is_page_config rest = false
    | Raise e =>
        snd (rerun w ui before) = Raise e /\
        existsb is_page_config (page (fst (rerun w ui before))) = false
    end.
Proof.
  intros w ui before Hrows. destruct (model w) as [mo | e] eqn:Hmo.
  - rewrite (rerun_run w mo ui before Hmo Hrows).
    destruct (no_config_input ui) as (rest & E & Hrest). rewrite E.
    destruct (button_clicked ui TIPS_LABEL); cbn [fst page];
      rewrite <- app_comm_cons; eexists; (split; [reflexivity|]);
      rewrite !existsb_app, Hrest,
        (no_config_summary _ _ (no_config_insight _ _)), no_config_log,
        ?no_config_advice, ?no_config_closing; reflexivity.
  - rewrite (rerun_stop w e ui before Hmo). split; reflexivity.
Qed.

Lemma page_config_first_witness :
  let day := {| year := 2026; month := 11; day := 3 |} in
  let w1 := {| secrets := SecretsStore []; today := day;
               service := fun _ _ => Raise KeyboardInterrupt;
               platform := Posix |} in
  let w2 := {| secrets := NoSecrets (lit "No secrets found."); today := day;
               service := fun _ _ => Raise KeyboardInterrupt;
               platform := Posix |} in
  let ui := {| radio_choice := Semester; number_entry := fun _ => 250;
               button_clicked := fun _ => true |} in
  (exists rest,
      page (fst (rerun w1 ui None)) =
      StPageConfig (cp 0x1F393 ++ lit " Student Budgeting App") (lit "wide")
      :: rest /\
      existsb is_page_config rest = false) /\
  snd (rerun w2 ui None)
  = Raise (StreamlitSecretNotFoundError (lit "No secrets found.")) /\
  existsb is_page_config (page (fst (rerun w2 ui None))) = false.
Proof.
  intros day w1 w2 ui. split.
  - apply (page_config_first w1 ui None). constructor.
  - apply (page_config_first w2 ui None). constructor.
Defined.

(** X14.  A run sends no request unless the advice button is pressed, and
    then at most one: none without a credential (no secrets store, or a
    store without the key), and with the credential one request to the
    model "gemini-1.5-flash" configured with that key, for the entries of
    this run. *)
Theorem requests_only_on_press :
  forall w ui before,
    Forall is_row (log_of before) ->
    requests (fst (rerun w ui before)) =
    if button_clicked ui TIPS_LABEL then
      match secrets w with
      | SecretsStore items =>
          match dict_get items GEMINI_API_KEY with
          | Some k => [({| api_key := k; model_name := lit "gemini-1.5-flash" |},
                        prompt_of (entries_of ui))]
          | None => []
          end
      | NoSecrets _ => []
      end
    else [].
Proof.
  intros w ui before Hrows. pose proof (model_secrets w) as Hmo.
  destruct (secrets w) as [message | items].
  - rewrite (rerun_stop w _ ui before Hmo).
    destruct (button_clicked ui TIPS_LABEL); reflexivity.
  - rewrite (rerun_run w _ ui before Hmo Hrows).
    destruct (button_clicked ui TIPS_LABEL); [| reflexivity].
    cbn [fst requests]. unfold advice.
    destruct (dict_get items GEMINI_API_KEY) as [k |]; [| reflexivity].
    destruct (bindR _ text) as [tips | e]; [reflexivity|].
    destruct (is_Exception e); reflexivity.
Qed.

Lemma requests_only_on_press_witness :
  let w := {| secrets := SecretsStore [(GEMINI_API_KEY, lit "secret")];
              today := {| year := 2026; month := 11; day := 3 |};
              service := fun _ _ => Raise (ServiceError Transport (lit "down"));
              platform := Windows |} in
  let ui := {| radio_choice := Monthly; number_entry := fun _ => 40;
               button_clicked := fun _ => true |} in
  requests (fst (rerun w ui None)) =
  [({| api_key := lit "secret"; model_name := lit "gemini-1.5-flash" |},
    prompt_of (entries_of ui))].
Proof.
  intros w ui. apply (requests_only_on_press w ui None). constructor.
Defined.

(** X15.  Over a well-formed log a run ends in one of three ways.  Without
    a secrets store it ends at line 11 with the error of the membership
    test, the session state left as it was.  With a store it never ends
    with an error of the script's own computations (no overflow, division
    by zero, missing key, refused wedge or encoding error, whatever was
    typed in the boxes): it ends normally, unless the advice call was
    interrupted, and then it ends with that interrupt. *)
Theorem run_endings :
  forall w ui before,
    Forall is_row (log_of before) ->
    match secrets w with
    | NoSecrets message =>
        snd (rerun w ui before)
        = Raise (StreamlitSecretNotFoundError message) /\
        history (fst (rerun w ui before)) = before
    | SecretsStore _ =>
        snd (rerun w ui before) = Ok tt \/
        exists m,
          button_clicked ui TIPS_LABEL = true /\ model w = Ok (Some m) /\
          bindR (service w m (prompt_of (entries_of ui))) text
          = Raise KeyboardInterrupt /\
          snd (rerun w ui before) = Raise KeyboardInterrupt
    end.
Proof.
  intros w ui before Hrows. pose proof (model_secrets w) as Hmo.
  destruct (secrets w) as [message | items].
  - rewrite (rerun_stop w _ ui before Hmo). split; reflexivity.
  - rewrite (rerun_run w _ ui before Hmo Hrows).
    destruct (button_clicked ui TIPS_LABEL); [| now left].
    cbn [snd]. unfold advice.
    destruct (dict_get items GEMINI_API_KEY) as [k |]; [| now left].
    destruct (bindR _ text) as [tips | e] eqn:E; [now left|].
    destruct e; cbn [is_Exception outcome]; try (now left).
    right. eexists. split; [reflexivity|]. split; [exact Hmo|].
    split; [exact E | reflexivity].
Qed.

Lemma run_endings_witness :
  let day := {| year := 2026; month := 11; day := 3 |} in
  let w1 := {| secrets := SecretsStore [(GEMINI_API_KEY, lit "k")];
               today := day; service := fun _ _ => Raise KeyboardInterrupt;
               platform := Posix |} in
  let w2 := {| secrets := NoSecrets (lit "No secrets found."); today := day;
               service := fun _ _ => Raise KeyboardInterrupt;
               platform := Posix |} in
  let ui := {| radio_choice := Semester; number_entry := fun _ => -7;
               button_clicked := fun _ => true |} in
  (snd (rerun w1 ui None) = Ok tt \/
   exists m,
     button_clicked ui TIPS_LABEL = true /\ model w1 = Ok (Some m) /\
     bindR (service w1 m (prompt_of (entries_of ui))) text
     = Raise KeyboardInterrupt /\
     snd (rerun w1 ui None) = Raise KeyboardInterrupt) /\
  snd (rerun w2 ui None)
  = Raise (StreamlitSecretNotFoundError (lit "No secrets found.")) /\
  history (fst (rerun w2 ui None)) = None.
Proof.
  intros day w1 w2 ui. split.
  - apply (run_endings w1 ui None). constructor.
  - apply (run_endings w2 ui None). constructor.
Defined.

(** The bound on the budget for the nearest cent is needed: at the largest
    budget a widget delivers the doubles near the quotient are a quarter
    apart, and the line shows [.25] where the nearest cent is [.17]. *)
Remark insight_beyond_2_40 :
  let b := 2 ^ 53 - 1 in
  b <= MAX_SAFE_INTEGER /\
  bindR (computeEquivalent Semester b) (fun f => Ok (Float.format_2f f))
  = Ok (lit "1501199875790165.25") /\
  Float.round_half_even (100 * b) 6 = 150119987579016517.
Proof. repeat split; vm_compute; try reflexivity. discriminate. Qed.

(** X16.  The input section renders the page configuration, the title, the
    caption, the mode radio with its two options, the budget and goal boxes
    of the chosen mode, the sub-header, and then one expander per category
    of the mode, in table order, labelled "category - description" and
    holding the one number box of the category.  What is rendered depends
    on the chosen mode only. *)
Theorem input_page_layout :
  forall ui,
    let m := radio_choice ui in
    input_page ui =
    [ StPageConfig (cp 0x1F393 ++ lit " Student Budgeting App") (lit "wide");
      StTitle (cp 0x1F393 ++ lit " Smart Budgeting App for College Students");
      StCaption (lit "Plan monthly OR semester budgets, track expenses, visualize data, and get AI tips!");
      StRadio (cp 0x1F4C5 ++ lit " Choose mode:") [MONTHLY; SEMESTER];
      StNumberInput (budget_label m);
      StNumberInput (goal_label m);
      StSubheader (cp 0x1F4DD ++ lit " Add Your Expenses") ]
    ++ map (fun item =>
              StExpander (fst item ++ lit " - " ++ snd item)
                [StNumberInput (lit "Enter amount for " ++ fst item
                                ++ lit " (" ++ RUPEE ++ lit "):")])
           (categories_of m).
Proof.
  intros [choice entry clicked]. cbn [radio_choice].
  destruct choice; cbv -[number_value]; reflexivity.
Qed.
